(** * Client-side request orchestration of the AI photo editor (api.js)

    A shallow embedding of [api.js]: the model registries and their setters,
    the rate-limit gate, the image operations from their request to the
    value they extract from the response, and [sendChatMessage] with its
    streaming decoder and its optimistic update of the conversation
    history; and of the serverless proxies [api/chat.js], [api/edit.js] and
    [api/enhance.js] that these operations post to.

    JavaScript strings are Rocq strings, one [ascii] per code unit; text with
    code units above 255 is outside the model.  Platform functions
    ([JSON.parse], [TextDecoder]) and the helpers of [utils.js], which the
    module only calls, are parameters gathered in type classes. *)

From Stdlib Require Import String Ascii List ZArith Bool Lia DecimalString.
Set Warnings "-register-all".
Import ListNotations.
Local Open Scope list_scope.
Local Open Scope string_scope.

(** ** JavaScript string primitives used by api.js *)

Module JSString.

Definition LF : ascii := "010"%char.

(** [s.indexOf(c)]; [None] stands for [-1]. *)
Fixpoint indexOf (c : ascii) (s : string) : option nat :=
  match s with
  | EmptyString => None
  | String a r => if Ascii.eqb a c then Some 0 else option_map S (indexOf c r)
  end.

(** [s.slice(0, n)] for [0 <= n]. *)
Fixpoint slice_to (n : nat) (s : string) : string :=
  match n, s with
  | S n', String a r => String a (slice_to n' r)
  | _, _ => EmptyString
  end.

(** [s.slice(n)] for [0 <= n]. *)
Fixpoint slice_from (n : nat) (s : string) : string :=
  match n, s with
  | S n', String _ r => slice_from n' r
  | _, _ => s
  end.

(** [s.startsWith(p)]. *)
Definition startsWith (p s : string) : bool := String.prefix p s.

(** White space and line terminators among the code units below 256:
    TAB, LF, VT, FF, CR, SP and NBSP. *)
Definition isWhiteSpace (c : ascii) : bool :=
  let n := nat_of_ascii c in
  (((9 <=? n) && (n <=? 13)) || (n =? 32) || (n =? 160))%nat.

Fixpoint trimStart (s : string) : string :=
  match s with
  | String c r => if isWhiteSpace c then trimStart r else s
  | EmptyString => EmptyString
  end.

Fixpoint trimEnd (s : string) : string :=
  match s with
  | EmptyString => EmptyString
  | String c r =>
      match trimEnd r with
      | EmptyString => if isWhiteSpace c then EmptyString else String c EmptyString
      | r' => String c r'
      end
  end.

(** [s.trim()]. *)
Definition trim (s : string) : string := trimEnd (trimStart s).

(** [s.toLowerCase()] on code units below 256. *)
Definition lowerChar (c : ascii) : ascii :=
  let n := nat_of_ascii c in
  if (((65 <=? n) && (n <=? 90))
      || ((192 <=? n) && (n <=? 222) && negb (n =? 215)))%nat
  then ascii_of_nat (n + 32) else c.

Fixpoint toLowerCase (s : string) : string :=
  match s with
  | EmptyString => EmptyString
  | String c r => String (lowerChar c) (toLowerCase r)
  end.

(** [s.includes(needle)]. *)
Fixpoint includes (needle s : string) : bool :=
  String.prefix needle s
  || match s with
     | EmptyString => false
     | String _ r => includes needle r
     end.

(** Decimal rendering of an integer, as a template literal prints it. *)
Definition ofZ (z : Z) : string := NilZero.string_of_int (Z.to_int z).

(** [Math.ceil(x / d)] for integers [x] and a positive [d]. *)
Definition ceilDiv (x d : Z) : Z := (- ((- x) / d))%Z.

End JSString.
Import JSString.

(** ** JSON values and the conversions the decoder applies to them *)

(** The number type of the engine (IEEE doubles in a browser) is kept
    abstract: only its truthiness and its string conversion are used. *)
Class JSNumber := {
  number : Type;
  number_truthy : number -> bool;
  number_toString : number -> string
}.

Section Values.
Context {Num : JSNumber}.

(** What [JSON.parse] can return. *)
Inductive JSValue : Type :=
| JNull
| JBool (b : bool)
| JNum (n : number)
| JStr (s : string)
| JArr (elems : list JSValue)
| JObj (props : list (string * JSValue)).

(** ToBoolean.  [None] of an [option JSValue] is [undefined]. *)
Definition truthy (v : JSValue) : bool :=
  match v with
  | JNull => false
  | JBool b => b
  | JNum n => number_truthy n
  | JStr s => negb (s =? "")
  | JArr _ | JObj _ => true
  end.

Definition truthy_opt (v : option JSValue) : bool :=
  match v with Some x => truthy x | None => false end.

(** Own property of an object built by [JSON.parse]: of duplicate keys
    the last one wins. *)
Fixpoint ownProp (k : string) (props : list (string * JSValue)) : option JSValue :=
  match props with
  | [] => None
  | (k', v) :: r =>
      match ownProp k r with
      | Some v' => Some v'
      | None => if k' =? k then Some v else None
      end
  end.

(** [v\[k\]] / [v.k] on a value that is neither [null] nor [undefined],
    for the property names the chat decoder reads ([error], [message],
    [choices], [0], [delta], [content]): none of them is inherited from a
    built-in prototype, so only own properties, the first element of an
    array and the first code unit of a string can answer. *)
Definition prop (v : JSValue) (k : string) : option JSValue :=
  match v with
  | JObj props => ownProp k props
  | JArr elems => if k =? "0" then nth_error elems 0 else None
  | JStr (String c _) => if k =? "0" then Some (JStr (String c EmptyString)) else None
  | _ => None
  end.

(** Optional chaining [v?.k]. *)
Definition optProp (v : option JSValue) (k : string) : option JSValue :=
  match v with
  | None | Some JNull => None
  | Some x => prop x k
  end.

(** ToString, as applied by [+=] on a string and by [new Error(v)].
    [None] is the TypeError raised for an object whose own [toString]
    property (never callable after [JSON.parse]) hides the inherited one. *)
Fixpoint toString (v : JSValue) : option string :=
  match v with
  | JNull => Some "null"
  | JBool true => Some "true"
  | JBool false => Some "false"
  | JNum n => Some (number_toString n)
  | JStr s => Some s
  | JArr elems =>
      (fix join (l : list JSValue) : option string :=
         match l with
         | [] => Some ""
         | x :: r =>
             let item := match x with JNull => Some "" | _ => toString x end in
             match item, r with
             | None, _ => None
             | Some a, [] => Some a
             | Some a, _ :: _ =>
                 match join r with
                 | Some b => Some (a ++ "," ++ b)
                 | None => None
                 end
             end
         end) elems
  | JObj props =>
      match ownProp "toString" props with
      | Some _ => None
      | None => Some "[object Object]"
      end
  end.

End Values.

(** ** Errors and platform interfaces *)

(** A thrown [Error] object; only its [message] is ever inspected. *)
Record JSError := mkError { message : string }.

(** A settled promise. *)
Inductive Settled (A : Type) : Type :=
| Resolved (a : A)
| Rejected (e : JSError).
Arguments Resolved {A} a.
Arguments Rejected {A} e.

(** The JavaScript engine over its numbers: [JSON.parse] ([None] is the
    SyntaxError it throws) and the two TypeErrors the module can provoke
    outside the decoder's inner [try]. *)
Class Engine {Num : JSNumber} := {
  JSON_parse : string -> option JSValue;
  TypeError_nullRead : JSError;
  TypeError_toPrimitive : JSError
}.

(** [new TextDecoder()] used as [decoder.decode(value, { stream: true })]:
    a call returns the text it can produce and keeps an incomplete
    multi-byte sequence in the decoder for the next call. *)
Class TextDecoder := {
  decoderState : Type;
  newTextDecoder : decoderState;
  decode : decoderState -> list Byte.byte -> string * decoderState
}.

(** The streaming contract of the decoder: no bytes produce no text, and
    feeding bytes in one call or in two consecutive calls produces the same
    text and the same state. *)
Class StreamingDecoder (D : TextDecoder) : Prop := {
  decode_nil : forall d, decode d [] = ("", d);
  decode_app : forall d a b,
    decode d (a ++ b)%list =
    (let (x, d1) := decode d a in
     let (y, d2) := decode d1 b in (x ++ y, d2))
}.

(** ** The stream decoder of sendChatMessage (api.js, lines 597-650) *)

Section StreamDecoder.
Context {Num : JSNumber} {E : Engine}.

(** A call [onChunk(content, fullContent)]. *)
Definition Emission : Type := (JSValue * string)%type.

(** [onChunk] is [null] ([false]) or a callback ([true]) that returns
    normally; its calls are what the decoder emits. *)
Variable onChunk : bool.

(** What the inner [try] can raise: an exception of the engine (the
    SyntaxError of [JSON.parse], a TypeError), whose message is the
    engine's own text and never the literal ['Stream error'], or the
    [Error] built at line 627. *)
Inductive LineExn : Type :=
| EngineExn
| ErrorMsg (msg : string).

Inductive TryResult : Type :=
| Completed (fullContent : string) (calls : list Emission)
| Raised (e : LineExn).

(** [v || d]. *)
Definition orElse (v : option JSValue) (d : JSValue) : JSValue :=
  match v with
  | Some x => if truthy x then x else d
  | None => d
  end.

(** Body of the inner [try], lines 623-636. *)
Definition tryData (data fullContent : string) : TryResult :=
  match JSON_parse data with
  | None => Raised EngineExn
  | Some JNull => Raised EngineExn
  | Some parsed =>
      let error := prop parsed "error" in
      if truthy_opt error then
        match toString (orElse (optProp error "message") (JStr "Stream error")) with
        | Some msg => Raised (ErrorMsg msg)
        | None => Raised EngineExn
        end
      else
        let content :=
          optProp (optProp (optProp (prop parsed "choices") "0") "delta") "content" in
        match content with
        | Some c =>
            if truthy c then
              match toString c with
              | Some s =>
                  let fullContent' := fullContent ++ s in
                  Completed fullContent' (if onChunk then [(c, fullContent')] else [])
              | None => Raised EngineExn
              end
            else Completed fullContent []
        | None => Completed fullContent []
        end
  end.

Inductive LineResult : Type :=
| Next (fullContent : string) (calls : list Emission)
| Rethrow (e : JSError).

(** One trimmed line, lines 615-645, with the [catch] of lines 637-644. *)
Definition processLine (line fullContent : string) : LineResult :=
  if (line =? "") || startsWith ":" line then Next fullContent []
  else if startsWith "data: " line then
    let data := slice_from 6 line in
    if data =? "[DONE]" then Next fullContent []
    else
      match tryData data fullContent with
      | Completed fullContent' calls => Next fullContent' calls
      | Raised EngineExn => Next fullContent []
      | Raised (ErrorMsg msg) =>
          if msg =? "Stream error" then Rethrow (mkError msg)
          else Next fullContent []
      end
  else Next fullContent [].

Inductive LoopExit : Type :=
| Break (buffer fullContent : string)
| Thrown (e : JSError).

(** The inner [while (true)] of lines 608-646.  Every iteration removes at
    least the newline from the buffer, so [fuel] larger than the length of
    the buffer is never exhausted ([processBuffer_fuel] below). *)
Fixpoint processBuffer (fuel : nat) (buffer fullContent : string)
  : list Emission * LoopExit :=
  match fuel with
  | O => ([], Break buffer fullContent)
  | S fuel' =>
      match indexOf LF buffer with
      | None => ([], Break buffer fullContent)
      | Some lineEnd =>
          let line := trim (slice_to lineEnd buffer) in
          let buffer' := slice_from (S lineEnd) buffer in
          match processLine line fullContent with
          | Next fullContent' calls =>
              let (calls', exit) := processBuffer fuel' buffer' fullContent' in
              ((calls ++ calls')%list, exit)
          | Rethrow e => ([], Thrown e)
          end
      end
  end.

Definition drainBuffer (buffer fullContent : string) : list Emission * LoopExit :=
  processBuffer (S (String.length buffer)) buffer fullContent.

(** How the byte stream ends: [reader.read()] reports [done], or rejects
    (a transport failure, an abort). *)
Inductive StreamEnd : Type :=
| StreamDone
| ReadError (e : JSError).

(** Reference point for the reassembly property, not a part of api.js:
    the inner loop run once over a text that is available as a whole,
    followed by the end of the stream. *)
Definition decodeWhole (text fullContent : string) (ending : StreamEnd)
  : list Emission * (JSError + string) :=
  match drainBuffer text fullContent with
  | (calls, Break _ fullContent') =>
      (calls, match ending with
              | StreamDone => inr fullContent'
              | ReadError e => inl e
              end)
  | (calls, Thrown e) => (calls, inl e)
  end.

Context {D : TextDecoder}.

(** The outer [while (true)] of lines 601-647 over the successive values
    of [reader.read()].  The result is the final [fullContent] or the
    error that left the loop. *)
Fixpoint readLoop (values : list (list Byte.byte)) (ending : StreamEnd)
         (d : decoderState) (buffer fullContent : string)
  : list Emission * (JSError + string) :=
  match values with
  | [] =>
      match ending with
      | StreamDone => ([], inr fullContent)
      | ReadError e => ([], inl e)
      end
  | value :: rest =>
      let (text, d') := decode d value in
      match drainBuffer (buffer ++ text) fullContent with
      | (calls, Break buffer' fullContent') =>
          let (calls', r) := readLoop rest ending d' buffer' fullContent' in
          ((calls ++ calls')%list, r)
      | (calls, Thrown e) => (calls, inl e)
      end
  end.

(** Lines 595-650: a fresh decoder, an empty buffer, an empty response. *)
Definition decodeStream (values : list (list Byte.byte)) (ending : StreamEnd)
  : list Emission * (JSError + string) :=
  readLoop values ending newTextDecoder "" "".

End StreamDecoder.

(** ** Model registries and module state (api.js, lines 36-152) *)

Record ModelInfo := { name : string; description : string }.

(** An object literal used as a map from model id to its display data. *)
Definition ModelRegistry : Type := list (string * ModelInfo).

Definition IMAGE_GENERATION_MODELS : ModelRegistry :=
  [ ("black-forest-labs/flux.2-pro",
     {| name := "FLUX.2 Pro";
        description := "A high-end image generation and editing model focused on frontier-level visual quality and reliability. Strong prompt adherence, stable lighting, sharp textures." |});
    ("black-forest-labs/flux.2-flex",
     {| name := "FLUX.2 Flex";
        description := "Excels at rendering complex text, typography, and fine details. Supports multi-reference editing in the same unified architecture." |});
    ("google/gemini-3-pro-image-preview",
     {| name := "Gemini 3 Pro Image";
        description := "Google's latest multimodal model with advanced image generation capabilities and excellent prompt understanding." |});
    ("openai/gpt-5-image-mini",
     {| name := "GPT-5 Image Mini";
        description := "OpenAI's compact image generation model. Fast and efficient with great quality for most use cases." |});
    ("openai/gpt-5-image",
     {| name := "GPT-5 Image";
        description := "OpenAI's flagship image generation model. Best-in-class quality and creativity." |});
    ("google/gemini-2.5-flash-image",
     {| name := "Gemini 2.5 Flash Image";
        description := "Google's fast image generation model. Optimized for speed while maintaining good quality." |}) ].

Definition CHAT_MODELS : ModelRegistry :=
  [ ("anthropic/claude-sonnet-4.5",
     {| name := "Claude Sonnet 4.5";
        description := "Anthropic's balanced model. Excellent reasoning with fast response times." |});
    ("anthropic/claude-opus-4.5",
     {| name := "Claude Opus 4.5";
        description := "Anthropic's most capable model. Best for complex analysis and nuanced tasks." |});
    ("anthropic/claude-haiku-4.5",
     {| name := "Claude Haiku 4.5";
        description := "Anthropic's fastest model. Lightning quick responses for simple tasks." |});
    ("openai/gpt-5.1",
     {| name := "GPT-5.1";
        description := "OpenAI's flagship model. State-of-the-art reasoning and knowledge." |});
    ("openai/gpt-5.1-chat",
     {| name := "GPT-5.1 Chat";
        description := "OpenAI's conversational model. Optimized for natural dialogue." |});
    ("openai/gpt-5-image-mini",
     {| name := "GPT-5 Image Mini";
        description := "OpenAI's multimodal model. Can understand and discuss images." |});
    ("openai/gpt-4.1",
     {| name := "GPT-4.1";
        description := "OpenAI's reliable workhorse. Great balance of speed and capability." |});
    ("x-ai/grok-4.1-fast",
     {| name := "Grok 4.1 Fast";
        description := "xAI's fast model. Quick responses with real-time knowledge." |});
    ("google/gemini-3-pro-preview",
     {| name := "Gemini 3 Pro";
        description := "Google's advanced model. Excellent multimodal understanding." |});
    ("google/gemini-2.5-pro",
     {| name := "Gemini 2.5 Pro";
        description := "Google's professional model. Great for detailed analysis." |});
    ("google/gemini-2.5-flash",
     {| name := "Gemini 2.5 Flash";
        description := "Google's fast model. Quick responses with good quality." |});
    ("google/gemini-2.5-flash-lite-preview-09-2025",
     {| name := "Gemini 2.5 Flash Lite";
        description := "Google's lightweight model. Fastest responses for simple queries." |}) ].

(** [id] is one of the keys written in the registry literal. *)
Definition isRegistryKey (registry : ModelRegistry) (id : string) : bool :=
  existsb (fun entry => fst entry =? id) registry.

(** Property names every object literal inherits from [Object.prototype];
    each of them reads as a function or an object, hence as a truthy value. *)
Definition Object_prototype_names : list string :=
  [ "constructor"; "__defineGetter__"; "__defineSetter__"; "hasOwnProperty";
    "__lookupGetter__"; "__lookupSetter__"; "isPrototypeOf";
    "propertyIsEnumerable"; "toString"; "valueOf"; "__proto__";
    "toLocaleString" ].

Definition inheritedName (id : string) : bool :=
  existsb (fun name => name =? id) Object_prototype_names.

(** The test [if (REGISTRY\[modelId\])] of the setters: the bracket read
    answers with the registry entry (an object, truthy) for an own key,
    walks the prototype chain otherwise, and is [undefined] only when the
    name is found nowhere. *)
Definition registryRead_truthy (registry : ModelRegistry) (modelId : string) : bool :=
  isRegistryKey registry modelId || inheritedName modelId.

Inductive Role : Type := user | assistant.

(** An element of [chatHistory]. *)
Record Turn := { role : Role; content : string }.

(** The helpers of [utils.js] that api.js calls.  The rate limiter is an
    object with internal state; every method reads the clock ([now], in
    milliseconds) and may update the object. *)
Class Utils := {
  RateLimiter : Type;
  newRateLimiter : Z -> Z -> RateLimiter;
  canMakeRequest : Z -> RateLimiter -> bool * RateLimiter;
  getTimeUntilNextRequest : Z -> RateLimiter -> Z * RateLimiter;
  getRemainingRequests : Z -> RateLimiter -> Z * RateLimiter;
  sanitizePrompt : string -> string;
  getUserFriendlyError : JSError -> string;
  prepareImageForUpload : string -> JSError + string
}.

Section Api.
Context {U : Utils}.

(** The module-level variables of api.js. *)
Record State := {
  apiRateLimiter : RateLimiter;
  currentGenerationModel : string;
  currentEditModel : string;
  currentChatModel : string;
  chatHistory : list Turn;
  webSearchEnabled : bool
}.

(** The state when the script has been loaded. *)
Definition initialState : State :=
  {| apiRateLimiter := newRateLimiter 10 60000;
     currentGenerationModel := "black-forest-labs/flux.2-pro";
     currentEditModel := "openai/gpt-5-image-mini";
     currentChatModel := "anthropic/claude-sonnet-4.5";
     chatHistory := [];
     webSearchEnabled := false |}.

Definition withLimiter (st : State) (l : RateLimiter) : State :=
  {| apiRateLimiter := l;
     currentGenerationModel := currentGenerationModel st;
     currentEditModel := currentEditModel st;
     currentChatModel := currentChatModel st;
     chatHistory := chatHistory st;
     webSearchEnabled := webSearchEnabled st |}.

Definition withHistory (st : State) (h : list Turn) : State :=
  {| apiRateLimiter := apiRateLimiter st;
     currentGenerationModel := currentGenerationModel st;
     currentEditModel := currentEditModel st;
     currentChatModel := currentChatModel st;
     chatHistory := h;
     webSearchEnabled := webSearchEnabled st |}.

(** *** Model setters (lines 427-431, 454-458, 484-488) *)

Definition setGenerationModel (modelId : string) (st : State) : State :=
  if registryRead_truthy IMAGE_GENERATION_MODELS modelId then
    {| apiRateLimiter := apiRateLimiter st;
       currentGenerationModel := modelId;
       currentEditModel := currentEditModel st;
       currentChatModel := currentChatModel st;
       chatHistory := chatHistory st;
       webSearchEnabled := webSearchEnabled st |}
  else st.

Definition setEditModel (modelId : string) (st : State) : State :=
  if registryRead_truthy IMAGE_GENERATION_MODELS modelId then
    {| apiRateLimiter := apiRateLimiter st;
       currentGenerationModel := currentGenerationModel st;
       currentEditModel := modelId;
       currentChatModel := currentChatModel st;
       chatHistory := chatHistory st;
       webSearchEnabled := webSearchEnabled st |}
  else st.

Definition setChatModel (modelId : string) (st : State) : State :=
  if registryRead_truthy CHAT_MODELS modelId then
    {| apiRateLimiter := apiRateLimiter st;
       currentGenerationModel := currentGenerationModel st;
       currentEditModel := currentEditModel st;
       currentChatModel := modelId;
       chatHistory := chatHistory st;
       webSearchEnabled := webSearchEnabled st |}
  else st.

(** *** Rate-limit gate and status (lines 159-164, 472-477) *)

(** [inr e]: the function throws [e]. *)
Definition checkRateLimit (now : Z) (l : RateLimiter) : (unit + JSError) * RateLimiter :=
  let (admitted, l1) := canMakeRequest now l in
  if admitted then (inl tt, l1)
  else
    let (ms, l2) := getTimeUntilNextRequest now l1 in
    let waitTime := ceilDiv ms 1000 in
    (inr (mkError ("Rate limit exceeded. Please wait " ++ ofZ waitTime
                   ++ " seconds before making another request.")), l2).



End Api.

(** ** The API operations *)

(** The JSON body posted to the proxy, by endpoint. *)
Inductive Request : Type :=
| PostAnalyze (prompt image : string)
| PostEdit (prompt image model : string)
| PostEnhance (prompt : string) (image : option string)
| PostGenerate (prompt model : string)
| PostChat (messages : list Turn) (model : string) (stream webSearch : bool).

(** [chatHistory.pop()] guarded as in lines 664-666: the last element is
    removed when the array is not empty and ends in a user turn. *)
Definition rollbackLastUser (history : list Turn) : list Turn :=
  if (0 <? List.length history)%nat
     && match nth_error history (List.length history - 1) with
        | Some {| role := user |} => true
        | _ => false
        end
  then removelast history
  else history.

Section Operations.
Context {Num : JSNumber} {E : Engine} {D : TextDecoder} {U : Utils}.

(** [model || current], with [None] for [null]. *)
Definition selectModel (model : option string) (current : string) : string :=
  match model with
  | Some m => if m =? "" then current else m
  | None => current
  end.

(** The tail shared by every [catch (error)] of the operations: an error
    that mentions the rate limit is thrown again as it is, any other one
    is replaced by its user-presentable form. *)
Definition rethrowFriendly (error : JSError) : JSError :=
  if includes "rate limit" (toLowerCase (message error)) then error
  else mkError (getUserFriendlyError error).

(** The operations on images are embedded up to their [fetch] call: the
    result is the error the promise is rejected with when no request is
    sent, or the request sent.  What they do with the response follows
    with the responses of api.js below. *)

(** analyzeImage, lines 173-196. *)
Definition analyzeImage_request (now : Z) (base64Image prompt : string) (st : State)
  : (JSError + Request) * State :=
  match checkRateLimit now (apiRateLimiter st) with
  | (inr e, l) => (inl e, withLimiter st l)
  | (inl _, l) =>
      let st1 := withLimiter st l in
      let sanitizedPrompt := sanitizePrompt prompt in
      if sanitizedPrompt =? "" then (inl (mkError "Invalid prompt provided"), st1)
      else
        match prepareImageForUpload base64Image with
        | inl e => (inl (rethrowFriendly e), st1)
        | inr preparedImage => (inr (PostAnalyze sanitizedPrompt preparedImage), st1)
        end
  end.

(** editImage, lines 221-247. *)
Definition editImage_request (now : Z) (base64Image prompt : string)
           (model : option string) (st : State) : (JSError + Request) * State :=
  match checkRateLimit now (apiRateLimiter st) with
  | (inr e, l) => (inl e, withLimiter st l)
  | (inl _, l) =>
      let st1 := withLimiter st l in
      let sanitizedPrompt := sanitizePrompt prompt in
      if sanitizedPrompt =? "" then (inl (mkError "Invalid prompt provided"), st1)
      else
        let selectedModel := selectModel model (currentEditModel st1) in
        match prepareImageForUpload base64Image with
        | inl e => (inl (rethrowFriendly e), st1)
        | inr preparedImage =>
            (inr (PostEdit sanitizedPrompt preparedImage selectedModel), st1)
        end
  end.

(** enhancePromptWithAI, lines 285-311. *)
Definition enhancePromptWithAI_request (now : Z) (userPrompt : string)
           (base64Image : option string) (st : State) : (JSError + Request) * State :=
  match checkRateLimit now (apiRateLimiter st) with
  | (inr e, l) => (inl e, withLimiter st l)
  | (inl _, l) =>
      let st1 := withLimiter st l in
      let sanitizedPrompt := sanitizePrompt userPrompt in
      if sanitizedPrompt =? "" then (inl (mkError "Invalid prompt provided"), st1)
      else
        match base64Image with
        | Some (String _ _ as image) =>
            match prepareImageForUpload image with
            | inl e => (inl (rethrowFriendly e), st1)
            | inr preparedImage =>
                (inr (PostEnhance sanitizedPrompt (Some preparedImage)), st1)
            end
        | _ => (inr (PostEnhance sanitizedPrompt None), st1)
        end
  end.

(** generateImage, lines 347-369. *)
Definition generateImage_request (now : Z) (prompt : string)
           (model : option string) (st : State) : (JSError + Request) * State :=
  match checkRateLimit now (apiRateLimiter st) with
  | (inr e, l) => (inl e, withLimiter st l)
  | (inl _, l) =>
      let st1 := withLimiter st l in
      let sanitizedPrompt := sanitizePrompt prompt in
      if sanitizedPrompt =? "" then (inl (mkError "Invalid prompt provided"), st1)
      else
        let selectedModel := selectModel model (currentGenerationModel st1) in
        (inr (PostGenerate sanitizedPrompt selectedModel), st1)
  end.

(** *** sendChatMessage (lines 555-672) *)

(** What the proxy answers to the one [fetch] of an exchange. *)
Inductive FetchResult : Type :=
| FetchRejected (e : JSError)
| HttpError (status : Z) (errorData : JSError + JSValue)
| HttpOk (values : list (list Byte.byte)) (ending : StreamEnd).

(** The [Error] of line 591. *)
Definition httpError (status : Z) (errorData : JSValue) : JSError :=
  match errorData with
  | JNull => TypeError_nullRead
  | _ =>
      match toString (orElse (prop errorData "error")
                             (JStr ("API request failed with status " ++ ofZ status))) with
      | Some msg => mkError msg
      | None => TypeError_toPrimitive
      end
  end.

(** The [try] block once the request is on its way, lines 574-660: the
    value returned or the error thrown, the calls of [onChunk], and
    [chatHistory] when the block is left. *)
Definition exchange (onChunk : bool) (net : FetchResult) (history : list Turn)
  : (JSError + string) * list Emission * list Turn :=
  match net with
  | FetchRejected e => (inl e, [], history)
  | HttpError status (inl e) => (inl e, [], history)
  | HttpError status (inr errorData) =>
      (inl (httpError status errorData), [], removelast history)
  | HttpOk values ending =>
      match decodeStream onChunk values ending with
      | (calls, inl e) => (inl e, calls, history)
      | (calls, inr fullContent) =>
          if fullContent =? "" then (inr "No response received", calls, history)
          else (inr fullContent, calls,
                (history ++ [ {| role := assistant; content := fullContent |} ])%list)
      end
  end.

(** What an observer sees of a call, in order. *)
Inductive Event : Type :=
| Fetch (r : Request)
| OnChunk (content : JSValue) (fullContent : string).

Record Run := { result : Settled string; events : list Event; final : State }.

(** One call, run to completion without another writer of [chatHistory]
    in between. *)
Definition sendChatMessage (now : Z) (message : string) (onChunk : bool)
           (model : option string) (net : FetchResult) (st : State) : Run :=
  match checkRateLimit now (apiRateLimiter st) with
  | (inr e, l) =>
      {| result := Rejected e; events := []; final := withLimiter st l |}
  | (inl _, l) =>
      let st1 := withLimiter st l in
      let sanitizedMessage := sanitizePrompt message in
      if sanitizedMessage =? "" then
        {| result := Rejected (mkError "Invalid message provided");
           events := []; final := st1 |}
      else
        let selectedModel := selectModel model (currentChatModel st1) in
        let pushed :=
          (chatHistory st1 ++ [ {| role := user; content := sanitizedMessage |} ])%list in
        let request := PostChat pushed selectedModel true (webSearchEnabled st1) in
        match exchange onChunk net pushed with
        | (inr response, calls, history) =>
            {| result := Resolved response;
               events := Fetch request :: map (fun c => OnChunk (fst c) (snd c)) calls;
               final := withHistory st1 history |}
        | (inl error, calls, history) =>
            {| result := Rejected (rethrowFriendly error);
               events := Fetch request :: map (fun c => OnChunk (fst c) (snd c)) calls;
               final := withHistory st1 (rollbackLastUser history) |}
        end
  end.

End Operations.

(** ** The rate limiter of utils.js *)

Module SpecRateLimiter.

(** Modelled from the spec: the [RateLimiter] class of utils.js, of which
    the sources hold only the calls.  Sections 3 and 4.1: a sliding window
    of admission timestamps with a fixed capacity; on every check the
    timestamps older than [now - windowDurationMs] are discarded from the
    stored window; a call is admitted iff fewer than [maxCalls] remain; a
    check records no admission, recording one is a separate step. *)
Record RateWindow := {
  maxCalls : Z;
  windowDurationMs : Z;
  timestamps : list Z
}.

(** Modelled from the spec: construction; the configuration is fixed. *)
Definition create (maxCalls windowDurationMs : Z) : RateWindow :=
  {| maxCalls := maxCalls; windowDurationMs := windowDurationMs; timestamps := [] |}.

(** Modelled from the spec: the timestamps that are not older than
    [now - windowDurationMs]. *)
Definition retained (now : Z) (w : RateWindow) : list Z :=
  filter (fun t => (now - windowDurationMs w <=? t)%Z) (timestamps w).

(** Modelled from the spec: what every check does to the stored window,
    "entries older than the window are purged lazily on each check"; the
    configuration is not touched. *)
Definition purge (now : Z) (w : RateWindow) : RateWindow :=
  {| maxCalls := maxCalls w;
     windowDurationMs := windowDurationMs w;
     timestamps := retained now w |}.

(** Modelled from the spec: the answer of [canAdmit(now)]: fewer than
    [maxCalls] timestamps remain once the expired ones are discarded. *)
Definition canAdmit (now : Z) (w : RateWindow) : bool :=
  (Z.of_nat (List.length (retained now w)) <? maxCalls w)%Z.


(** Modelled from the spec: the answer of [timeUntilNextSlot(now)], the
    time until the oldest retained timestamp falls outside the window,
    zero when a call is admittable.  A timestamp [t] is retained as long
    as [now - windowDurationMs <= t], so on the millisecond clock it is
    outside the window from [t + windowDurationMs + 1] on.  A limiter that
    refuses with nothing retained, which takes a capacity of zero or less,
    has no such timestamp to wait for. *)
Definition timeUntilNextSlot (now : Z) (w : RateWindow) : Z :=
  if canAdmit now w then 0%Z
  else
    match retained now w with
    | oldest :: _ => (oldest + windowDurationMs w + 1 - now)%Z
    | [] => 0%Z
    end.

(** Modelled from the spec: the [remaining] figure of the status query. *)
Definition remainingCalls (now : Z) (w : RateWindow) : Z :=
  Z.max 0 (maxCalls w - Z.of_nat (List.length (retained now w))).

(** Modelled from the spec: [canMakeRequest], the admission check as
    api.js calls it.  It answers [canAdmit] and, like every check, leaves
    the purged window stored; it records no admission. *)
Definition canMakeRequest (now : Z) (w : RateWindow) : bool * RateWindow :=
  (canAdmit now w, purge now w).

(** Modelled from the spec: [getTimeUntilNextRequest], the check that
    answers [timeUntilNextSlot]; it purges and records nothing. *)
Definition getTimeUntilNextRequest (now : Z) (w : RateWindow) : Z * RateWindow :=
  (timeUntilNextSlot now w, purge now w).

(** Modelled from the spec: [getRemainingRequests], the check behind the
    [remaining] figure; it purges and records nothing. *)
Definition getRemainingRequests (now : Z) (w : RateWindow) : Z * RateWindow :=
  (remainingCalls now w, purge now w).

(** Modelled from the spec: the helpers of utils.js with this limiter
    behind the three methods; the sanitizer, the error normalizer and the
    image preparer stay parameters. *)
Definition utils (sanitizePrompt : string -> string)
           (getUserFriendlyError : JSError -> string)
           (prepareImageForUpload : string -> JSError + string) : Utils :=
  Build_Utils RateWindow create canMakeRequest getTimeUntilNextRequest
              getRemainingRequests sanitizePrompt getUserFriendlyError
              prepareImageForUpload.

End SpecRateLimiter.

(** ** The image preparer of utils.js *)

Module SpecImagePreparer.
Section Preparer.

(** The codec of the platform (canvas decoding and lossy re-encoding) and
  the fixed schedule of re-encoding steps, each step a quality and a
  uniform scale, ending at the floor. *)
Variables (Bitmap Step : Type).
Variable decodeImage : string -> Bitmap.
Variable encodeImage : Bitmap -> Step -> string.
Variable schedule : list Step.

(** Modelled from the spec: the encoded size of a payload, the number of
  code units of its data URI. *)
Definition encodedSize (image : string) : nat := String.length image.

(** Modelled from the spec: re-encode along the schedule until the
  budget is met or the schedule (the floor) is exhausted. *)
Fixpoint reencode (bitmap : Bitmap) (maxBytes : nat) (steps : list Step)
: option string :=
match steps with
| [] => None
| step :: steps' =>
    let candidate := encodeImage bitmap step in
    if (encodedSize candidate <=? maxBytes)%nat then Some candidate
    else reencode bitmap maxBytes steps'
end.

Definition ImageTooLarge : JSError := mkError "ImageTooLarge".

(** Modelled from the spec: [prepare(image, maxBytes)], the
  [prepareImageForUpload] of utils.js, which the sources only call.
  Section 4.2: decode the source; if the encoded size is within
  [maxBytes] return it unchanged; otherwise re-encode at decreasing
  quality and size until the budget is met, and fail with
  [ImageTooLarge] when the floor is reached first. *)
Definition prepare (image : string) (maxBytes : nat) : JSError + string :=
let bitmap := decodeImage image in
if (encodedSize image <=? maxBytes)%nat then inr image
else
  match reencode bitmap maxBytes schedule with
  | Some payload => inr payload
  | None => inl ImageTooLarge
  end.

End Preparer.

Arguments reencode {Bitmap Step} encodeImage bitmap maxBytes steps.
Arguments prepare {Bitmap Step} decodeImage encodeImage schedule image maxBytes.

End SpecImagePreparer.

(** ** A reference engine for worked examples

    The general results below hold for every engine.  To run the code on
    concrete streams, this module provides one: integers for numbers, a
    reader for JSON texts whose number literals are integers and whose
    [\u] escapes stay below 256 (any other text is reported as a syntax
    error), and a decoder for 7-bit input, on which UTF-8 decoding is the
    identity. *)

Module Reference.

Definition ZNumber : JSNumber :=
  {| number := Z;
     number_truthy := fun z => negb (z =? 0)%Z;
     number_toString := ofZ |}.

Definition Value : Type := @JSValue ZNumber.

Definition DQUOTE : ascii := "034"%char.
Definition BACKSLASH : ascii := "092"%char.

Definition isJsonSpace (c : ascii) : bool :=
  let n := nat_of_ascii c in ((n =? 32) || (n =? 9) || (n =? 10) || (n =? 13))%nat.

Fixpoint skipSpace (s : string) : string :=
  match s with
  | String c r => if isJsonSpace c then skipSpace r else s
  | EmptyString => s
  end.

Definition digit (c : ascii) : option Z :=
  let n := nat_of_ascii c in
  if ((48 <=? n) && (n <=? 57))%nat then Some (Z.of_nat (n - 48)) else None.

Definition hexDigit (c : ascii) : option nat :=
  let n := nat_of_ascii c in
  if ((48 <=? n) && (n <=? 57))%nat then Some (n - 48)
  else if ((65 <=? n) && (n <=? 70))%nat then Some (n - 55)
  else if ((97 <=? n) && (n <=? 102))%nat then Some (n - 87)
  else None.

Fixpoint digits (acc : Z) (s : string) : Z * string :=
  match s with
  | String c r =>
      match digit c with
      | Some d => digits (acc * 10 + d) r
      | None => (acc, s)
      end
  | EmptyString => (acc, s)
  end.

(** After an integer literal a fraction or an exponent may not follow. *)
Definition endsInteger (s : string) : bool :=
  match s with
  | String c _ =>
      negb ((c =? ".")%char || (c =? "e")%char || (c =? "E")%char)
  | EmptyString => true
  end.

Definition unsignedInteger (s : string) : option (Z * string) :=
  match s with
  | String c r =>
      match digit c with
      | Some 0%Z =>
          match r with
          | String c' _ =>
              match digit c' with
              | Some _ => None
              | None => if endsInteger r then Some (0%Z, r) else None
              end
          | EmptyString => Some (0%Z, r)
          end
      | Some d =>
          let (n, rest) := digits d r in
          if endsInteger rest then Some (n, rest) else None
      | None => None
      end
  | EmptyString => None
  end.

Definition integer (s : string) : option (Z * string) :=
  match s with
  | String "-" r =>
      match unsignedInteger r with
      | Some (n, rest) => Some ((- n)%Z, rest)
      | None => None
      end
  | _ => unsignedInteger s
  end.

Definition escaped (c : ascii) : option ascii :=
  if (c =? DQUOTE)%char then Some DQUOTE
  else if (c =? BACKSLASH)%char then Some BACKSLASH
  else if (c =? "/")%char then Some "/"%char
  else if (c =? "b")%char then Some "008"%char
  else if (c =? "f")%char then Some "012"%char
  else if (c =? "n")%char then Some "010"%char
  else if (c =? "r")%char then Some "013"%char
  else if (c =? "t")%char then Some "009"%char
  else None.

(** The characters of a string literal after its opening quote, and the
    text after its closing quote. *)
Fixpoint stringBody (s : string) : option (string * string) :=
  match s with
  | EmptyString => None
  | String c r =>
      if (c =? DQUOTE)%char then Some (EmptyString, r)
      else if (c =? BACKSLASH)%char then
        match r with
        | String "u" (String h1 (String h2 (String h3 (String h4 r')))) =>
            match hexDigit h1, hexDigit h2, hexDigit h3, hexDigit h4 with
            | Some 0, Some 0, Some a, Some b =>
                match stringBody r' with
                | Some (t, rest) => Some (String (ascii_of_nat (16 * a + b)) t, rest)
                | None => None
                end
            | _, _, _, _ => None
            end
        | String e r' =>
            match escaped e, stringBody r' with
            | Some x, Some (t, rest) => Some (String x t, rest)
            | _, _ => None
            end
        | EmptyString => None
        end
      else if (nat_of_ascii c <? 32)%nat then None
      else
        match stringBody r with
        | Some (t, rest) => Some (String c t, rest)
        | None => None
        end
  end.

Definition keyword (k : string) (v : Value) (s : string) : option (Value * string) :=
  if String.prefix k s then Some (v, slice_from (String.length k) s) else None.

(** A JSON value at the head of [s] (after optional white space) and the
    text that follows it. *)
Fixpoint value (fuel : nat) (s : string) {struct fuel} : option (Value * string) :=
  match fuel with
  | O => None
  | S fuel' =>
      match skipSpace s with
      | String "{" r =>
          match skipSpace r with
          | String "}" r' => Some (JObj [], r')
          | r' =>
              match members fuel' r' with
              | Some (ms, rest) => Some (JObj ms, rest)
              | None => None
              end
          end
      | String "[" r =>
          match skipSpace r with
          | String "]" r' => Some (JArr [], r')
          | r' =>
              match elements fuel' r' with
              | Some (vs, rest) => Some (JArr vs, rest)
              | None => None
              end
          end
      | String "034" r =>
          match stringBody r with
          | Some (t, rest) => Some (JStr t, rest)
          | None => None
          end
      | String "t" _ as s' => keyword "true" (JBool true) s'
      | String "f" _ as s' => keyword "false" (JBool false) s'
      | String "n" _ as s' => keyword "null" JNull s'
      | s' =>
          match integer s' with
          | Some (n, rest) => Some (JNum (n : @number ZNumber), rest)
          | None => None
          end
      end
  end

with elements (fuel : nat) (s : string) {struct fuel} : option (list Value * string) :=
  match fuel with
  | O => None
  | S fuel' =>
      match value fuel' s with
      | Some (v, r) =>
          match skipSpace r with
          | String "," r' =>
              match elements fuel' r' with
              | Some (vs, rest) => Some (v :: vs, rest)
              | None => None
              end
          | String "]" r' => Some ([v], r')
          | _ => None
          end
      | None => None
      end
  end

with members (fuel : nat) (s : string) {struct fuel}
  : option (list (string * Value) * string) :=
  match fuel with
  | O => None
  | S fuel' =>
      match skipSpace s with
      | String "034" r =>
          match stringBody r with
          | Some (k, r1) =>
              match skipSpace r1 with
              | String ":" r2 =>
                  match value fuel' r2 with
                  | Some (v, r3) =>
                      match skipSpace r3 with
                      | String "," r4 =>
                          match members fuel' r4 with
                          | Some (ms, rest) => Some ((k, v) :: ms, rest)
                          | None => None
                          end
                      | String "}" r4 => Some ([(k, v)], r4)
                      | _ => None
                      end
                  | None => None
                  end
              | _ => None
              end
          | None => None
          end
      | _ => None
      end
  end.

(** [JSON.parse(text)]. *)
Definition parse (text : string) : option Value :=
  match value (2 * String.length text + 2) text with
  | Some (v, rest) =>
      match skipSpace rest with
      | EmptyString => Some v
      | _ => None
      end
  | None => None
  end.

Definition engine : Engine (Num := ZNumber) :=
  {| JSON_parse := parse;
     TypeError_nullRead := mkError "Cannot read properties of null";
     TypeError_toPrimitive := mkError "Cannot convert object to primitive value" |}.

(** The decoder on 7-bit input: one code unit per byte, nothing held. *)
Definition decoder : TextDecoder :=
  {| decoderState := unit;
     newTextDecoder := tt;
     decode := fun _ bytes => (string_of_list_byte bytes, tt) |}.

(** Writes a text with ['] where the text has a double quote. *)
Fixpoint quoted (s : string) : string :=
  match s with
  | EmptyString => EmptyString
  | String c r => String (if (c =? "'")%char then DQUOTE else c) (quoted r)
  end.

(** The bytes of a 7-bit text written with [quoted]. *)
Definition bytes (s : string) : list Byte.byte := list_byte_of_string (quoted s).

(** Stand-ins for the helpers of utils.js in the worked examples: the
    limiter of the specification, a sanitizer that trims its argument, an
    error normalizer that keeps the message, and an image preparer that
    uploads the image as it is. *)
Definition utils : Utils :=
  SpecRateLimiter.utils trim message (fun image => inr image).

(** A limiter whose window of ten calls is full at time [60000]. *)
Definition fullWindow : SpecRateLimiter.RateWindow :=
  {| SpecRateLimiter.maxCalls := 10;
     SpecRateLimiter.windowDurationMs := 60000;
     SpecRateLimiter.timestamps :=
       [1000; 2000; 3000; 4000; 5000; 6000; 7000; 8000; 9000; 10000]%Z |}.


(** The module state when the script has been loaded. *)
Definition loaded : State := initialState (U := utils).

(** A line feed, to end the lines of a stream. *)
Definition NL : string := String LF EmptyString.

(** A first exchange whose stream carries a keepalive comment and the
    terminal sentinel, and no content. *)
Definition unanswered : Run :=
  sendChatMessage (E := engine) (D := decoder) 0 "first" true None
    (HttpOk [bytes (": keepalive" ++ NL ++ "data: [DONE]" ++ NL)] StreamDone) loaded.

(** A toy codec for the image preparer: the bitmap is the payload, a step
    keeps that many leading code units. *)
Definition prepareToy (image : string) (maxBytes : nat) : JSError + string :=
  SpecImagePreparer.prepare (fun image => image) (fun bitmap n => slice_to n bitmap)
                            [8; 4; 2]%nat image maxBytes.

End Reference.

(** * The serverless proxies (api/chat.js, api/edit.js, api/enhance.js) *)

(** ** What the three handlers share *)

Set Warnings "-abstract-large-number".

Module Vercel.

(** [/[\x00-\x1F\x7F]/]: a control character. *)
Definition isControl (c : ascii) : bool :=
  let n := nat_of_ascii c in ((n <=? 31) || (n =? 127))%nat.

(** [s.replace(/[\x00-\x1F\x7F]/g, '')]. *)
Fixpoint stripControl (s : string) : string :=
  match s with
  | EmptyString => EmptyString
  | String c r => if isControl c then stripControl r else String c (stripControl r)
  end.

(** [s.replace(/[\x00-\x1F\x7F]/g, '').substring(0, limit).trim()]. *)
Definition sanitize (limit : nat) (s : string) : string :=
  trim (slice_to limit (stripControl s)).

(** [process.env]: a variable is a string or [undefined]. *)
Record Env := {
  OPENROUTER_API_KEY : option string;
  VERCEL_URL : option string
}.

Definition OPENROUTER_API_URL : string :=
  "https://openrouter.ai/api/v1/chat/completions".

(** The headers of the upstream request.  [apiKey] is truthy when they are
    built. *)
Record Headers := {
  Authorization : string;
  HTTP_Referer : string;
  X_Title : string
}.

(** [process.env.VERCEL_URL || 'https://ai-photo-editor.vercel.app']. *)
Definition referer (env : Env) : string :=
  match VERCEL_URL env with
  | Some (String _ _ as url) => url
  | _ => "https://ai-photo-editor.vercel.app"
  end.

Definition headers (env : Env) (apiKey title : string) : Headers :=
  {| Authorization := "Bearer " ++ apiKey;
     HTTP_Referer := referer env;
     X_Title := title |}.

(** A part of a multimodal message content. *)
Inductive Part : Type :=
| TextPart (text : string)
| ImagePart (url : string).

Inductive Content : Type :=
| Text (text : string)
| Parts (parts : list Part).

(** A message of the upstream request body. *)
Record Message := { msg_role : string; msg_content : Content }.

Section Handlers.
Context {Num : JSNumber}.

(** The request as the handler reads it: [req.method] and [req.body], the
    JSON body already parsed by the platform ([None]: [undefined]). *)
Record Req := { method : string; body : option JSValue }.

(** What the handler does with [res]: [res.status(s).json({ error })],
    [res.status(s).json(data)], or the headers of an event stream followed
    by the writes and [res.end()]. *)
Inductive Reply : Type :=
| ErrorReply (status : Z) (error : JSValue)
| DataReply (status : Z) (data : JSValue)
| StreamReply (writes : list string).

(** The answer of the upstream API to the one [fetch]: the promise
    rejects; or the response is not ok, with its status and the result of
    [response.json()] ([None]: it rejects); or it is ok, with the result of
    [response.json()] and the values its body reader yields. *)
Inductive Upstream : Type :=
| UpstreamRejected
| UpstreamError (status : Z) (errorData : option JSValue)
| UpstreamOk (data : option JSValue) (values : list (list Byte.byte))
             (ending : StreamEnd).

(** Lines of the shape [errorData.error?.message || `API request failed
    with status ${response.status}`]; [None] is the TypeError of reading
    [error] on [null]. *)
Definition upstreamErrorMessage (status : Z) (errorData : JSValue) : option JSValue :=
  match errorData with
  | JNull => None
  | _ =>
      Some (orElse (optProp (prop errorData "error") "message")
                   (JStr ("API request failed with status " ++ ofZ status)))
  end.

(** [typeof v === 'string'], with the string. *)
Definition asString (v : option JSValue) : option string :=
  match v with
  | Some (JStr s) => Some s
  | _ => None
  end.

(** The validation of [prompt] in edit.js and enhance.js:
    [!prompt || typeof prompt !== 'string' || prompt.trim() === ''] is
    false; the result is the prompt. *)
Definition validPrompt (v : option JSValue) : option string :=
  match asString v with
  | Some prompt => if trim prompt =? "" then None else Some prompt
  | None => None
  end.

(** [image && typeof image === 'string' && image.startsWith('data:image/')],
    with the image. *)
Definition imageDataUri (v : option JSValue) : option string :=
  match asString v with
  | Some image => if startsWith "data:image/" image then Some image else None
  | None => None
  end.

End Handlers.
End Vercel.

(** ** api/chat.js *)

Module ChatApi.
Import Vercel.
Section Handler.
Context {Num : JSNumber} {D : TextDecoder}.

Definition systemMessage : Message :=
  {| msg_role := "system";
     msg_content := Text "You are a helpful, friendly, and knowledgeable AI assistant. Provide clear, accurate, and well-structured responses. When appropriate, use markdown formatting for code blocks, lists, and emphasis. Be concise but thorough." |}.

(** The web plugin of lines 58-64. *)
Record Plugin := { id : string; max_results : Z; search_prompt : string }.

Definition webPlugin : Plugin :=
  {| id := "web"; max_results := 5;
     search_prompt := "Search for relevant and up-to-date information" |}.

(** The body of the upstream request, lines 50-64. *)
Record RequestBody := {
  model : string;
  messages : list Message;
  stream : JSValue;
  max_tokens : Z;
  plugins : option (list Plugin)
}.

Record UpstreamRequest := { url : string; request_headers : Headers; request_body : RequestBody }.

(** What one run of the handler leaves: the upstream request when one was
    sent, and the reply. *)
Record Outcome := { sent : option UpstreamRequest; reply : Reply }.

(** The callback of [messages.map], lines 32-37; [None] is the TypeError
    of reading [role] on [null]. *)
Definition sanitizeMessage (msg : JSValue) : option Message :=
  match msg with
  | JNull => None
  | _ =>
      Some {| msg_role :=
                match prop msg "role" with
                | Some (JStr "user") => "user"
                | _ => "assistant"
                end;
              msg_content :=
                Text match asString (prop msg "content") with
                     | Some content => sanitize 10000 content
                     | None => ""
                     end |}
  end.

(** [messages.map(...)], stopped by the first TypeError. *)
Fixpoint mapMessages (msgs : list JSValue) : option (list Message) :=
  match msgs with
  | [] => Some []
  | msg :: rest =>
      match sanitizeMessage msg, mapMessages rest with
      | Some m, Some ms => Some (m :: ms)
      | _, _ => None
      end
  end.

Definition hasContent (m : Message) : bool :=
  match msg_content m with
  | Text text => negb (text =? "")
  | Parts _ => true
  end.

(** The reading loop of lines 96-108: every value is decoded and written;
    a rejected read ends the loop like the end of the stream. *)
Fixpoint pipe (values : list (list Byte.byte)) (d : decoderState) : list string :=
  match values with
  | [] => []
  | value :: rest =>
      let (chunk, d') := decode d value in
      chunk :: pipe rest d'
  end.

Definition failed : Reply := ErrorReply 500 (JStr "Failed to process chat message").

(** The [try] block of lines 19-118 for a body that is neither [undefined]
    nor [null]; what its [catch] answers is [failed]. *)
Definition tryBlock (env : Env) (apiKey : string) (body : JSValue)
           (upstream : Upstream) : Outcome :=
  let stream :=
    match prop body "stream" with Some v => v | None => JBool true end in
  let webSearch :=
    match prop body "webSearch" with Some v => v | None => JBool false end in
  match prop body "messages" with
  | Some (JArr ((_ :: _) as msgs)) =>
      match asString (prop body "model") with
      | None | Some EmptyString =>
          {| sent := None; reply := ErrorReply 400 (JStr "Invalid model provided") |}
      | Some model =>
          match mapMessages msgs with
          | None => {| sent := None; reply := failed |}
          | Some mapped =>
              match filter hasContent mapped with
              | [] =>
                  {| sent := None;
                     reply := ErrorReply 400 (JStr "No valid messages provided") |}
              | sanitizedMessages =>
                  let request :=
                    {| url := OPENROUTER_API_URL;
                       request_headers := headers env apiKey "AI Photo Editor - Chat";
                       request_body :=
                         {| model := model;
                            messages := systemMessage :: sanitizedMessages;
                            stream := stream;
                            max_tokens := 4096;
                            plugins :=
                              if truthy webSearch then Some [webPlugin] else None |} |} in
                  {| sent := Some request;
                     reply :=
                       match upstream with
                       | UpstreamRejected => failed
                       | UpstreamError status None => failed
                       | UpstreamError status (Some errorData) =>
                           match upstreamErrorMessage status errorData with
                           | Some error => ErrorReply status error
                           | None => failed
                           end
                       | UpstreamOk data values ending =>
                           if truthy stream then StreamReply (pipe values newTextDecoder)
                           else
                             match data with
                             | Some data => DataReply 200 data
                             | None => failed
                             end
                       end |}
              end
          end
      end
  | _ => {| sent := None; reply := ErrorReply 400 (JStr "Invalid messages provided") |}
  end.

(** The default export of api/chat.js. *)
Definition handler (env : Env) (req : Req) (upstream : Upstream) : Outcome :=
  if negb (method req =? "POST") then
    {| sent := None; reply := ErrorReply 405 (JStr "Method not allowed") |}
  else
    match OPENROUTER_API_KEY env with
    | None | Some EmptyString =>
        {| sent := None; reply := ErrorReply 500 (JStr "Server configuration error") |}
    | Some apiKey =>
        match body req with
        | None | Some JNull => {| sent := None; reply := failed |}
        | Some body => tryBlock env apiKey body upstream
        end
    end.

End Handler.
End ChatApi.

(** ** api/edit.js *)

Module EditApi.
Import Vercel.
Section Handler.
Context {Num : JSNumber}.

(** The body of the upstream request, lines 42-63. *)
Record RequestBody := {
  model : string;
  messages : list Message;
  modalities : list string;
  stream : bool
}.

Record UpstreamRequest := { url : string; request_headers : Headers; request_body : RequestBody }.

Record Outcome := { sent : option UpstreamRequest; reply : Reply }.

Definition failed : Reply := ErrorReply 500 (JStr "Failed to edit image").

(** The [try] block of lines 19-80 for a body that is neither [undefined]
    nor [null]; what its [catch] answers is [failed]. *)
Definition tryBlock (env : Env) (apiKey : string) (body : JSValue)
           (upstream : Upstream) : Outcome :=
  match validPrompt (prop body "prompt") with
  | None => {| sent := None; reply := ErrorReply 400 (JStr "Invalid prompt provided") |}
  | Some prompt =>
      match imageDataUri (prop body "image") with
      | None => {| sent := None; reply := ErrorReply 400 (JStr "Invalid image provided") |}
      | Some image =>
          let sanitizedPrompt := sanitize 2000 prompt in
          let request :=
            {| url := OPENROUTER_API_URL;
               request_headers := headers env apiKey "AI Photo Editor";
               request_body :=
                 {| model := "openai/gpt-5-image-mini";
                    messages :=
                      [ {| msg_role := "user";
                           msg_content :=
                             Parts [TextPart sanitizedPrompt; ImagePart image] |} ];
                    modalities := ["image"; "text"];
                    stream := false |} |} in
          {| sent := Some request;
             reply :=
               match upstream with
               | UpstreamRejected => failed
               | UpstreamError status None => failed
               | UpstreamError status (Some errorData) =>
                   match upstreamErrorMessage status errorData with
                   | Some error => ErrorReply status error
                   | None => failed
                   end
               | UpstreamOk (Some data) _ _ => DataReply 200 data
               | UpstreamOk None _ _ => failed
               end |}
      end
  end.

(** The default export of api/edit.js. *)
Definition handler (env : Env) (req : Req) (upstream : Upstream) : Outcome :=
  if negb (method req =? "POST") then
    {| sent := None; reply := ErrorReply 405 (JStr "Method not allowed") |}
  else
    match OPENROUTER_API_KEY env with
    | None | Some EmptyString =>
        {| sent := None; reply := ErrorReply 500 (JStr "Server configuration error") |}
    | Some apiKey =>
        match body req with
        | None | Some JNull => {| sent := None; reply := failed |}
        | Some body => tryBlock env apiKey body upstream
        end
    end.

End Handler.
End EditApi.

(** ** api/enhance.js *)

Module EnhanceApi.
Import Vercel.
Section Handler.
Context {Num : JSNumber}.

Definition systemPrompt : string :=
  "You are an expert at writing prompts for AI image editing. Your task is to take a user's simple image editing request and enhance it into a more detailed, effective prompt that will produce better results. If an image is provided, tailor your enhanced prompt to make sense for that specific image. Keep the enhanced prompt concise but specific. Include details about style, quality, and technique where appropriate. Only respond with the enhanced prompt text directly - no quotes, no explanations, no additional text.".

(** The body of the upstream request, lines 59-72. *)
Record RequestBody := {
  model : string;
  messages : list Message;
  stream : bool
}.

Record UpstreamRequest := { url : string; request_headers : Headers; request_body : RequestBody }.

Record Outcome := { sent : option UpstreamRequest; reply : Reply }.

Definition failed : Reply := ErrorReply 500 (JStr "Failed to enhance prompt").

(** [userContent], lines 33-49. *)
Definition userContent (sanitizedPrompt : string) (image : option JSValue) : Content :=
  match imageDataUri image with
  | Some image =>
      Parts [ TextPart ("Enhance this image editing prompt to be more effective for the provided image: "
                        ++ sanitizedPrompt);
              ImagePart image ]
  | None =>
      Text ("Enhance this image editing prompt to be more effective: " ++ sanitizedPrompt)
  end.

(** The [try] block of lines 19-89 for a body that is neither [undefined]
    nor [null]; what its [catch] answers is [failed]. *)
Definition tryBlock (env : Env) (apiKey : string) (body : JSValue)
           (upstream : Upstream) : Outcome :=
  match validPrompt (prop body "prompt") with
  | None => {| sent := None; reply := ErrorReply 400 (JStr "Invalid prompt provided") |}
  | Some prompt =>
      let sanitizedPrompt := sanitize 2000 prompt in
      let request :=
        {| url := OPENROUTER_API_URL;
           request_headers := headers env apiKey "AI Photo Editor";
           request_body :=
             {| model := "openrouter/bert-nebulon-alpha";
                messages :=
                  [ {| msg_role := "system"; msg_content := Text systemPrompt |};
                    {| msg_role := "user";
                       msg_content := userContent sanitizedPrompt (prop body "image") |} ];
                stream := false |} |} in
      {| sent := Some request;
         reply :=
           match upstream with
           | UpstreamRejected => failed
           | UpstreamError status None => failed
           | UpstreamError status (Some errorData) =>
               match upstreamErrorMessage status errorData with
               | Some error => ErrorReply status error
               | None => failed
               end
           | UpstreamOk (Some data) _ _ => DataReply 200 data
           | UpstreamOk None _ _ => failed
           end |}
  end.

(** The default export of api/enhance.js. *)
Definition handler (env : Env) (req : Req) (upstream : Upstream) : Outcome :=
  if negb (method req =? "POST") then
    {| sent := None; reply := ErrorReply 405 (JStr "Method not allowed") |}
  else
    match OPENROUTER_API_KEY env with
    | None | Some EmptyString =>
        {| sent := None; reply := ErrorReply 500 (JStr "Server configuration error") |}
    | Some apiKey =>
        match body req with
        | None | Some JNull => {| sent := None; reply := failed |}
        | Some body => tryBlock env apiKey body upstream
        end
    end.

End Handler.
End EnhanceApi.

(** * The responses of the image operations (api.js) *)

(** What the response handling asks of the engine beyond [Engine]: the
    comparison [v > 0] on a number and on a string (through ToNumber), and
    the TypeErrors for a property read on [undefined] or [null] ([None] or
    [Some JNull], with the property name) and for a call of something that
    is not a function (with the method name). *)
Class ResponseEngine {Num : JSNumber} := {
  number_positive : number -> bool;
  string_positive : string -> bool;
  TypeError_read : option JSValue -> string -> JSError;
  TypeError_notFunction : string -> JSError
}.

Section Responses.
Context {Num : JSNumber} {E : Engine} {R : ResponseEngine} {U : Utils}.

(** An outcome of a piece of code that may throw. *)
Definition Try (A : Type) : Type := (JSError + A)%type.

(** [v.k] where [v] may be [undefined] or [null]: the TypeError then.
    The names read from a response ([choices], [0], [message], [images],
    [image_url], [url], [content], [type]) are inherited from no built-in
    prototype, so [prop] answers for them. *)
Definition read (v : option JSValue) (k : string) : Try (option JSValue) :=
  match v with
  | None | Some JNull => inl (TypeError_read v k)
  | Some x => inr (prop x k)
  end.

(** [v > 0] for a JSON value or [undefined]; an object is converted
    through its string. *)
Definition positive (v : option JSValue) : Try bool :=
  match v with
  | None | Some JNull => inr false
  | Some (JBool b) => inr b
  | Some (JNum n) => inr (number_positive n)
  | Some (JStr s) => inr (string_positive s)
  | Some x =>
      match toString x with
      | Some s => inr (string_positive s)
      | None => inl TypeError_toPrimitive
      end
  end.

(** [v?.length > 0]: the length of an array or a string, the own [length]
    of an object, [undefined] for anything else. *)
Definition lengthPositive (v : option JSValue) : Try bool :=
  match v with
  | Some (JArr elems) => inr (0 <? List.length elems)%nat
  | Some (JStr s) => inr (0 <? String.length s)%nat
  | Some (JObj props) => positive (ownProp "length" props)
  | _ => inr false
  end.

(** [result.choices\[0\]?.message], once [result.choices] is truthy. *)
Definition firstMessage (choices : JSValue) : option JSValue :=
  optProp (prop choices "0") "message".

(** [\w]. *)
Definition isWordChar (c : ascii) : bool :=
  let n := nat_of_ascii c in
  (((48 <=? n) && (n <=? 57)) || ((65 <=? n) && (n <=? 90))
   || ((97 <=? n) && (n <=? 122)) || (n =? 95))%nat.

(** The longest prefix of characters that satisfy [p], and the rest. *)
Fixpoint span (p : ascii -> bool) (s : string) : string * string :=
  match s with
  | String c r =>
      if p c then let (a, b) := span p r in (String c a, b) else (EmptyString, s)
  | EmptyString => (EmptyString, EmptyString)
  end.

(** A match of [data:image\/ C+ ;base64, P+] that starts at the head of
    [s], where [C] and [P] are character classes and [C] excludes [;]:
    the greedy [C+] can only end where the class ends, and the greedy
    [P+] takes all it can. *)
Definition matchDataUriHere (kind payload : ascii -> bool) (s : string) : option string :=
  if startsWith "data:image/" s then
    let (subtype, r1) := span kind (slice_from 11 s) in
    if (subtype =? "") || negb (startsWith ";base64," r1) then None
    else
      let (data, _) := span payload (slice_from 8 r1) in
      if data =? "" then None
      else Some ("data:image/" ++ subtype ++ ";base64," ++ data)
  else None.

(** [content.match(re)\[0\]] for such an expression without the [g] flag:
    the match at the leftmost position that has one. *)
Fixpoint matchDataUri (kind payload : ascii -> bool) (s : string) : option string :=
  match matchDataUriHere kind payload s with
  | Some m => Some m
  | None =>
      match s with
      | String _ r => matchDataUri kind payload r
      | EmptyString => None
      end
  end.

(** The expression of line 262: word characters for the subtype, any
    characters but white space for the payload. *)
Definition matchEditedImage : string -> option string :=
  matchDataUri isWordChar (fun c => negb (isWhiteSpace c)).

(** The expression of line 393: any characters but [;] for the
    subtype, any characters but white space and the double quote for the
    payload. *)
Definition matchGeneratedImage : string -> option string :=
  matchDataUri (fun c => negb (Ascii.eqb c ";"))
               (fun c => negb (isWhiteSpace c) && negb (Ascii.eqb c "034")).

(** What the proxy answers to the [fetch] of an image operation. *)
Inductive JsonFetch : Type :=
| JsonFetchRejected (e : JSError)
| JsonResponse (ok : bool) (status : Z) (json : JSError + JSValue).

(** Lines 198-203 and their copies: the parsed body of an ok response, or
    the error thrown. *)
Definition responseJson (r : JsonFetch) : Try JSValue :=
  match r with
  | JsonFetchRejected e => inl e
  | JsonResponse false status (inr errorData) => inl (httpError status errorData)
  | JsonResponse _ _ (inl e) => inl e
  | JsonResponse true _ (inr result) => inr result
  end.

(** editImage, lines 256-268: the value returned ([None]: [undefined]) or
    the error thrown. *)
Definition extractEditedImage (result : JSValue) : Try (option JSValue) :=
  match read (Some result) "choices" with
  | inl e => inl e
  | inr choices =>
      let message := match choices with Some c => firstMessage c | None => None end in
      let none := inl (mkError "No edited image found in the API response") in
      if negb (truthy_opt choices) then none
      else
        match lengthPositive (optProp message "images") with
        | inl e => inl e
        | inr true =>
            match read (optProp (optProp message "images") "0") "image_url" with
            | inl e => inl e
            | inr image_url => read image_url "url"
            end
        | inr false =>
            match optProp message "content" with
            | Some (JStr (String _ _ as content)) =>
                match matchEditedImage content with
                | Some m => inr (Some (JStr m))
                | None => none
                end
            | Some content =>
                if truthy content then inl (TypeError_notFunction "match") else none
            | None => none
            end
        end
  end.

(** The loop of lines 384-388 over the parts of an array content:
    [inr (Some v)] returns [v], [inr None] leaves the loop. *)
Fixpoint firstImagePart (parts : list JSValue) : Try (option (option JSValue)) :=
  match parts with
  | [] => inr None
  | part :: rest =>
      match read (Some part) "type" with
      | inl e => inl e
      | inr (Some (JStr type)) =>
          let found := optProp (prop part "image_url") "url" in
          if (type =? "image_url") && truthy_opt found then inr (Some found)
          else firstImagePart rest
      | inr _ => firstImagePart rest
      end
  end.

(** generateImage, lines 401-412: the [images] of the message. *)
Definition extractFromImages (choices : option JSValue) : Try (option JSValue) :=
  let message := match choices with Some c => firstMessage c | None => None end in
  let none := inl (mkError "No generated image found in the API response") in
  if negb (truthy_opt choices) then none
  else
    match lengthPositive (optProp message "images") with
    | inl e => inl e
    | inr false => none
    | inr true =>
        let imageData := optProp (optProp message "images") "0" in
        match read imageData "image_url" with
        | inl e => inl e
        | inr image_url =>
            if truthy_opt (optProp image_url "url") then inr (optProp image_url "url")
            else if truthy_opt (optProp imageData "url") then inr (optProp imageData "url")
            else none
        end
    end.

(** generateImage, lines 378-412. *)
Definition extractGeneratedImage (result : JSValue) : Try (option JSValue) :=
  match read (Some result) "choices" with
  | inl e => inl e
  | inr choices =>
      let message := match choices with Some c => firstMessage c | None => None end in
      let content := if truthy_opt choices then optProp message "content" else None in
      match content with
      | Some (JArr parts) =>
          match firstImagePart parts with
          | inl e => inl e
          | inr (Some v) => inr v
          | inr None => extractFromImages choices
          end
      | Some (JStr (String _ _ as text)) =>
          match matchGeneratedImage text with
          | Some m => inr (Some (JStr m))
          | None => extractFromImages choices
          end
      | _ => extractFromImages choices
      end
  end.

(** [s.endsWith(c)] for a one-character [c]. *)
Fixpoint endsWithChar (c : ascii) (s : string) : bool :=
  match s with
  | EmptyString => false
  | String a EmptyString => Ascii.eqb a c
  | String _ r => endsWithChar c r
  end.

(** [s.slice(0, -1)]. *)
Fixpoint dropLast (s : string) : string :=
  match s with
  | EmptyString | String _ EmptyString => EmptyString
  | String a r => String a (dropLast r)
  end.

(** Lines 322-326: one pair of surrounding quotes is removed,
    [slice(1, -1)]. *)
Definition stripQuotes (s : string) : string :=
  if (startsWith (String "034" "") s && endsWithChar "034" s)
     || (startsWith "'" s && endsWithChar "'" s)
  then dropLast (slice_from 1 s) else s.

(** enhancePromptWithAI, lines 320-330. *)
Definition extractEnhancedPrompt (result : JSValue) : Try string :=
  match read (Some result) "choices" with
  | inl e => inl e
  | inr choices =>
      let message := match choices with Some c => firstMessage c | None => None end in
      let none := inl (mkError "No enhanced prompt found in the API response") in
      if negb (truthy_opt choices) then none
      else
        match optProp message "content" with
        | Some (JStr (String _ _ as content)) => inr (stripQuotes (trim content))
        | Some content =>
            if truthy content then inl (TypeError_notFunction "trim") else none
        | None => none
        end
  end.

(** An operation from its request to its settlement: nothing is awaited
    when no request was sent; the response is handled inside the [try], so
    what it throws goes through the [catch]. *)
Definition settle {A : Type} (started : (JSError + Request) * State)
           (handle : JsonFetch -> Try A) (r : JsonFetch) : Settled A * State :=
  match started with
  | (inl e, st) => (Rejected e, st)
  | (inr _, st) =>
      match handle r with
      | inl e => (Rejected (rethrowFriendly e), st)
      | inr v => (Resolved v, st)
      end
  end.

Definition bindTry {A B : Type} (x : Try A) (f : A -> Try B) : Try B :=
  match x with
  | inl e => inl e
  | inr a => f a
  end.

(** analyzeImage, lines 173-211. *)
Definition analyzeImage (now : Z) (base64Image prompt : string)
           (r : JsonFetch) (st : State) : Settled JSValue * State :=
  settle (analyzeImage_request now base64Image prompt st) responseJson r.

(** editImage, lines 221-276. *)
Definition editImage (now : Z) (base64Image prompt : string) (model : option string)
           (r : JsonFetch) (st : State) : Settled (option JSValue) * State :=
  settle (editImage_request now base64Image prompt model st)
         (fun r => bindTry (responseJson r) extractEditedImage) r.

(** enhancePromptWithAI, lines 285-338. *)
Definition enhancePromptWithAI (now : Z) (userPrompt : string)
           (base64Image : option string) (r : JsonFetch) (st : State)
  : Settled string * State :=
  settle (enhancePromptWithAI_request now userPrompt base64Image st)
         (fun r => bindTry (responseJson r) extractEnhancedPrompt) r.

(** generateImage, lines 347-420. *)
Definition generateImage (now : Z) (prompt : string) (model : option string)
           (r : JsonFetch) (st : State) : Settled (option JSValue) * State :=
  settle (generateImage_request now prompt model st)
         (fun r => bindTry (responseJson r) extractGeneratedImage) r.

End Responses.

(** * The remaining state of api.js (lines 510-545) *)

Section ModuleState.
Context {U : Utils}.

Definition withWebSearch (st : State) (enabled : bool) : State :=
  {| apiRateLimiter := apiRateLimiter st;
     currentGenerationModel := currentGenerationModel st;
     currentEditModel := currentEditModel st;
     currentChatModel := currentChatModel st;
     chatHistory := chatHistory st;
     webSearchEnabled := enabled |}.

(** clearChatHistory. *)
Definition clearChatHistory (st : State) : State := withHistory st [].

(** toggleWebSearch: the new state of the flag, and the module. *)
Definition toggleWebSearch (st : State) : bool * State :=
  let enabled := negb (webSearchEnabled st) in (enabled, withWebSearch st enabled).

(** setWebSearchEnabled, called with a boolean. *)
Definition setWebSearchEnabled (enabled : bool) (st : State) : State :=
  withWebSearch st enabled.

End ModuleState.

(** * Predicates for the statements below *)

(** Every character of [s] satisfies [p]. *)
Fixpoint allChars (p : ascii -> bool) (s : string) : bool :=
  match s with
  | EmptyString => true
  | String c r => p c && allChars p r
  end.

(** A text as the proxies forward it: no control character, no white
    space at either end, at most [limit] code units. *)
Definition clean (limit : nat) (s : string) : Prop :=
  allChars (fun c => negb (Vercel.isControl c)) s = true
  /\ trim s = s
  /\ String.length s <= limit.

(** A message as the chat proxy forwards it behind the system message:
    a user or an assistant turn whose content is a clean, non-empty
    text. *)
Definition forwardable (m : Vercel.Message) : Prop :=
  (Vercel.msg_role m = "user" \/ Vercel.msg_role m = "assistant")
  /\ exists text, Vercel.msg_content m = Vercel.Text text
                  /\ text <> "" /\ clean 10000 text.

(** * Requests for the worked examples of the proxies *)

Module ProxyExamples.

Definition env : Vercel.Env :=
  {| Vercel.OPENROUTER_API_KEY := Some "sk-test"; Vercel.VERCEL_URL := None |}.

(** A chat body with a user turn to be trimmed, a turn whose role is
    unknown and whose content is no string, and a model of the caller's
    own. *)
Definition chatBody : Reference.Value :=
  JObj [ ("messages",
          JArr [ JObj [("role", JStr "user"); ("content", JStr "  hi there ")];
                 JObj [("role", JStr "tool"); ("content", JBool true)] ]);
         ("model", JStr "my/own-model") ].

Definition chatReq : Vercel.Req (Num := Reference.ZNumber) :=
  {| Vercel.method := "POST"; Vercel.body := Some chatBody |}.

(** The upstream request that [chatReq] leads to. *)
Definition chatRequest : ChatApi.UpstreamRequest (Num := Reference.ZNumber) :=
  {| ChatApi.url := Vercel.OPENROUTER_API_URL;
     ChatApi.request_headers :=
       {| Vercel.Authorization := "Bearer sk-test";
          Vercel.HTTP_Referer := "https://ai-photo-editor.vercel.app";
          Vercel.X_Title := "AI Photo Editor - Chat" |};
     ChatApi.request_body :=
       {| ChatApi.model := "my/own-model";
          ChatApi.messages :=
            [ ChatApi.systemMessage;
              {| Vercel.msg_role := "user"; Vercel.msg_content := Vercel.Text "hi there" |} ];
          ChatApi.stream := JBool true;
          ChatApi.max_tokens := 4096;
          ChatApi.plugins := None |} |}.

(** An edit body that names a model. *)
Definition editBody : Reference.Value :=
  JObj [ ("prompt", JStr " make it brighter ");
         ("image", JStr "data:image/png;base64,AAAA");
         ("model", JStr "black-forest-labs/flux.2-pro") ].

Definition editReq : Vercel.Req (Num := Reference.ZNumber) :=
  {| Vercel.method := "POST"; Vercel.body := Some editBody |}.

(** A body whose image is a plain URL. *)
Definition urlBody : Reference.Value :=
  JObj [ ("prompt", JStr "make it brighter");
         ("image", JStr "https://example.com/cat.png") ].

Definition urlReq : Vercel.Req (Num := Reference.ZNumber) :=
  {| Vercel.method := "POST"; Vercel.body := Some urlBody |}.

End ProxyExamples.

(** [n] spaces. *)
Fixpoint spaces (n : nat) : string :=
  match n with
  | O => EmptyString
  | S n' => String " " (spaces n')
  end.

Module PaddedExample.

(** A prompt behind 2000 spaces. *)
Definition body : Reference.Value :=
  JObj [ ("prompt", JStr (spaces 2000 ++ "brighter"));
         ("image", JStr "data:image/png;base64,AAAA") ].

Definition req : Vercel.Req (Num := Reference.ZNumber) :=
  {| Vercel.method := "POST"; Vercel.body := Some body |}.

End PaddedExample.

(** * Predicates on the calls of onChunk *)

Section Accumulation.
Context {Num : JSNumber}.

(** The calls are consistent with a response that starts as [fullContent]
    and grows by the string of each content: the second argument of every
    call is the response so far.  The result is the response after the
    last call. *)
Fixpoint accumulated (fullContent : string) (calls : list Emission) : option string :=
  match calls with
  | [] => Some fullContent
  | (content, full) :: rest =>
      match toString content with
      | Some s => if full =? fullContent ++ s then accumulated full rest else None
      | None => None
      end
  end.

End Accumulation.

Definition CR : ascii := "013"%char.

(** * What the statements on the operations of api.js speak of *)

Section Settings.
Context {U : Utils}.

(** The selected models and the web search flag. *)
Definition settings (st : State) : string * string * string * bool :=
  (currentGenerationModel st, currentEditModel st, currentChatModel st,
   webSearchEnabled st).

End Settings.

Section Completions.
Context {Num : JSNumber}.

(** A completion with one choice: [{choices: \[{message}\]}]. *)
Definition completion (message : JSValue) : JSValue :=
  JObj [ ("choices", JArr [ JObj [ ("message", message) ] ]) ].

(** The message whose [images] hold one image with the given [url]. *)
Definition imageEntry (url : JSValue) : JSValue :=
  JArr [ JObj [ ("image_url", JObj [ ("url", url) ]) ] ].

End Completions.

(** * An engine for the worked examples of the responses *)

Module ResponseExamples.

(** [v > 0] on the integers of the reference numbers, and on the strings
    that are a decimal integer; the examples compare no other string. *)
Definition engine : ResponseEngine (Num := Reference.ZNumber) :=
  @Build_ResponseEngine Reference.ZNumber
    (fun n : Z => (0 <? n)%Z)
    (fun s =>
       match Reference.integer (trim s) with
       | Some (z, EmptyString) => (0 <? z)%Z
       | _ => false
       end)
    (fun v k =>
       mkError ("Cannot read properties of "
                ++ match v with Some _ => "null" | None => "undefined" end
                ++ " (reading '" ++ k ++ "')"))
    (fun name => mkError (name ++ " is not a function")).

(** An error body of the proxy that reports the upstream rate limit. *)
Definition limited : Reference.Value :=
  JObj [ ("error", JStr "Rate limit exceeded upstream") ].

(** A text answer that carries a data URI between words. *)
Definition answer : string :=
  "Here it is: data:image/png;base64,iVBORw0KGgo= enjoy".

End ResponseExamples.

(** * From the request of api.js to the request of the chat proxy *)

Section Wire.
Context {Num : JSNumber}.

Definition roleName (r : Role) : string :=
  match r with
  | user => "user"
  | assistant => "assistant"
  end.

(** An element of [chatHistory] as [JSON.stringify] writes it and the
    platform parses it. *)
Definition turnJson (t : Turn) : JSValue :=
  JObj [ ("role", JStr (roleName (role t))); ("content", JStr (content t)) ].

(** The body of the request of sendChatMessage (api.js, lines 579-584) as
    the handler of api/chat.js finds it in [req.body]. *)
Definition wireBody (messages : list Turn) (model : string) (stream webSearch : bool)
  : JSValue :=
  JObj [ ("messages", JArr (map turnJson messages));
         ("model", JStr model);
         ("stream", JBool stream);
         ("webSearch", JBool webSearch) ].

(** The turn as the proxy forwards it. *)
Definition forwardedTurn (t : Turn) : Vercel.Message :=
  {| Vercel.msg_role := roleName (role t);
     Vercel.msg_content := Vercel.Text (Vercel.sanitize 10000 (content t)) |}.

End Wire.

(** * Properties *)

(** ** Strings *)

Lemma append_empty_r (s : string) : s ++ "" = s.
Proof. induction s as [|c s IH]; simpl; [reflexivity | now rewrite IH]. Qed.

Lemma append_assoc (a b c : string) : (a ++ b) ++ c = a ++ (b ++ c).
Proof. induction a as [|x a IH]; simpl; [reflexivity | now rewrite IH]. Qed.

Lemma length_append (a b : string) :
  String.length (a ++ b) = String.length a + String.length b.
Proof. induction a as [|x a IH]; simpl; [reflexivity | now rewrite IH]. Qed.

Lemma indexOf_lt c s i : indexOf c s = Some i -> i < String.length s.
Proof.
  revert i; induction s as [|a s IH]; simpl; intros i H; [discriminate|].
  destruct (Ascii.eqb a c).
  - injection H as <-. lia.
  - destruct (indexOf c s) as [j|]; [|discriminate].
    injection H as <-. specialize (IH j eq_refl). lia.
Qed.

Lemma indexOf_app_found c a b i :
  indexOf c a = Some i -> indexOf c (a ++ b) = Some i.
Proof.
  revert i; induction a as [|x a IH]; simpl; intros i H; [discriminate|].
  destruct (Ascii.eqb x c); [assumption|].
  destruct (indexOf c a) as [j|]; [|discriminate].
  now rewrite (IH j eq_refl).
Qed.

Lemma slice_to_app i a b :
  i <= String.length a -> slice_to i (a ++ b) = slice_to i a.
Proof.
  revert a; induction i as [|i IH]; intros [|x a] H; simpl in *; try reflexivity.
  - lia.
  - rewrite IH; [reflexivity | lia].
Qed.

Lemma slice_from_app i a b :
  i <= String.length a -> slice_from i (a ++ b) = slice_from i a ++ b.
Proof.
  revert a; induction i as [|i IH]; intros [|x a] H; simpl in *; try reflexivity.
  - lia.
  - apply IH; lia.
Qed.

Lemma length_slice_from i s :
  String.length (slice_from i s) = String.length s - i.
Proof.
  revert s; induction i as [|i IH]; intros [|x s]; simpl; try reflexivity.
  apply IH.
Qed.

(** A character that the first part does not hold is found in the second. *)
Lemma indexOf_app_missing c a b :
  indexOf c a = None ->
  indexOf c (a ++ b) = option_map (fun i => String.length a + i) (indexOf c b).
Proof.
  induction a as [|x a IH]; simpl; intros H.
  - now destruct (indexOf c b).
  - destruct (Ascii.eqb x c); [discriminate|].
    destruct (indexOf c a); [discriminate|].
    rewrite IH by reflexivity. now destruct (indexOf c b).
Qed.

Lemma slice_to_past a b k :
  slice_to (String.length a + k) (a ++ b) = a ++ slice_to k b.
Proof. induction a as [|x a IH]; simpl; [reflexivity | now rewrite IH]. Qed.

Lemma slice_from_past a b k :
  slice_from (String.length a + k) (a ++ b) = slice_from k b.
Proof. induction a as [|x a IH]; simpl; [reflexivity | exact IH]. Qed.

(** ** The inner loop *)

Section DecoderFacts.
Context {Num : JSNumber} {E : Engine}.
Variable onChunk : bool.

(** Fuel beyond the length of the buffer changes nothing: the loop never
    runs out of it. *)
Lemma processBuffer_fuel f1 : forall f2 buffer fullContent,
  String.length buffer < f1 -> String.length buffer < f2 ->
  processBuffer onChunk f1 buffer fullContent = processBuffer onChunk f2 buffer fullContent.
Proof.
  induction f1 as [|f1 IH]; intros f2 buffer fc H1 H2; [lia|].
  destruct f2 as [|f2]; [lia|]. cbn [processBuffer].
  destruct (indexOf LF buffer) as [i|] eqn:Hi; [|reflexivity].
  destruct (processLine _ _ _) as [fc' calls|e]; [|reflexivity].
  pose proof (indexOf_lt _ _ _ Hi) as Hlt.
  pose proof (length_slice_from (S i) buffer) as Hlen.
  rewrite (IH f2); [reflexivity | lia | lia].
Qed.

(** One turn of the inner loop, as the source writes it. *)
Lemma drainBuffer_unfold buffer fullContent :
  drainBuffer onChunk buffer fullContent =
  match indexOf LF buffer with
  | None => ([], Break buffer fullContent)
  | Some lineEnd =>
      match processLine onChunk (trim (slice_to lineEnd buffer)) fullContent with
      | Next fullContent' calls =>
          let (calls', exit) :=
            drainBuffer onChunk (slice_from (S lineEnd) buffer) fullContent' in
          ((calls ++ calls')%list, exit)
      | Rethrow e => ([], Thrown e)
      end
  end.
Proof.
  unfold drainBuffer. cbn [processBuffer].
  destruct (indexOf LF buffer) as [i|] eqn:Hi; [|reflexivity].
  destruct (processLine _ _ _) as [fc' calls|e]; [|reflexivity].
  pose proof (indexOf_lt _ _ _ Hi) as Hlt.
  pose proof (length_slice_from (S i) buffer) as Hlen.
  rewrite (processBuffer_fuel (String.length buffer)
             (S (String.length (slice_from (S i) buffer)))); [reflexivity | lia | lia].
Qed.

(** When the loop breaks, no complete line is left in the buffer. *)
Lemma drainBuffer_break n : forall buffer fullContent calls rest fullContent',
  String.length buffer < n ->
  drainBuffer onChunk buffer fullContent = (calls, Break rest fullContent') ->
  indexOf LF rest = None.
Proof.
  induction n as [|n IH]; intros buffer fc calls rest fc' Hn; [lia|].
  rewrite drainBuffer_unfold.
  destruct (indexOf LF buffer) as [i|] eqn:Hi.
  - destruct (processLine _ _ _) as [fc1 calls1|e]; [|discriminate].
    destruct (drainBuffer onChunk (slice_from (S i) buffer) fc1) as [calls2 exit] eqn:Hd.
    intros H. injection H as _ ->.
    pose proof (indexOf_lt _ _ _ Hi) as Hlt.
    pose proof (length_slice_from (S i) buffer) as Hlen.
    eapply IH; [|exact Hd]; lia.
  - intros H. injection H as _ <- _. exact Hi.
Qed.

(** Text that arrives behind a buffer is processed as if it had arrived
    after the buffer was drained: complete lines first, then the rest
    joined with the new text. *)
Lemma drainBuffer_app n : forall a b fullContent,
  String.length a < n ->
  drainBuffer onChunk (a ++ b) fullContent =
  match drainBuffer onChunk a fullContent with
  | (calls, Break rest fullContent') =>
      let (calls', exit) := drainBuffer onChunk (rest ++ b) fullContent' in
      ((calls ++ calls')%list, exit)
  | (calls, Thrown e) => (calls, Thrown e)
  end.
Proof.
  induction n as [|n IH]; intros a b fc Hn; [lia|].
  rewrite (drainBuffer_unfold a).
  destruct (indexOf LF a) as [i|] eqn:Hi.
  - pose proof (indexOf_lt _ _ _ Hi) as Hlt.
    rewrite (drainBuffer_unfold (a ++ b)), (indexOf_app_found _ _ b _ Hi).
    rewrite slice_to_app, slice_from_app by lia.
    destruct (processLine _ _ _) as [fc1 calls1|e]; [|reflexivity].
    pose proof (length_slice_from (S i) a) as Hlen.
    rewrite IH by lia.
    destruct (drainBuffer onChunk (slice_from (S i) a) fc1) as [calls2 [rest fc2|e]].
    + destruct (drainBuffer onChunk (rest ++ b) fc2) as [calls3 exit].
      now rewrite app_assoc.
    + reflexivity.
  - simpl. now destruct (drainBuffer onChunk (a ++ b) fc).
Qed.

End DecoderFacts.

(** ** The read loop *)

Section ReadLoopFacts.
Context {Num : JSNumber} {E : Engine} {D : TextDecoder} {SD : StreamingDecoder D}.
Variable onChunk : bool.

(** However the bytes are cut into values, the read loop does what the
    inner loop does on the buffer followed by the decoded text of all of
    them. *)
Lemma readLoop_whole ending values : forall d buffer fullContent,
  indexOf LF buffer = None ->
  readLoop onChunk values ending d buffer fullContent =
  decodeWhole onChunk (buffer ++ fst (decode d (concat values))) fullContent ending.
Proof.
  induction values as [|value rest IH]; intros d buffer fc Hbuf.
  - simpl. rewrite decode_nil. simpl. rewrite append_empty_r.
    unfold decodeWhole. rewrite drainBuffer_unfold, Hbuf. now destruct ending.
  - cbn [readLoop concat]. rewrite decode_app.
    destruct (decode d value) as [x d1].
    specialize (IH d1).
    destruct (decode d1 (concat rest)) as [y d2]. cbn [fst] in *.
    unfold decodeWhole. rewrite <- append_assoc.
    rewrite (drainBuffer_app onChunk (S (String.length (buffer ++ x))) (buffer ++ x) y fc) by lia.
    destruct (drainBuffer onChunk (buffer ++ x) fc) as [calls [buffer' fc'|e]] eqn:Hd;
      [|reflexivity].
    rewrite IH by (eapply drainBuffer_break; [|exact Hd]; apply Nat.lt_succ_diag_r).
    unfold decodeWhole.
    destruct (drainBuffer onChunk (buffer' ++ y) fc') as [calls' [b2 fc2|e]]; reflexivity.
Qed.

Lemma decodeStream_whole values ending :
  decodeStream onChunk values ending =
  decodeWhole onChunk (fst (decode newTextDecoder (concat values))) "" ending.
Proof. unfold decodeStream. now rewrite readLoop_whole. Qed.

Lemma decodeStream_chunking values1 values2 ending :
  concat values1 = concat values2 ->
  decodeStream onChunk values1 ending = decodeStream onChunk values2 ending.
Proof. intros H. now rewrite !decodeStream_whole, H. Qed.

End ReadLoopFacts.

Lemma string_of_list_byte_app (a b : list Byte.byte) :
  string_of_list_byte (a ++ b) = string_of_list_byte a ++ string_of_list_byte b.
Proof.
  unfold string_of_list_byte.
  induction a as [|x a IH]; simpl; [reflexivity | now rewrite IH].
Qed.

Lemma reference_decoder_streaming : StreamingDecoder Reference.decoder.
Proof.
  split; [intros []; reflexivity|].
  intros [] a b. simpl. now rewrite string_of_list_byte_app.
Qed.

(** ** A content frame *)

Section FrameFacts.
Context {Num : JSNumber} {E : Engine}.
Variable onChunk : bool.

(** A data line whose JSON holds no error and a truthy content appends
    the string of the content to the response and passes both to onChunk,
    once. *)
Lemma processLine_content data parsed content increment fullContent :
  (data =? "[DONE]") = false ->
  JSON_parse data = Some parsed ->
  truthy_opt (prop parsed "error") = false ->
  optProp (optProp (optProp (prop parsed "choices") "0") "delta") "content"
  = Some content ->
  truthy content = true ->
  toString content = Some increment ->
  processLine onChunk ("data: " ++ data) fullContent
  = Next (fullContent ++ increment)
         (if onChunk then [(content, fullContent ++ increment)] else []).
Proof.
  intros Hdone Hparse Herr Hcontent Htruthy Hstr.
  unfold processLine.
  replace (startsWith "data: " ("data: " ++ data)) with true by (now destruct data).
  change (("data: " ++ data =? "") || startsWith ":" ("data: " ++ data)) with false.
  change (slice_from 6 ("data: " ++ data)) with data.
  cbv iota. rewrite Hdone. unfold tryData. rewrite Hparse.
  destruct parsed; try discriminate Hcontent;
    rewrite Herr, Hcontent, Htruthy, Hstr; reflexivity.
Qed.

(** Such a line at the head of the buffer gives its one increment, and
    the rest of the buffer is processed from there. *)
Lemma drainBuffer_content_line line data tail parsed content increment fullContent :
  indexOf LF line = None ->
  trim line = "data: " ++ data ->
  (data =? "[DONE]") = false ->
  JSON_parse data = Some parsed ->
  truthy_opt (prop parsed "error") = false ->
  optProp (optProp (optProp (prop parsed "choices") "0") "delta") "content"
  = Some content ->
  truthy content = true ->
  toString content = Some increment ->
  drainBuffer onChunk (line ++ String LF tail) fullContent
  = let (calls, exit) := drainBuffer onChunk tail (fullContent ++ increment) in
    (((if onChunk then [(content, (fullContent ++ increment)%string)] else [])
      ++ calls)%list,
     exit).
Proof.
  intros Hline Htrim Hdone Hparse Herr Hcontent Htruthy Hstr.
  rewrite drainBuffer_unfold.
  rewrite (indexOf_app_missing _ _ _ Hline). cbn [indexOf option_map].
  rewrite Ascii.eqb_refl. cbn [option_map].
  replace (S (String.length line + 0)) with (String.length line + 1) by lia.
  rewrite slice_from_past, slice_to_past. cbn [slice_from slice_to].
  rewrite append_empty_r, Htrim.
  now rewrite (processLine_content data parsed content increment fullContent
                 Hdone Hparse Herr Hcontent Htruthy Hstr).
Qed.

End FrameFacts.

(** C4. What sendChatMessage does never depends on how the bytes of the
    response are cut into chunks: two sequences of chunks with the same
    concatenation give the same result, the same calls of onChunk and the
    same state.  And a line of the stream that is a data frame with a
    truthy content, wherever the chunks are cut, gives exactly one call of
    onChunk, with that content and with the response extended by its
    string, between the calls of the lines before it and the calls of the
    rest of the stream. *)
Theorem chunk_boundaries_do_not_matter
        {Num : JSNumber} {E : Engine} {D : TextDecoder}
        {SD : StreamingDecoder D} {U : Utils}
        (now : Z) (message : string) (onChunk : bool) (model : option string)
        (values1 values2 : list (list Byte.byte)) (ending : StreamEnd) (st : State)
        (lines line data tail : string) (before : list Emission) (fullContent : string)
        (parsed content : JSValue) (increment : string) :
  concat values1 = concat values2 ->
  sendChatMessage now message onChunk model (HttpOk values1 ending) st
  = sendChatMessage now message onChunk model (HttpOk values2 ending) st
  /\ (fst (decode newTextDecoder (concat values1)) = lines ++ line ++ String LF tail ->
      drainBuffer onChunk lines "" = (before, Break "" fullContent) ->
      indexOf LF line = None ->
      trim line = "data: " ++ data ->
      (data =? "[DONE]") = false ->
      JSON_parse data = Some parsed ->
      truthy_opt (prop parsed "error") = false ->
      optProp (optProp (optProp (prop parsed "choices") "0") "delta") "content"
      = Some content ->
      truthy content = true ->
      toString content = Some increment ->
      decodeStream onChunk values2 ending
      = let (calls, r) :=
          decodeWhole onChunk tail (fullContent ++ increment) ending in
        ((before
          ++ (if onChunk then [(content, (fullContent ++ increment)%string)] else [])
          ++ calls)%list, r)).
Proof.
  intros H. split.
  - unfold sendChatMessage, exchange.
    now rewrite (decodeStream_chunking onChunk values1 values2 ending H).
  - intros Htext Hlines Hline Htrim Hdone Hparse Herr Hcontent Htruthy Hstr.
    rewrite decodeStream_whole, <- H, Htext. unfold decodeWhole.
    rewrite (drainBuffer_app onChunk (S (String.length lines)) lines) by lia.
    rewrite Hlines. cbn [append].
    rewrite (drainBuffer_content_line onChunk line data tail parsed content increment
               fullContent Hline Htrim Hdone Hparse Herr Hcontent Htruthy Hstr).
    destruct (drainBuffer onChunk tail (fullContent ++ increment))
      as [calls [rest fc|e]]; reflexivity.
Qed.

(** The frame of the specification's example behind a comment line, in
    one piece and cut inside its content field: the two runs are the same,
    and the decoder of the cut stream calls onChunk once, with [Hello]. *)
Lemma chunk_boundaries_witness :
  (concat [Reference.bytes (": keepalive" ++ Reference.NL
                            ++ "data: {'choices':[{'delta':{'content':'Hello'}}]}"
                            ++ Reference.NL ++ Reference.NL)]
   = concat [Reference.bytes (": keepalive" ++ Reference.NL
                              ++ "data: {'choices':[{'delta':{'content':'He");
             Reference.bytes ("llo'}}]}" ++ Reference.NL ++ Reference.NL)]
   /\ drainBuffer (E := Reference.engine) true (": keepalive" ++ Reference.NL) ""
      = ([], Break "" "")
   /\ JSON_parse (Engine := Reference.engine)
        (Reference.quoted "{'choices':[{'delta':{'content':'Hello'}}]}")
      = Some (JObj [("choices",
                     JArr [JObj [("delta", JObj [("content", JStr "Hello")])]])]))
  /\ sendChatMessage (E := Reference.engine) (D := Reference.decoder)
       (U := Reference.utils) 0 "hi" true None
       (HttpOk [Reference.bytes (": keepalive" ++ Reference.NL
                                 ++ "data: {'choices':[{'delta':{'content':'Hello'}}]}"
                                 ++ Reference.NL ++ Reference.NL)]
               StreamDone) Reference.loaded
     = sendChatMessage (E := Reference.engine) (D := Reference.decoder)
       (U := Reference.utils) 0 "hi" true None
       (HttpOk [Reference.bytes (": keepalive" ++ Reference.NL
                                 ++ "data: {'choices':[{'delta':{'content':'He");
                Reference.bytes ("llo'}}]}" ++ Reference.NL ++ Reference.NL)]
               StreamDone) Reference.loaded
  /\ decodeStream (E := Reference.engine) (D := Reference.decoder) true
       [Reference.bytes (": keepalive" ++ Reference.NL
                         ++ "data: {'choices':[{'delta':{'content':'He");
        Reference.bytes ("llo'}}]}" ++ Reference.NL ++ Reference.NL)] StreamDone
     = ([(JStr "Hello", "Hello")], inr "Hello").
Proof.
  split; [repeat split; reflexivity|].
  pose proof (chunk_boundaries_do_not_matter
                (E := Reference.engine) (D := Reference.decoder)
                (SD := reference_decoder_streaming) (U := Reference.utils)
                0 "hi" true None
                [Reference.bytes (": keepalive" ++ Reference.NL
                                  ++ "data: {'choices':[{'delta':{'content':'Hello'}}]}"
                                  ++ Reference.NL ++ Reference.NL)]
                [Reference.bytes (": keepalive" ++ Reference.NL
                                  ++ "data: {'choices':[{'delta':{'content':'He");
                 Reference.bytes ("llo'}}]}" ++ Reference.NL ++ Reference.NL)]
                StreamDone Reference.loaded
                (": keepalive" ++ Reference.NL)
                (Reference.quoted "data: {'choices':[{'delta':{'content':'Hello'}}]}")
                (Reference.quoted "{'choices':[{'delta':{'content':'Hello'}}]}")
                Reference.NL [] ""
                (JObj [("choices",
                        JArr [JObj [("delta", JObj [("content", JStr "Hello")])]])])
                (JStr "Hello") "Hello" eq_refl) as [Hsame Hframe].
  split; [exact Hsame|].
  exact (Hframe eq_refl eq_refl eq_refl eq_refl eq_refl eq_refl eq_refl eq_refl
                eq_refl eq_refl).
Defined.

(** The frame of the specification's example, cut inside its content
    field, yields the one increment [Hello]. *)
Example reassembly_of_a_split_frame :
  events (sendChatMessage (E := Reference.engine) (D := Reference.decoder)
            (U := Reference.utils) 0 "hi" true None
            (HttpOk [Reference.bytes "data: {'choices':[{'delta':{'content':'He";
                     Reference.bytes ("llo'}}]}" ++ Reference.NL ++ Reference.NL)]
                    StreamDone) Reference.loaded)
  = [ Fetch (PostChat [ {| role := user; content := "hi" |} ]
                      "anthropic/claude-sonnet-4.5" true false);
      OnChunk (JStr "Hello") "Hello" ].
Proof. vm_compute. reflexivity. Qed.

(** ** The terminal sentinel *)

(** C1, counterexample. After the sentinel line has been dispatched (the
    first chunk is exactly that line and emits nothing), a data line that
    arrives in a later chunk is decoded and its content is passed to
    onChunk. *)
Lemma increment_after_the_sentinel :
  decodeStream (E := Reference.engine) (D := Reference.decoder) true
    [Reference.bytes ("data: [DONE]" ++ Reference.NL)] StreamDone
  = ([], inr "")
  /\ decodeStream (E := Reference.engine) (D := Reference.decoder) true
       [Reference.bytes ("data: [DONE]" ++ Reference.NL);
        Reference.bytes ("data: {'choices':[{'delta':{'content':'late'}}]}"
                         ++ Reference.NL)] StreamDone
     = ([(JStr "late", "late")], inr "late")
  /\ events (sendChatMessage (E := Reference.engine) (D := Reference.decoder)
               (U := Reference.utils) 0 "hi" true None
               (HttpOk [Reference.bytes ("data: [DONE]" ++ Reference.NL);
                        Reference.bytes ("data: {'choices':[{'delta':{'content':'late'}}]}"
                                         ++ Reference.NL)] StreamDone)
               Reference.loaded)
     = [ Fetch (PostChat [ {| role := user; content := "hi" |} ]
                         "anthropic/claude-sonnet-4.5" true false);
         OnChunk (JStr "late") "late" ].
Proof. vm_compute. repeat split. Qed.

(** C1, as amended. A data line equal to the terminal sentinel is skipped:
    it calls onChunk with nothing and leaves the accumulated response as
    it is, and the text behind it in the buffer is processed as if the
    sentinel line were not there; once the stream is closed nothing more
    is emitted, whatever the buffer still holds. *)
Theorem sentinel_line_is_skipped
        {Num : JSNumber} {E : Engine} {D : TextDecoder}
        (onChunk : bool) (rest fullContent : string)
        (ending : StreamEnd) (d : decoderState) :
  processLine onChunk "data: [DONE]" fullContent = Next fullContent []
  /\ drainBuffer onChunk ("data: [DONE]" ++ String LF rest) fullContent
     = drainBuffer onChunk rest fullContent
  /\ fst (readLoop onChunk [] ending d rest fullContent) = [].
Proof.
  split; [reflexivity|]. split.
  - rewrite drainBuffer_unfold. simpl.
    now destruct (drainBuffer onChunk rest fullContent).
  - now destruct ending.
Qed.

(** ** Malformed lines and upstream errors *)

Section LineFacts.
Context {Num : JSNumber} {E : Engine}.
Variable onChunk : bool.

(** A data line whose payload [JSON.parse] rejects is skipped. *)
Lemma malformed_line_is_skipped data fullContent :
  JSON_parse data = None ->
  processLine onChunk ("data: " ++ data) fullContent = Next fullContent [].
Proof.
  intros H. unfold processLine. cbn.
  assert (Hp : String.prefix "" data = true) by now destruct data.
  rewrite Hp. unfold tryData. rewrite H.
  now destruct (data =? "[DONE]").
Qed.

(** What becomes of a data line whose payload carries a truthy [error]:
    the error leaves the loop only when the message built at line 627 is
    the literal of line 639; with any other message the line is skipped
    like a malformed one. *)
Lemma error_line_outcome data parsed fullContent :
  (data =? "[DONE]") = false ->
  JSON_parse data = Some parsed ->
  parsed <> JNull ->
  truthy_opt (prop parsed "error") = true ->
  processLine onChunk ("data: " ++ data) fullContent =
  match toString (orElse (optProp (prop parsed "error") "message")
                         (JStr "Stream error")) with
  | Some msg =>
      if msg =? "Stream error" then Rethrow (mkError msg) else Next fullContent []
  | None => Next fullContent []
  end.
Proof.
  intros Hd Hp Hn Ht. unfold processLine. cbn.
  assert (Hpre : String.prefix "" data = true) by now destruct data.
  rewrite Hpre, Hd. unfold tryData. rewrite Hp.
  destruct parsed; try contradiction; rewrite Ht;
    now destruct (toString _).
Qed.

End LineFacts.

(** C2. A stream whose first data line is an upstream error with a message
    and whose second data line carries content: the error line is skipped
    like a malformed one, the content that follows is emitted, and the call
    resolves instead of rejecting. *)
Theorem upstream_error_with_message_is_swallowed :
  processLine (E := Reference.engine) true
    (Reference.quoted "data: {'error':{'message':'Provider overloaded'}}") ""
  = Next "" []
  /\ decodeStream (E := Reference.engine) (D := Reference.decoder) true
       [Reference.bytes ("data: {'error':{'message':'Provider overloaded'}}"
                         ++ Reference.NL
                         ++ "data: {'choices':[{'delta':{'content':'Hi'}}]}"
                         ++ Reference.NL)] StreamDone
     = ([(JStr "Hi", "Hi")], inr "Hi")
  /\ result (sendChatMessage (E := Reference.engine) (D := Reference.decoder)
               (U := Reference.utils) 0 "hi" true None
               (HttpOk [Reference.bytes
                          ("data: {'error':{'message':'Provider overloaded'}}"
                           ++ Reference.NL
                           ++ "data: {'choices':[{'delta':{'content':'Hi'}}]}"
                           ++ Reference.NL)] StreamDone)
               Reference.loaded)
     = Resolved "Hi".
Proof. vm_compute. repeat split. Qed.

(** An upstream error without a message does leave the loop, as the error
    ['Stream error']; the call is rejected and the content behind it is
    not read. *)
Example upstream_error_without_message_is_rethrown :
  decodeStream (E := Reference.engine) (D := Reference.decoder) true
    [Reference.bytes ("data: {'error':{'code':502}}" ++ Reference.NL
                      ++ "data: {'choices':[{'delta':{'content':'Hi'}}]}"
                      ++ Reference.NL)] StreamDone
  = ([], inl (mkError "Stream error")).
Proof. vm_compute. reflexivity. Qed.

(** ** The checks in front of sendChatMessage *)

Section ChatFacts.
Context {Num : JSNumber} {E : Engine} {D : TextDecoder} {U : Utils}.

Lemma checkRateLimit_admitted now l :
  fst (canMakeRequest now l) = true ->
  checkRateLimit now l = (inl tt, snd (canMakeRequest now l)).
Proof.
  unfold checkRateLimit. destruct (canMakeRequest now l) as [[|] l1]; simpl;
    [reflexivity | discriminate].
Qed.

Lemma checkRateLimit_refused now l :
  fst (canMakeRequest now l) = false ->
  exists e l', checkRateLimit now l = (inr e, l').
Proof.
  unfold checkRateLimit. destruct (canMakeRequest now l) as [[|] l1]; simpl;
    [discriminate|]. intros _.
  destruct (getTimeUntilNextRequest now l1) as [ms l2]. eauto.
Qed.

(** A call that passes both checks appends the user turn, sends the request
    and settles by the outcome of the exchange. *)
Lemma sendChatMessage_admitted now message onChunk model net st :
  fst (canMakeRequest now (apiRateLimiter st)) = true ->
  sanitizePrompt message <> "" ->
  sendChatMessage now message onChunk model net st =
  let st1 := withLimiter st (snd (canMakeRequest now (apiRateLimiter st))) in
  let pushed :=
    (chatHistory st ++ [ {| role := user; content := sanitizePrompt message |} ])%list in
  let request :=
    PostChat pushed (selectModel model (currentChatModel st)) true (webSearchEnabled st) in
  match exchange onChunk net pushed with
  | (inr response, calls, history) =>
      {| result := Resolved response;
         events := Fetch request :: map (fun c => OnChunk (fst c) (snd c)) calls;
         final := withHistory st1 history |}
  | (inl error, calls, history) =>
      {| result := Rejected (rethrowFriendly error);
         events := Fetch request :: map (fun c => OnChunk (fst c) (snd c)) calls;
         final := withHistory st1 (rollbackLastUser history) |}
  end.
Proof.
  intros Hgate Hmsg. unfold sendChatMessage.
  rewrite (checkRateLimit_admitted _ _ Hgate).
  apply String.eqb_neq in Hmsg. rewrite Hmsg. reflexivity.
Qed.

(** ** Rollback *)

Lemma removelast_snoc (A : Type) (l : list A) (x : A) : removelast (l ++ [x]) = l.
Proof. rewrite removelast_app by discriminate. simpl. apply app_nil_r. Qed.

(** The guarded pop undoes the push of a user turn. *)
Lemma rollback_after_push history text :
  rollbackLastUser (history ++ [ {| role := user; content := text |} ]) = history.
Proof.
  unfold rollbackLastUser. rewrite length_app. simpl.
  replace (List.length history + 1 - 1) with (List.length history) by lia.
  rewrite nth_error_app2 by lia. rewrite Nat.sub_diag. simpl.
  replace (0 <? List.length history + 1)%nat with true
    by (symmetry; apply Nat.ltb_lt; lia).
  simpl. apply removelast_snoc.
Qed.

(** An error in the middle of the stream, a rejected fetch and an error
    response whose body is not JSON all restore the history. *)
Lemma failure_without_inner_pop_restores_history now message onChunk model net st :
  fst (canMakeRequest now (apiRateLimiter st)) = true ->
  sanitizePrompt message <> "" ->
  (forall status errorData, net <> HttpError status (inr errorData)) ->
  (exists e, result (sendChatMessage now message onChunk model net st) = Rejected e) ->
  chatHistory (final (sendChatMessage now message onChunk model net st)) = chatHistory st.
Proof.
  intros Hgate Hmsg Hnet. rewrite (sendChatMessage_admitted _ _ _ _ _ _ Hgate Hmsg).
  cbv zeta. unfold exchange.
  destruct net as [e|status [e|errorData]|values ending].
  - intros _. simpl. apply rollback_after_push.
  - intros _. simpl. apply rollback_after_push.
  - exfalso. eapply Hnet. reflexivity.
  - destruct (decodeStream onChunk values ending) as [calls [e|fc]].
    + intros _. simpl. apply rollback_after_push.
    + destruct (fc =? ""); simpl; intros [e He]; discriminate.
Qed.

(** An error response with a JSON body pops twice: once at line 590 and
    once more, under the guard, in the catch block.  The history that is
    left is the one before the call with a trailing user turn removed. *)
Lemma error_response_rolls_back_twice now message onChunk model status errorData st :
  fst (canMakeRequest now (apiRateLimiter st)) = true ->
  sanitizePrompt message <> "" ->
  chatHistory (final (sendChatMessage now message onChunk model
                        (HttpError status (inr errorData)) st))
  = rollbackLastUser (chatHistory st).
Proof.
  intros Hgate Hmsg. rewrite (sendChatMessage_admitted _ _ _ _ _ _ Hgate Hmsg).
  simpl. now rewrite removelast_snoc.
Qed.

End ChatFacts.

(** C3. A first exchange resolves with an empty response and leaves its
    user turn in the history; the second exchange fails with a JSON error
    response.  The history is then empty: the failure removed the turn it
    had appended and the turn of the first exchange as well. *)
Theorem failed_exchange_removes_an_earlier_turn :
  result Reference.unanswered = Resolved "No response received"
  /\ chatHistory (final Reference.unanswered) = [ {| role := user; content := "first" |} ]
  /\ result (sendChatMessage (E := Reference.engine) (D := Reference.decoder)
               (U := Reference.utils) 1 "second" true None
               (HttpError 500 (inr (JObj [("error", JStr "boom")])))
               (final Reference.unanswered))
     = Rejected (mkError "boom")
  /\ chatHistory (final (sendChatMessage (E := Reference.engine) (D := Reference.decoder)
                           (U := Reference.utils) 1 "second" true None
                           (HttpError 500 (inr (JObj [("error", JStr "boom")])))
                           (final Reference.unanswered)))
     = [].
Proof. vm_compute. repeat split. Qed.

(** ** Validation before the request *)

(** C5. When the limiter refuses the call or the prompt sanitizes to the
    empty string, sendChatMessage rejects without any event (no fetch, no
    chunk) and leaves chatHistory as it was; the four other operations
    reject without sending a request. *)
Theorem validation_errors_precede_the_request
        {Num : JSNumber} {E : Engine} {D : TextDecoder} {U : Utils}
        (now : Z) (message image : string) (attachment : option string)
        (onChunk : bool) (model : option string) (net : FetchResult) (st : State) :
  fst (canMakeRequest now (apiRateLimiter st)) = false \/ sanitizePrompt message = "" ->
  (exists e, result (sendChatMessage now message onChunk model net st) = Rejected e)
  /\ events (sendChatMessage now message onChunk model net st) = []
  /\ chatHistory (final (sendChatMessage now message onChunk model net st)) = chatHistory st
  /\ (exists e, fst (analyzeImage_request now image message st) = inl e)
  /\ (exists e, fst (editImage_request now image message model st) = inl e)
  /\ (exists e, fst (enhancePromptWithAI_request now message attachment st) = inl e)
  /\ (exists e, fst (generateImage_request now message model st) = inl e).
Proof.
  intros H.
  unfold sendChatMessage, analyzeImage_request, editImage_request,
    enhancePromptWithAI_request, generateImage_request.
  destruct (fst (canMakeRequest now (apiRateLimiter st))) eqn:Hgate.
  - destruct H as [H|H]; [discriminate|].
    rewrite (checkRateLimit_admitted _ _ Hgate), H. simpl.
    repeat split; eauto.
  - destruct (checkRateLimit_refused _ _ Hgate) as (e & l' & ->). simpl.
    repeat split; eauto.
Qed.

(** The window of ten calls is full: a call at time 60000 is rejected
    before anything is sent and the history stays empty. *)
Lemma validation_errors_witness :
  (fst (canMakeRequest (Utils := Reference.utils) 60000
          (apiRateLimiter (withLimiter Reference.loaded Reference.fullWindow))) = false
   \/ sanitizePrompt (Utils := Reference.utils) "hello" = "")
  /\ (exists e, result (sendChatMessage (E := Reference.engine) (D := Reference.decoder)
                          60000 "hello" true None (HttpOk [] StreamDone)
                          (withLimiter Reference.loaded Reference.fullWindow))
                = Rejected e)
  /\ events (sendChatMessage (E := Reference.engine) (D := Reference.decoder)
               60000 "hello" true None (HttpOk [] StreamDone)
               (withLimiter Reference.loaded Reference.fullWindow)) = []
  /\ chatHistory (final (sendChatMessage (E := Reference.engine) (D := Reference.decoder)
                           60000 "hello" true None (HttpOk [] StreamDone)
                           (withLimiter Reference.loaded Reference.fullWindow))) = [].
Proof.
  split; [left; reflexivity|].
  pose proof (validation_errors_precede_the_request
                (E := Reference.engine) (D := Reference.decoder) (U := Reference.utils)
                60000 "hello" "" None true None (HttpOk [] StreamDone)
                (withLimiter Reference.loaded Reference.fullWindow)
                (or_introl eq_refl)) as (H1 & H2 & H3 & _).
  exact (conj H1 (conj H2 H3)).
Defined.

(** ** The admission check *)

Section LimiterFacts.
Import SpecRateLimiter.

(** The purge of an earlier check removes nothing that a later check
    retains. *)
Lemma retained_after_purge now now' w :
  (now <= now')%Z -> retained now' (purge now w) = retained now' w.
Proof.
  intros Hle. unfold retained at 1. unfold purge. cbn [timestamps windowDurationMs].
  unfold retained. induction (timestamps w) as [|t ts IH]; cbn [filter]; [reflexivity|].
  destruct (now - windowDurationMs w <=? t)%Z eqn:Ht; cbn [filter]; rewrite IH;
    [reflexivity|].
  replace (now' - windowDurationMs w <=? t)%Z with false; [reflexivity|].
  symmetry. apply Z.leb_gt. apply Z.leb_gt in Ht. lia.
Qed.

Lemma purge_after_purge now now' w :
  (now <= now')%Z -> purge now' (purge now w) = purge now' w.
Proof.
  intros Hle. unfold purge at 1 3. now rewrite (retained_after_purge _ _ _ Hle).
Qed.

(** The answers of a check depend on the retained timestamps only, so no
    later check can tell a purged window from the window as it was. *)
Lemma canAdmit_after_purge now now' w :
  (now <= now')%Z -> canAdmit now' (purge now w) = canAdmit now' w.
Proof.
  intros Hle. unfold canAdmit. now rewrite (retained_after_purge _ _ _ Hle).
Qed.

Lemma timeUntilNextSlot_after_purge now now' w :
  (now <= now')%Z -> timeUntilNextSlot now' (purge now w) = timeUntilNextSlot now' w.
Proof.
  intros Hle. unfold timeUntilNextSlot.
  now rewrite (canAdmit_after_purge _ _ _ Hle), (retained_after_purge _ _ _ Hle).
Qed.


(** With a positive capacity [timeUntilNextSlot] is zero exactly when a
    call is admittable. *)
Lemma timeUntilNextSlot_zero now w :
  (0 < maxCalls w)%Z ->
  (timeUntilNextSlot now w = 0%Z <-> canAdmit now w = true).
Proof.
  intros Hcap. unfold timeUntilNextSlot.
  destruct (canAdmit now w) eqn:Hadmit; [now split|].
  split; [|discriminate]. unfold canAdmit in Hadmit. apply Z.ltb_ge in Hadmit.
  unfold retained in *.
  destruct (filter _ (timestamps w)) as [|oldest rest] eqn:Hf; [cbn in Hadmit; lia|].
  assert (Hin : In oldest (filter (fun t => (now - windowDurationMs w <=? t)%Z)
                                  (timestamps w))) by (rewrite Hf; now left).
  apply filter_In in Hin as [_ Hold]. apply Z.leb_le in Hold. lia.
Qed.

(** When a call is refused, the oldest retained timestamp is outside the
    window after a wait [d] exactly when [d] is at least
    [timeUntilNextSlot]. *)
Lemma oldest_leaves_after_the_wait now w oldest rest d :
  canAdmit now w = false ->
  retained now w = oldest :: rest ->
  ((now + d - windowDurationMs w <=? oldest)%Z = false
   <-> (timeUntilNextSlot now w <= d)%Z).
Proof.
  intros Hadmit Hret. unfold timeUntilNextSlot. rewrite Hadmit, Hret.
  rewrite Z.leb_gt. lia.
Qed.

Context (sanitize : string -> string) (friendly : JSError -> string)
        (prepareImage : string -> JSError + string).

(** What checkRateLimit and getRateLimitStatus of api.js leave stored. *)
Lemma checkRateLimit_purges now w :
  snd (checkRateLimit (U := utils sanitize friendly prepareImage) now w) = purge now w.
Proof.
  unfold checkRateLimit. cbn -[purge canAdmit timeUntilNextSlot remainingCalls ceilDiv ofZ append].
  destruct (canAdmit now w); cbn [snd]; [reflexivity|].
  apply purge_after_purge. lia.
Qed.





End LimiterFacts.




(** ** The model that is forwarded *)

(** C7, counterexample. An id that is in neither registry, passed as the
    [model] argument, is the [model] field of the request that
    generateImage, editImage and sendChatMessage send. *)
Lemma unregistered_model_is_forwarded :
  fst (generateImage_request (U := Reference.utils) 0 "a cat"
         (Some "not/a-model") Reference.loaded)
  = inr (PostGenerate "a cat" "not/a-model")
  /\ fst (editImage_request (U := Reference.utils) 0 "data:image/png;base64,AAAA"
            "brighter" (Some "not/a-model") Reference.loaded)
     = inr (PostEdit "brighter" "data:image/png;base64,AAAA" "not/a-model")
  /\ hd_error (events (sendChatMessage (E := Reference.engine) (D := Reference.decoder)
                         (U := Reference.utils) 0 "hi" true (Some "not/a-model")
                         (HttpOk [] StreamDone) Reference.loaded))
     = Some (Fetch (PostChat [ {| role := user; content := "hi" |} ]
                             "not/a-model" true false))
  /\ isRegistryKey IMAGE_GENERATION_MODELS "not/a-model" = false
  /\ isRegistryKey CHAT_MODELS "not/a-model" = false.
Proof. vm_compute. repeat split. Qed.

(** C7, as amended. Once the call has passed the rate limit and the prompt
    check, the [model] field of the request is the id the caller passed
    when it is a non-empty string, whatever the registry holds, and the
    currently selected model otherwise. *)
Theorem forwarded_model_is_the_selected_one
        {Num : JSNumber} {E : Engine} {D : TextDecoder} {U : Utils}
        (now : Z) (prompt image : string) (onChunk : bool)
        (model : option string) (net : FetchResult) (st : State) :
  fst (canMakeRequest now (apiRateLimiter st)) = true ->
  sanitizePrompt prompt <> "" ->
  fst (generateImage_request now prompt model st)
  = inr (PostGenerate (sanitizePrompt prompt)
                      (selectModel model (currentGenerationModel st)))
  /\ (forall prepared, prepareImageForUpload image = inr prepared ->
      fst (editImage_request now image prompt model st)
      = inr (PostEdit (sanitizePrompt prompt) prepared
                      (selectModel model (currentEditModel st))))
  /\ hd_error (events (sendChatMessage now prompt onChunk model net st))
     = Some (Fetch (PostChat
                      (chatHistory st ++ [ {| role := user;
                                              content := sanitizePrompt prompt |} ])%list
                      (selectModel model (currentChatModel st))
                      true (webSearchEnabled st)))
  /\ (forall id current, id <> "" -> selectModel (Some id) current = id)
  /\ (forall current, selectModel None current = current
                      /\ selectModel (Some "") current = current).
Proof.
  intros Hgate Hmsg. repeat split.
  - unfold generateImage_request.
    rewrite (checkRateLimit_admitted _ _ Hgate).
    apply String.eqb_neq in Hmsg. now rewrite Hmsg.
  - intros prepared Hp. unfold editImage_request.
    rewrite (checkRateLimit_admitted _ _ Hgate).
    apply String.eqb_neq in Hmsg. now rewrite Hmsg, Hp.
  - rewrite (sendChatMessage_admitted _ _ _ _ _ _ Hgate Hmsg). cbv zeta.
    now destruct (exchange _ _ _) as [[[e|response] calls] history].
  - intros id current Hid. unfold selectModel.
    apply String.eqb_neq in Hid. now rewrite Hid.
Qed.

(** A call of generateImage with a registered id on the loaded module. *)
Lemma forwarded_model_witness :
  (fst (canMakeRequest (Utils := Reference.utils) 0 (apiRateLimiter Reference.loaded)) = true
   /\ sanitizePrompt (Utils := Reference.utils) "a cat" <> "")
  /\ fst (generateImage_request (U := Reference.utils) 0 "a cat"
            (Some "openai/gpt-5-image") Reference.loaded)
     = inr (PostGenerate "a cat" "openai/gpt-5-image").
Proof.
  split; [split; [reflexivity | discriminate]|].
  exact (proj1 (forwarded_model_is_the_selected_one
                  (E := Reference.engine) (D := Reference.decoder) (U := Reference.utils)
                  0 "a cat" "" true (Some "openai/gpt-5-image") (HttpOk [] StreamDone)
                  Reference.loaded eq_refl
                  (fun H : "a cat" = "" => eq_ind "a cat"
                     (fun s => match s with EmptyString => False | String _ _ => True end)
                     I "" H))).
Defined.

(** ** Image preparation *)

(** The first test of [prepare], in its boolean form. *)
Lemma prepare_when_size_fits
      {Bitmap Step : Type} (decodeImage : string -> Bitmap)
      (encodeImage : Bitmap -> Step -> string) (schedule : list Step)
      (image : string) (maxBytes : nat) :
  (SpecImagePreparer.encodedSize image <=? maxBytes)%nat = true ->
  SpecImagePreparer.prepare decodeImage encodeImage schedule image maxBytes = inr image.
Proof. intros H. unfold SpecImagePreparer.prepare. now rewrite H. Qed.

(** C8. An image whose encoded size is within the budget is returned as
    it is. *)
Theorem prepare_within_budget_is_identity
        {Bitmap Step : Type} (decodeImage : string -> Bitmap)
        (encodeImage : Bitmap -> Step -> string) (schedule : list Step)
        (image : string) (maxBytes : nat) :
  SpecImagePreparer.encodedSize image <= maxBytes ->
  SpecImagePreparer.prepare decodeImage encodeImage schedule image maxBytes = inr image.
Proof.
  intros H. apply prepare_when_size_fits. now apply Nat.leb_le.
Qed.

(** Ten code units against a budget of twenty, with a toy codec. *)
Lemma prepare_within_budget_witness :
  SpecImagePreparer.encodedSize "0123456789" <= 20
  /\ SpecImagePreparer.prepare (fun image : string => image)
       (fun bitmap n => slice_to n bitmap) [8; 4; 2] "0123456789" 20
     = inr "0123456789".
Proof.
  split; [apply Nat.leb_le; reflexivity|].
  apply (prepare_within_budget_is_identity (fun image : string => image)
           (fun bitmap n => slice_to n bitmap) [8; 4; 2] "0123456789" 20).
  apply Nat.leb_le; reflexivity.
Defined.

Section PrepareFacts.
Variables (Bitmap Step : Type).
Variable decodeImage : string -> Bitmap.
Variable encodeImage : Bitmap -> Step -> string.
Variable schedule : list Step.

Lemma reencode_fits bitmap maxBytes steps payload :
  SpecImagePreparer.reencode encodeImage bitmap maxBytes steps = Some payload ->
  SpecImagePreparer.encodedSize payload <= maxBytes.
Proof.
  induction steps as [|step steps IH]; simpl; [discriminate|].
  destruct (SpecImagePreparer.encodedSize (encodeImage bitmap step) <=? maxBytes)%nat eqn:Hfit.
  - intros H. injection H as <-. now apply Nat.leb_le.
  - exact IH.
Qed.

(** What preparation returns is within the budget, so preparing it again
    changes nothing. *)
Lemma prepare_idempotent image maxBytes payload :
  SpecImagePreparer.prepare decodeImage encodeImage schedule image maxBytes = inr payload ->
  SpecImagePreparer.prepare decodeImage encodeImage schedule payload maxBytes = inr payload.
Proof.
  intros H. apply prepare_when_size_fits.
  unfold SpecImagePreparer.prepare in H.
  destruct (SpecImagePreparer.encodedSize image <=? maxBytes)%nat eqn:Hfit.
  - now injection H as <-.
  - destruct (SpecImagePreparer.reencode encodeImage (decodeImage image) maxBytes schedule)
      as [p|] eqn:Hre; [|discriminate].
    injection H as <-. apply Nat.leb_le. eapply reencode_fits; eassumption.
Qed.

End PrepareFacts.

(** With that preparer behind [prepareImageForUpload], analyzeImage and
    editImage post an image that is within the budget as they received
    it. *)
Lemma image_within_budget_is_posted_unchanged
      {U : Utils} {Bitmap Step : Type} (decodeImage : string -> Bitmap)
      (encodeImage : Bitmap -> Step -> string) (schedule : list Step) (maxBytes : nat)
      (now : Z) (image prompt : string) (model : option string) (st : State) :
  (forall payload,
     prepareImageForUpload payload
     = SpecImagePreparer.prepare decodeImage encodeImage schedule payload maxBytes) ->
  SpecImagePreparer.encodedSize image <= maxBytes ->
  fst (canMakeRequest now (apiRateLimiter st)) = true ->
  sanitizePrompt prompt <> "" ->
  fst (analyzeImage_request now image prompt st)
  = inr (PostAnalyze (sanitizePrompt prompt) image)
  /\ fst (editImage_request now image prompt model st)
     = inr (PostEdit (sanitizePrompt prompt) image
                     (selectModel model (currentEditModel st))).
Proof.
  intros Hprep Hfit Hgate Hmsg.
  unfold analyzeImage_request, editImage_request.
  rewrite (checkRateLimit_admitted _ _ Hgate).
  apply String.eqb_neq in Hmsg. rewrite Hmsg, Hprep.
  apply Nat.leb_le in Hfit.
  rewrite (prepare_when_size_fits _ _ _ _ _ Hfit).
  split; reflexivity.
Qed.

(** ** An exchange without content *)

(** C9. When the call passes the rate limit and the prompt check and the
    stream ends with an empty accumulated response, sendChatMessage
    resolves with the text ['No response received'] and the history is the
    one before the call followed by the user turn alone. *)
Theorem empty_response_leaves_the_user_turn
        {Num : JSNumber} {E : Engine} {D : TextDecoder} {U : Utils}
        (now : Z) (message : string) (onChunk : bool) (model : option string)
        (values : list (list Byte.byte)) (ending : StreamEnd)
        (calls : list Emission) (st : State) :
  fst (canMakeRequest now (apiRateLimiter st)) = true ->
  sanitizePrompt message <> "" ->
  decodeStream onChunk values ending = (calls, inr "") ->
  result (sendChatMessage now message onChunk model (HttpOk values ending) st)
  = Resolved "No response received"
  /\ chatHistory (final (sendChatMessage now message onChunk model (HttpOk values ending) st))
     = (chatHistory st ++ [ {| role := user; content := sanitizePrompt message |} ])%list.
Proof.
  intros Hgate Hmsg Hdec.
  rewrite (sendChatMessage_admitted _ _ _ _ _ _ Hgate Hmsg).
  cbv zeta. unfold exchange. rewrite Hdec. simpl. split; reflexivity.
Qed.

(** The first exchange of the example: a keepalive comment and the
    sentinel, no content. *)
Lemma empty_response_witness :
  (fst (canMakeRequest (Utils := Reference.utils) 0 (apiRateLimiter Reference.loaded)) = true
   /\ sanitizePrompt (Utils := Reference.utils) "first" <> ""
   /\ decodeStream (E := Reference.engine) (D := Reference.decoder) true
        [Reference.bytes (": keepalive" ++ Reference.NL ++ "data: [DONE]" ++ Reference.NL)]
        StreamDone = ([], inr ""))
  /\ result Reference.unanswered = Resolved "No response received"
  /\ chatHistory (final Reference.unanswered) = [ {| role := user; content := "first" |} ].
Proof.
  split; [split; [reflexivity | split; [discriminate | reflexivity]]|].
  exact (empty_response_leaves_the_user_turn
           (E := Reference.engine) (D := Reference.decoder) (U := Reference.utils)
           0 "first" true None
           [Reference.bytes (": keepalive" ++ Reference.NL ++ "data: [DONE]" ++ Reference.NL)]
           StreamDone [] Reference.loaded eq_refl
           (fun H : "first" = "" => eq_ind "first"
              (fun s => match s with EmptyString => False | String _ _ => True end)
              I "" H)
           eq_refl).
Defined.

(** ** The selected models *)

(** C10. The setters accept a name that every object inherits: after
    setGenerationModel('constructor') the current generation model is
    [constructor], which is no key of the registry; the same holds for the
    edit and the chat model. *)
Theorem inherited_name_becomes_the_current_model {U : Utils} :
  currentGenerationModel (setGenerationModel "constructor" initialState) = "constructor"
  /\ isRegistryKey IMAGE_GENERATION_MODELS "constructor" = false
  /\ currentEditModel (setEditModel "toString" initialState) = "toString"
  /\ isRegistryKey IMAGE_GENERATION_MODELS "toString" = false
  /\ currentChatModel (setChatModel "__proto__" initialState) = "__proto__"
  /\ isRegistryKey CHAT_MODELS "__proto__" = false.
Proof. repeat split. Qed.

Section SetterFacts.
Context {U : Utils}.

(** The models selected when the script is loaded are registry keys. *)
Lemma initial_models_are_registry_keys :
  isRegistryKey IMAGE_GENERATION_MODELS (currentGenerationModel initialState) = true
  /\ isRegistryKey IMAGE_GENERATION_MODELS (currentEditModel initialState) = true
  /\ isRegistryKey CHAT_MODELS (currentChatModel initialState) = true.
Proof. repeat split. Qed.

(** A setter called with an id that is no inherited name keeps a registry
    key selected, and ignores an id that is no key. *)
Lemma setters_keep_registry_keys modelId st :
  inheritedName modelId = false ->
  (isRegistryKey IMAGE_GENERATION_MODELS (currentGenerationModel st) = true ->
   isRegistryKey IMAGE_GENERATION_MODELS
     (currentGenerationModel (setGenerationModel modelId st)) = true)
  /\ (isRegistryKey IMAGE_GENERATION_MODELS (currentEditModel st) = true ->
      isRegistryKey IMAGE_GENERATION_MODELS
        (currentEditModel (setEditModel modelId st)) = true)
  /\ (isRegistryKey CHAT_MODELS (currentChatModel st) = true ->
      isRegistryKey CHAT_MODELS (currentChatModel (setChatModel modelId st)) = true)
  /\ (isRegistryKey IMAGE_GENERATION_MODELS modelId = false ->
      setGenerationModel modelId st = st /\ setEditModel modelId st = st)
  /\ (isRegistryKey CHAT_MODELS modelId = false -> setChatModel modelId st = st).
Proof.
  intros Hinh.
  unfold setGenerationModel, setEditModel, setChatModel, registryRead_truthy.
  rewrite Hinh, !orb_false_r.
  split; [|split; [|split; [|split]]]; intros H.
  - destruct (isRegistryKey IMAGE_GENERATION_MODELS modelId) eqn:Hk; auto.
  - destruct (isRegistryKey IMAGE_GENERATION_MODELS modelId) eqn:Hk; auto.
  - destruct (isRegistryKey CHAT_MODELS modelId) eqn:Hk; auto.
  - rewrite H. split; reflexivity.
  - now rewrite H.
Qed.

End SetterFacts.

(** ** What api.js does to the limiter of the specification *)

(** With the limiter of the specification no operation of api.js records
    an admission: api.js calls the three checks only, so what an operation
    leaves stored is the window without its expired timestamps. *)
Lemma operations_never_record
      {Num : JSNumber} {E : Engine} {D : TextDecoder}
      (sanitize : string -> string) (friendly : JSError -> string)
      (prepareImage : string -> JSError + string)
      (now : Z) (prompt image : string) (onChunk : bool) (model : option string)
      (net : FetchResult)
      (st : State (U := SpecRateLimiter.utils sanitize friendly prepareImage)) :
  apiRateLimiter (final (sendChatMessage now prompt onChunk model net st))
  = SpecRateLimiter.purge now (apiRateLimiter st)
  /\ apiRateLimiter (snd (generateImage_request now prompt model st))
     = SpecRateLimiter.purge now (apiRateLimiter st)
  /\ apiRateLimiter (snd (editImage_request now image prompt model st))
     = SpecRateLimiter.purge now (apiRateLimiter st)
  /\ apiRateLimiter (snd (analyzeImage_request now image prompt st))
     = SpecRateLimiter.purge now (apiRateLimiter st).
Proof.
  pose proof (checkRateLimit_purges sanitize friendly prepareImage now
                (apiRateLimiter st)) as Hl.
  unfold sendChatMessage, generateImage_request, editImage_request,
    analyzeImage_request.
  destruct (checkRateLimit now (apiRateLimiter st)) as [[[]|e] l]; cbn [snd] in Hl;
    subst l; [|repeat split].
  destruct (sanitizePrompt prompt =? ""); [repeat split|].
  destruct (exchange _ _ _) as [[[e|r] calls] history];
    destruct (prepareImageForUpload image); repeat split.
Qed.

(** Hence a window that holds no timestamp admits every call of api.js
    and still holds none afterwards: with a limiter that keeps checking
    and recording apart, the operations of api.js are never refused. *)
Lemma unrecorded_calls_are_never_refused
      (sanitize : string -> string) (friendly : JSError -> string)
      (prepareImage : string -> JSError + string)
      (now : Z) (w : SpecRateLimiter.RateWindow) :
  (0 < SpecRateLimiter.maxCalls w)%Z ->
  SpecRateLimiter.timestamps w = [] ->
  fst (checkRateLimit (U := SpecRateLimiter.utils sanitize friendly prepareImage) now w)
  = inl tt
  /\ snd (checkRateLimit (U := SpecRateLimiter.utils sanitize friendly prepareImage) now w)
     = w.
Proof.
  intros Hcap Hts. rewrite checkRateLimit_purges. unfold checkRateLimit.
  cbn [canMakeRequest SpecRateLimiter.utils SpecRateLimiter.canMakeRequest].
  unfold SpecRateLimiter.canAdmit, SpecRateLimiter.purge, SpecRateLimiter.retained.
  rewrite Hts. cbn [filter List.length Z.of_nat].
  replace (0 <? SpecRateLimiter.maxCalls w)%Z with true
    by (symmetry; apply Z.ltb_lt; exact Hcap).
  split; [reflexivity|]. destruct w as [m d ts]. cbn in *. now subst ts.
Qed.

(** * Further properties *)

(** ** Trimming and sanitizing *)

Lemma trimEnd_idempotent s : trimEnd (trimEnd s) = trimEnd s.
Proof.
  induction s as [|c s IH]; [reflexivity|].
  cbn [trimEnd]. destruct (trimEnd s) as [|c' s'] eqn:Hs.
  - destruct (isWhiteSpace c) eqn:Hc; cbn [trimEnd]; [reflexivity | now rewrite Hc].
  - change (trimEnd (String c (String c' s')))
      with (match trimEnd (String c' s') with
            | EmptyString => if isWhiteSpace c then EmptyString else String c EmptyString
            | String a r => String c (String a r)
            end).
    now rewrite IH.
Qed.

Lemma trimEnd_head c s :
  isWhiteSpace c = false -> exists r, trimEnd (String c s) = String c r.
Proof.
  intros Hc. simpl. destruct (trimEnd s); rewrite ?Hc; eauto.
Qed.

Lemma trimStart_head s :
  trimStart s = EmptyString
  \/ exists c r, trimStart s = String c r /\ isWhiteSpace c = false.
Proof.
  induction s as [|c s IH]; simpl; [now left|].
  destruct (isWhiteSpace c) eqn:Hc; [exact IH | right; eauto].
Qed.

Lemma trim_idempotent s : trim (trim s) = trim s.
Proof.
  unfold trim. destruct (trimStart_head s) as [->|(c & r & -> & Hc)]; [reflexivity|].
  destruct (trimEnd_head c r Hc) as [r' Hr]. rewrite Hr.
  cbn [trimStart]. rewrite Hc, <- Hr. apply trimEnd_idempotent.
Qed.

Lemma length_slice_to n s : String.length (slice_to n s) <= n.
Proof.
  revert s; induction n as [|n IH]; intros [|c s]; simpl; try lia.
  specialize (IH s). lia.
Qed.

Lemma slice_to_all n s : String.length s <= n -> slice_to n s = s.
Proof.
  revert s; induction n as [|n IH]; intros [|c s] H; simpl in *; try reflexivity; try lia.
  rewrite IH; [reflexivity | lia].
Qed.

Lemma length_trimStart s : String.length (trimStart s) <= String.length s.
Proof.
  induction s as [|c s IH]; simpl; [lia|].
  destruct (isWhiteSpace c); simpl; lia.
Qed.

Lemma length_trimEnd s : String.length (trimEnd s) <= String.length s.
Proof.
  induction s as [|c s IH]; simpl; [lia|].
  destruct (trimEnd s); [destruct (isWhiteSpace c)|]; simpl in *; lia.
Qed.

Lemma length_trim s : String.length (trim s) <= String.length s.
Proof.
  unfold trim. pose proof (length_trimEnd (trimStart s)).
  pose proof (length_trimStart s). lia.
Qed.

Lemma allChars_slice_to p n s : allChars p s = true -> allChars p (slice_to n s) = true.
Proof.
  revert s; induction n as [|n IH]; intros [|c s]; simpl; try reflexivity.
  intros H. apply andb_true_iff in H as [Hc Hs]. now rewrite Hc, IH.
Qed.

Lemma allChars_trimStart p s : allChars p s = true -> allChars p (trimStart s) = true.
Proof.
  induction s as [|c s IH]; simpl; [reflexivity|].
  intros H. destruct (isWhiteSpace c); [|exact H].
  apply andb_true_iff in H as [_ Hs]. auto.
Qed.

Lemma allChars_trimEnd p s : allChars p s = true -> allChars p (trimEnd s) = true.
Proof.
  induction s as [|c s IH]; simpl; [reflexivity|].
  intros H. apply andb_true_iff in H as [Hc Hs]. specialize (IH Hs).
  destruct (trimEnd s); [destruct (isWhiteSpace c)|]; simpl in *;
    rewrite ?Hc; auto.
Qed.

Lemma allChars_trim p s : allChars p s = true -> allChars p (trim s) = true.
Proof. intros H. now apply allChars_trimEnd, allChars_trimStart. Qed.

Lemma stripControl_no_control s :
  allChars (fun c => negb (Vercel.isControl c)) (Vercel.stripControl s) = true.
Proof.
  induction s as [|c s IH]; simpl; [reflexivity|].
  destruct (Vercel.isControl c) eqn:Hc; simpl; [exact IH | now rewrite Hc].
Qed.

Lemma stripControl_fixed s :
  allChars (fun c => negb (Vercel.isControl c)) s = true -> Vercel.stripControl s = s.
Proof.
  induction s as [|c s IH]; simpl; [reflexivity|].
  intros H. apply andb_true_iff in H as [Hc Hs].
  destruct (Vercel.isControl c); [discriminate | now rewrite IH].
Qed.

(** What the sanitizer returns is clean, for every input. *)
Lemma sanitize_clean limit s : clean limit (Vercel.sanitize limit s).
Proof.
  unfold clean, Vercel.sanitize. repeat split.
  - apply allChars_trim, allChars_slice_to, stripControl_no_control.
  - apply trim_idempotent.
  - pose proof (length_trim (slice_to limit (Vercel.stripControl s))).
    pose proof (length_slice_to limit (Vercel.stripControl s)). lia.
Qed.

Lemma sanitize_of_clean limit s : clean limit s -> Vercel.sanitize limit s = s.
Proof.
  intros (Hc & Ht & Hl). unfold Vercel.sanitize.
  now rewrite (stripControl_fixed _ Hc), (slice_to_all _ _ Hl).
Qed.

(** X1. The sanitizer of the proxies is idempotent, and its result has no
    control character, no white space at either end and at most [limit]
    code units. *)
Theorem sanitize_idempotent (limit : nat) (s : string) :
  Vercel.sanitize limit (Vercel.sanitize limit s) = Vercel.sanitize limit s
  /\ clean limit (Vercel.sanitize limit s).
Proof.
  split; [apply sanitize_of_clean|]; apply sanitize_clean.
Qed.

(** ** api/chat.js *)

Section ChatProxyFacts.
Context {Num : JSNumber} {D : TextDecoder}.

Lemma sanitizeMessage_shape msg m :
  ChatApi.sanitizeMessage msg = Some m ->
  (Vercel.msg_role m = "user" \/ Vercel.msg_role m = "assistant")
  /\ exists text, Vercel.msg_content m = Vercel.Text text /\ clean 10000 text.
Proof.
  assert (Hempty : clean 10000 "") by (repeat split; simpl; lia).
  unfold ChatApi.sanitizeMessage. intros H.
  assert (Hm : m = {| Vercel.msg_role :=
                        match prop msg "role" with
                        | Some (JStr "user") => "user"
                        | _ => "assistant"
                        end;
                      Vercel.msg_content :=
                        Vercel.Text match Vercel.asString (prop msg "content") with
                                    | Some content => Vercel.sanitize 10000 content
                                    | None => ""
                                    end |})
    by (destruct msg; congruence).
  subst m. cbn [Vercel.msg_role Vercel.msg_content]. split.
  - destruct (prop msg "role") as [[| | |s| |]|]; auto.
    destruct (String.eqb_spec s "user") as [->|Hs]; [now left|].
    right. repeat (destruct s as [|[[|][|][|][|][|][|][|][|]] s]; try reflexivity);
      exfalso; apply Hs; reflexivity.
  - eexists. split; [reflexivity|].
    destruct (Vercel.asString _); [apply sanitize_clean | exact Hempty].
Qed.

Lemma mapMessages_shape msgs : forall mapped,
  ChatApi.mapMessages msgs = Some mapped ->
  List.length mapped = List.length msgs
  /\ Forall (fun m =>
               (Vercel.msg_role m = "user" \/ Vercel.msg_role m = "assistant")
               /\ exists text, Vercel.msg_content m = Vercel.Text text
                               /\ clean 10000 text) mapped.
Proof.
  induction msgs as [|msg rest IH]; simpl; intros mapped H.
  - injection H as <-. split; [reflexivity | constructor].
  - destruct (ChatApi.sanitizeMessage msg) as [m|] eqn:Hm; [|discriminate].
    destruct (ChatApi.mapMessages rest) as [ms|]; [|discriminate].
    injection H as <-. destruct (IH ms eq_refl) as [Hlen Hall]. split.
    + simpl. now rewrite Hlen.
    + constructor; [eapply sanitizeMessage_shape; eassumption | exact Hall].
Qed.

Lemma filter_hasContent_forwardable mapped :
  Forall (fun m =>
            (Vercel.msg_role m = "user" \/ Vercel.msg_role m = "assistant")
            /\ exists text, Vercel.msg_content m = Vercel.Text text
                            /\ clean 10000 text) mapped ->
  Forall forwardable (filter ChatApi.hasContent mapped).
Proof.
  induction 1 as [|m ms [Hrole (text & Hc & Hclean)] _ IH]; simpl; [constructor|].
  destruct (ChatApi.hasContent m) eqn:Hm; [|exact IH].
  constructor; [|exact IH]. split; [exact Hrole|].
  exists text. split; [exact Hc | split; [|exact Hclean]].
  unfold ChatApi.hasContent in Hm. rewrite Hc in Hm.
  intros ->. discriminate.
Qed.

(** A request is sent only from the [try] block, for a POST with a
    configured key and a body. *)
Lemma chat_handler_sent env req upstream r :
  ChatApi.sent (ChatApi.handler env req upstream) = Some r ->
  Vercel.method req = "POST"
  /\ exists apiKey body,
       Vercel.OPENROUTER_API_KEY env = Some apiKey /\ apiKey <> ""
       /\ Vercel.body req = Some body
       /\ ChatApi.handler env req upstream = ChatApi.tryBlock env apiKey body upstream.
Proof.
  unfold ChatApi.handler.
  destruct (String.eqb_spec (Vercel.method req) "POST") as [Hm|Hm]; simpl;
    [|discriminate].
  destruct (Vercel.OPENROUTER_API_KEY env) as [[|k0 k]|]; try discriminate.
  destruct (Vercel.body req) as [body|]; try discriminate.
  intros H. split; [exact Hm|]. exists (String k0 k), body.
  repeat split; try discriminate.
  destruct body; try reflexivity; discriminate.
Qed.

(** The request the [try] block sends, and the reply that follows it. *)
Lemma chat_tryBlock_sent env apiKey body upstream r :
  ChatApi.sent (ChatApi.tryBlock env apiKey body upstream) = Some r ->
  exists msgs model mapped,
    prop body "messages" = Some (JArr msgs)
    /\ prop body "model" = Some (JStr model) /\ model <> ""
    /\ ChatApi.mapMessages msgs = Some mapped
    /\ filter ChatApi.hasContent mapped <> []
    /\ r = {| ChatApi.url := Vercel.OPENROUTER_API_URL;
              ChatApi.request_headers :=
                Vercel.headers env apiKey "AI Photo Editor - Chat";
              ChatApi.request_body :=
                {| ChatApi.model := model;
                   ChatApi.messages :=
                     ChatApi.systemMessage :: filter ChatApi.hasContent mapped;
                   ChatApi.stream :=
                     match prop body "stream" with
                     | Some v => v
                     | None => JBool true
                     end;
                   ChatApi.max_tokens := 4096;
                   ChatApi.plugins :=
                     if truthy match prop body "webSearch" with
                               | Some v => v
                               | None => JBool false
                               end
                     then Some [ChatApi.webPlugin] else None |} |}
    /\ ChatApi.reply (ChatApi.tryBlock env apiKey body upstream)
       = match upstream with
         | Vercel.UpstreamRejected => ChatApi.failed
         | Vercel.UpstreamError status None => ChatApi.failed
         | Vercel.UpstreamError status (Some errorData) =>
             match Vercel.upstreamErrorMessage status errorData with
             | Some error => Vercel.ErrorReply status error
             | None => ChatApi.failed
             end
         | Vercel.UpstreamOk data values ending =>
             if truthy (ChatApi.stream (ChatApi.request_body r))
             then Vercel.StreamReply (ChatApi.pipe values newTextDecoder)
             else
               match data with
               | Some data => Vercel.DataReply 200 data
               | None => ChatApi.failed
               end
         end.
Proof.
  unfold ChatApi.tryBlock.
  destruct (prop body "messages") as [[| | | |[|m0 ms]|]|] eqn:Hmsgs; try discriminate.
  destruct (Vercel.asString (prop body "model")) as [[|c0 model]|] eqn:Hmodel;
    try discriminate.
  destruct (ChatApi.mapMessages (m0 :: ms)) as [mapped|] eqn:Hmap; try discriminate.
  destruct (filter ChatApi.hasContent mapped) as [|f0 fs] eqn:Hf; try discriminate.
  cbn [ChatApi.sent ChatApi.reply]. intros H. injection H as <-.
  exists (m0 :: ms), (String c0 model), mapped.
  assert (Hmodel' : prop body "model" = Some (JStr (String c0 model))).
  { unfold Vercel.asString in Hmodel.
    destruct (prop body "model") as [[]|]; congruence. }
  rewrite Hf. cbn [ChatApi.stream ChatApi.request_body].
  repeat split; try assumption; discriminate.
Qed.

(** X2. Whatever the chat proxy sends upstream starts with the system
    message, followed by at least one message; each of them is a user or an
    assistant turn whose content is a non-empty text without control
    characters, without white space at either end and of at most 10000
    code units. *)
Theorem chat_forwards_clean_messages
        (env : Vercel.Env) (req : Vercel.Req) (upstream : Vercel.Upstream)
        (r : ChatApi.UpstreamRequest) :
  ChatApi.sent (ChatApi.handler env req upstream) = Some r ->
  exists rest,
    ChatApi.messages (ChatApi.request_body r) = ChatApi.systemMessage :: rest
    /\ rest <> [] /\ Forall forwardable rest.
Proof.
  intros H. destruct (chat_handler_sent _ _ _ _ H) as (_ & apiKey & body & _ & _ & _ & Ht).
  rewrite Ht in H.
  destruct (chat_tryBlock_sent _ _ _ _ _ H)
    as (msgs & model & mapped & _ & _ & _ & Hmap & Hne & -> & _).
  exists (filter ChatApi.hasContent mapped). repeat split; [exact Hne|].
  apply filter_hasContent_forwardable. now apply (mapMessages_shape msgs).
Qed.

(** X3. The chat proxy contacts the upstream API only for a POST request
    and with a configured key, which it sends as the bearer token; the
    model of the upstream request is the non-empty string the body gives
    as [model], as it is. *)
Theorem chat_request_needs_method_key_and_model
        (env : Vercel.Env) (req : Vercel.Req) (upstream : Vercel.Upstream)
        (r : ChatApi.UpstreamRequest) :
  ChatApi.sent (ChatApi.handler env req upstream) = Some r ->
  Vercel.method req = "POST"
  /\ ChatApi.url r = Vercel.OPENROUTER_API_URL
  /\ (exists apiKey,
        Vercel.OPENROUTER_API_KEY env = Some apiKey /\ apiKey <> ""
        /\ Vercel.Authorization (ChatApi.request_headers r) = "Bearer " ++ apiKey)
  /\ (exists body,
        Vercel.body req = Some body
        /\ prop body "model" = Some (JStr (ChatApi.model (ChatApi.request_body r))))
  /\ ChatApi.model (ChatApi.request_body r) <> "".
Proof.
  intros H.
  destruct (chat_handler_sent _ _ _ _ H) as (Hm & apiKey & body & Hk & Hne & Hb & Ht).
  rewrite Ht in H.
  destruct (chat_tryBlock_sent _ _ _ _ _ H)
    as (msgs & model & mapped & _ & Hmodel & Hmne & _ & _ & -> & _).
  cbn. repeat split; eauto.
Qed.

Lemma pipe_length values : forall d,
  List.length (ChatApi.pipe values d) = List.length values.
Proof.
  induction values as [|v rest IH]; intros d; simpl; [reflexivity|].
  destruct (decode d v) as [chunk d']. simpl. now rewrite IH.
Qed.

Lemma pipe_concat {SD : StreamingDecoder D} values : forall d,
  String.concat "" (ChatApi.pipe values d) = fst (decode d (concat values)).
Proof.
  induction values as [|v rest IH]; intros d.
  - simpl. now rewrite decode_nil.
  - cbn [ChatApi.pipe concat]. rewrite decode_app.
    destruct (decode d v) as [chunk d']. specialize (IH d').
    destruct (decode d' (concat rest)) as [y d2]. cbn [fst] in *.
    rewrite <- IH. destruct (ChatApi.pipe rest d') as [|w ws]; simpl.
    + now rewrite append_empty_r.
    + reflexivity.
Qed.

End ChatProxyFacts.

(** The example request: a user turn to trim, a turn without text. *)
Lemma chat_forwards_clean_messages_witness :
  ChatApi.sent (ChatApi.handler (D := Reference.decoder) ProxyExamples.env
                  ProxyExamples.chatReq Vercel.UpstreamRejected)
  = Some ProxyExamples.chatRequest
  /\ exists rest,
       ChatApi.messages (ChatApi.request_body ProxyExamples.chatRequest)
       = ChatApi.systemMessage :: rest
       /\ rest <> [] /\ Forall forwardable rest.
Proof.
  split; [reflexivity|].
  apply (chat_forwards_clean_messages (D := Reference.decoder) ProxyExamples.env
           ProxyExamples.chatReq Vercel.UpstreamRejected).
  reflexivity.
Defined.

(** The example request carries the caller's model. *)
Lemma chat_request_witness :
  ChatApi.sent (ChatApi.handler (D := Reference.decoder) ProxyExamples.env
                  ProxyExamples.chatReq Vercel.UpstreamRejected)
  = Some ProxyExamples.chatRequest
  /\ Vercel.method ProxyExamples.chatReq = "POST"
  /\ ChatApi.model (ChatApi.request_body ProxyExamples.chatRequest) = "my/own-model".
Proof.
  split; [reflexivity|].
  pose proof (chat_request_needs_method_key_and_model (D := Reference.decoder)
                ProxyExamples.env ProxyExamples.chatReq Vercel.UpstreamRejected
                ProxyExamples.chatRequest eq_refl) as (Hm & _).
  exact (conj Hm eq_refl).
Defined.

(** X4. When the upstream response is ok and the streaming flag of the
    request is truthy, the proxy answers with an event stream that has one
    write per value read; the writes joined are the decoded text of all
    the bytes, and a read that fails in the middle ends the reply like the
    end of the stream. *)
Theorem chat_stream_is_piped
        {Num : JSNumber} {D : TextDecoder} {SD : StreamingDecoder D}
        (env : Vercel.Env) (req : Vercel.Req) (data : option JSValue)
        (values : list (list Byte.byte)) (ending : StreamEnd)
        (r : ChatApi.UpstreamRequest) :
  ChatApi.sent (ChatApi.handler env req (Vercel.UpstreamOk data values ending)) = Some r ->
  truthy (ChatApi.stream (ChatApi.request_body r)) = true ->
  exists writes,
    ChatApi.reply (ChatApi.handler env req (Vercel.UpstreamOk data values ending))
    = Vercel.StreamReply writes
    /\ List.length writes = List.length values
    /\ String.concat "" writes = fst (decode newTextDecoder (concat values)).
Proof.
  intros H Hs.
  destruct (chat_handler_sent _ _ _ _ H) as (_ & apiKey & body & _ & _ & _ & Ht).
  rewrite Ht in *.
  destruct (chat_tryBlock_sent _ _ _ _ _ H)
    as (msgs & model & mapped & _ & _ & _ & _ & _ & _ & Hr).
  rewrite Hr, Hs. eexists. split; [reflexivity|]. split.
  - apply pipe_length.
  - apply pipe_concat.
Qed.

(** Two values, the second read followed by a failure. *)
Lemma chat_stream_witness :
  (ChatApi.sent (ChatApi.handler (D := Reference.decoder) ProxyExamples.env
                   ProxyExamples.chatReq
                   (Vercel.UpstreamOk None
                      [Reference.bytes "data: a"; Reference.bytes "bc"]
                      (ReadError (mkError "aborted"))))
   = Some ProxyExamples.chatRequest
   /\ truthy (ChatApi.stream (ChatApi.request_body ProxyExamples.chatRequest)) = true)
  /\ exists writes,
       ChatApi.reply (ChatApi.handler (D := Reference.decoder) ProxyExamples.env
                        ProxyExamples.chatReq
                        (Vercel.UpstreamOk None
                           [Reference.bytes "data: a"; Reference.bytes "bc"]
                           (ReadError (mkError "aborted"))))
       = Vercel.StreamReply writes
       /\ List.length writes = 2
       /\ String.concat "" writes
          = fst (decode (TextDecoder := Reference.decoder) newTextDecoder
                   (concat [Reference.bytes "data: a"; Reference.bytes "bc"])).
Proof.
  split; [split; reflexivity|].
  exact (chat_stream_is_piped (SD := reference_decoder_streaming) ProxyExamples.env
           ProxyExamples.chatReq None
           [Reference.bytes "data: a"; Reference.bytes "bc"]
           (ReadError (mkError "aborted")) ProxyExamples.chatRequest eq_refl eq_refl).
Defined.

(** ** api/edit.js and api/enhance.js *)

Section EditProxyFacts.
Context {Num : JSNumber}.

Lemma edit_handler_sent env req upstream r :
  EditApi.sent (EditApi.handler env req upstream) = Some r ->
  Vercel.method req = "POST"
  /\ exists apiKey body,
       Vercel.OPENROUTER_API_KEY env = Some apiKey /\ apiKey <> ""
       /\ Vercel.body req = Some body
       /\ EditApi.handler env req upstream = EditApi.tryBlock env apiKey body upstream.
Proof.
  unfold EditApi.handler.
  destruct (String.eqb_spec (Vercel.method req) "POST") as [Hm|Hm]; simpl;
    [|discriminate].
  destruct (Vercel.OPENROUTER_API_KEY env) as [[|k0 k]|]; try discriminate.
  destruct (Vercel.body req) as [body|]; try discriminate.
  intros H. split; [exact Hm|]. exists (String k0 k), body.
  repeat split; try discriminate.
  destruct body; try reflexivity; discriminate.
Qed.

(** The handler reads [prompt] and [image] of the body and nothing else. *)
Lemma edit_handler_reads_prompt_and_image env req1 req2 upstream body1 body2 :
  Vercel.method req1 = Vercel.method req2 ->
  Vercel.body req1 = Some body1 -> Vercel.body req2 = Some body2 ->
  body1 <> JNull -> body2 <> JNull ->
  prop body1 "prompt" = prop body2 "prompt" ->
  prop body1 "image" = prop body2 "image" ->
  EditApi.handler env req1 upstream = EditApi.handler env req2 upstream.
Proof.
  intros Hm Hb1 Hb2 Hn1 Hn2 Hp Hi. unfold EditApi.handler.
  rewrite Hm, Hb1, Hb2.
  destruct (negb (Vercel.method req2 =? "POST")); [reflexivity|].
  destruct (Vercel.OPENROUTER_API_KEY env) as [[|k0 k]|]; try reflexivity.
  assert (Ht : EditApi.tryBlock env (String k0 k) body1 upstream
               = EditApi.tryBlock env (String k0 k) body2 upstream)
    by (unfold EditApi.tryBlock; now rewrite Hp, Hi).
  destruct body1, body2; try contradiction; exact Ht.
Qed.

End EditProxyFacts.

(** X5. The edit proxy reads the prompt and the image of the body and
    nothing else: two requests with the same method whose bodies agree on
    [prompt] and [image] get the same upstream request and the same reply,
    whatever else the bodies hold, and the model of every upstream request
    is [openai/gpt-5-image-mini]. *)
Theorem edit_proxy_ignores_the_model
        {Num : JSNumber} (env : Vercel.Env) (req1 req2 : Vercel.Req)
        (upstream : Vercel.Upstream) (body1 body2 : JSValue) :
  Vercel.method req1 = Vercel.method req2 ->
  Vercel.body req1 = Some body1 -> Vercel.body req2 = Some body2 ->
  body1 <> JNull -> body2 <> JNull ->
  prop body1 "prompt" = prop body2 "prompt" ->
  prop body1 "image" = prop body2 "image" ->
  EditApi.handler env req1 upstream = EditApi.handler env req2 upstream
  /\ forall r, EditApi.sent (EditApi.handler env req1 upstream) = Some r ->
               EditApi.model (EditApi.request_body r) = "openai/gpt-5-image-mini".
Proof.
  intros Hm Hb1 Hb2 Hn1 Hn2 Hp Hi. split.
  - eapply edit_handler_reads_prompt_and_image; eassumption.
  - intros r H.
    destruct (edit_handler_sent _ _ _ _ H) as (_ & apiKey & body & _ & _ & _ & Ht).
    rewrite Ht in H. unfold EditApi.tryBlock in H.
    destruct (Vercel.validPrompt _); [|discriminate].
    destruct (Vercel.imageDataUri _); [|discriminate].
    cbn in H. now injection H as <-.
Qed.

(** The example body names a FLUX model; a body without that field gets
    the same treatment. *)
Lemma edit_proxy_ignores_the_model_witness :
  (prop ProxyExamples.editBody "model" = Some (JStr "black-forest-labs/flux.2-pro")
   /\ prop (JObj [ ("prompt", JStr " make it brighter ");
                   ("image", JStr "data:image/png;base64,AAAA") ]
            : Reference.Value) "model" = None)
  /\ EditApi.handler ProxyExamples.env ProxyExamples.editReq Vercel.UpstreamRejected
     = EditApi.handler ProxyExamples.env
         {| Vercel.method := "POST";
            Vercel.body :=
              Some (JObj [ ("prompt", JStr " make it brighter ");
                           ("image", JStr "data:image/png;base64,AAAA") ]
                    : Reference.Value) |}
         Vercel.UpstreamRejected.
Proof.
  split; [split; reflexivity|].
  refine (proj1 (edit_proxy_ignores_the_model ProxyExamples.env ProxyExamples.editReq
                   {| Vercel.method := "POST";
                      Vercel.body :=
                        Some (JObj [ ("prompt", JStr " make it brighter ");
                                     ("image", JStr "data:image/png;base64,AAAA") ]
                              : Reference.Value) |}
                   Vercel.UpstreamRejected ProxyExamples.editBody _
                   eq_refl eq_refl eq_refl _ _ eq_refl eq_refl)); discriminate.
Defined.

Lemma trimStart_spaces n s : trimStart (spaces n ++ s) = trimStart s.
Proof. induction n as [|n IH]; simpl; [reflexivity | exact IH]. Qed.

Lemma trim_spaces n : trim (spaces n) = "".
Proof.
  unfold trim. rewrite <- (append_empty_r (spaces n)), trimStart_spaces. reflexivity.
Qed.

Lemma stripControl_spaces n s :
  Vercel.stripControl (spaces n ++ s) = spaces n ++ Vercel.stripControl s.
Proof. induction n as [|n IH]; simpl; [reflexivity | now rewrite IH]. Qed.

Lemma slice_to_spaces k : forall n s, k <= n -> slice_to k (spaces n ++ s) = spaces k.
Proof.
  induction k as [|k IH]; intros [|n] s H; simpl; try reflexivity; try lia.
  rewrite IH; [reflexivity | lia].
Qed.

(** A prompt that starts with [limit] spaces or more passes the check of
    the prompt when text follows, and sanitizes to the empty string. *)
Lemma padded_prompt {Num : JSNumber} limit n text :
  limit <= n -> trim text <> "" ->
  Vercel.validPrompt (Some (JStr (spaces n ++ text)))
  = Some (spaces n ++ text)
  /\ Vercel.sanitize limit (spaces n ++ text) = "".
Proof.
  intros Hn Ht. split.
  - unfold Vercel.validPrompt. cbn [Vercel.asString].
    unfold trim. rewrite trimStart_spaces. fold (trim text).
    apply String.eqb_neq in Ht. now rewrite Ht.
  - unfold Vercel.sanitize.
    rewrite stripControl_spaces, slice_to_spaces by exact Hn. apply trim_spaces.
Qed.

Lemma orElse_truthy {Num : JSNumber} (v : option JSValue) (d : JSValue) :
  truthy d = true -> truthy (orElse v d) = true.
Proof.
  intros Hd. unfold orElse. destruct v as [x|]; [|exact Hd].
  destruct (truthy x) eqn:Hx; assumption.
Qed.

Lemma upstreamErrorMessage_truthy {Num : JSNumber} status errorData error :
  Vercel.upstreamErrorMessage status errorData = Some error -> truthy error = true.
Proof.
  unfold Vercel.upstreamErrorMessage. intros H.
  assert (He : error = orElse (optProp (prop errorData "error") "message")
                              (JStr ("API request failed with status " ++ ofZ status)))
    by (destruct errorData; congruence).
  subst error. now apply orElse_truthy.
Qed.

Ltac break_matches :=
  repeat match goal with
         | |- context [match ?x with _ => _ end] => destruct x eqn:?
         end.

(** X6. Every error reply of the three proxies carries a truthy [error]:
    a fixed non-empty text, or what the upstream API gave as
    [error.message] when that is truthy, or the text with the status. *)
Theorem error_replies_carry_an_error
        {Num : JSNumber} {D : TextDecoder}
        (env : Vercel.Env) (req : Vercel.Req) (upstream : Vercel.Upstream)
        (status : Z) (error : JSValue) :
  ChatApi.reply (ChatApi.handler env req upstream) = Vercel.ErrorReply status error
  \/ EditApi.reply (EditApi.handler env req upstream) = Vercel.ErrorReply status error
  \/ EnhanceApi.reply (EnhanceApi.handler env req upstream)
     = Vercel.ErrorReply status error ->
  truthy error = true.
Proof.
  intros [H|[H|H]]; revert H.
  - unfold ChatApi.handler, ChatApi.tryBlock, ChatApi.failed. break_matches;
      cbn [ChatApi.reply]; intros H; try discriminate;
      injection H as <- <-; try reflexivity;
      eapply upstreamErrorMessage_truthy; eassumption.
  - unfold EditApi.handler, EditApi.tryBlock, EditApi.failed. break_matches;
      cbn [EditApi.reply]; intros H; try discriminate;
      injection H as <- <-; try reflexivity;
      eapply upstreamErrorMessage_truthy; eassumption.
  - unfold EnhanceApi.handler, EnhanceApi.tryBlock, EnhanceApi.failed. break_matches;
      cbn [EnhanceApi.reply]; intros H; try discriminate;
      injection H as <- <-; try reflexivity;
      eapply upstreamErrorMessage_truthy; eassumption.
Qed.

(** An upstream error without a message: the reply carries the status
    and the text built from it. *)
Lemma error_replies_witness :
  (ChatApi.reply (ChatApi.handler (D := Reference.decoder) ProxyExamples.env
                    ProxyExamples.chatReq
                    (Vercel.UpstreamError 429 (Some (JObj [("error", JNull)]))))
   = Vercel.ErrorReply 429 (JStr "API request failed with status 429")
   \/ EditApi.reply (EditApi.handler ProxyExamples.env ProxyExamples.chatReq
                       (Vercel.UpstreamError 429 (Some (JObj [("error", JNull)]))))
      = Vercel.ErrorReply 429 (JStr "API request failed with status 429")
   \/ EnhanceApi.reply (EnhanceApi.handler ProxyExamples.env ProxyExamples.chatReq
                          (Vercel.UpstreamError 429 (Some (JObj [("error", JNull)]))))
      = Vercel.ErrorReply 429 (JStr "API request failed with status 429"))
  /\ truthy (JStr "API request failed with status 429" : Reference.Value) = true.
Proof.
  split; [left; reflexivity|].
  exact (error_replies_carry_an_error (D := Reference.decoder) ProxyExamples.env
           ProxyExamples.chatReq
           (Vercel.UpstreamError 429 (Some (JObj [("error", JNull)])))
           429 (JStr "API request failed with status 429") (or_introl eq_refl)).
Defined.

(** X7. A prompt padded in front with 2000 spaces or more passes the
    prompt check of the edit and the enhance proxy when text follows the
    padding, and is then sanitized to the empty string: the edit proxy
    sends an empty text part beside the image, the enhance proxy sends its
    instruction with no prompt behind it. *)
Theorem padded_prompt_is_forwarded_empty
        {Num : JSNumber} (env : Vercel.Env) (req : Vercel.Req)
        (upstream : Vercel.Upstream) (apiKey : string) (body : JSValue)
        (n : nat) (text image : string) :
  Vercel.method req = "POST" ->
  Vercel.OPENROUTER_API_KEY env = Some apiKey -> apiKey <> "" ->
  Vercel.body req = Some body ->
  prop body "prompt" = Some (JStr (spaces n ++ text)) ->
  2000 <= n -> trim text <> "" ->
  prop body "image" = Some (JStr image) ->
  startsWith "data:image/" image = true ->
  (exists r, EditApi.sent (EditApi.handler env req upstream) = Some r
             /\ EditApi.messages (EditApi.request_body r)
                = [ {| Vercel.msg_role := "user";
                       Vercel.msg_content :=
                         Vercel.Parts [Vercel.TextPart ""; Vercel.ImagePart image] |} ])
  /\ (exists r, EnhanceApi.sent (EnhanceApi.handler env req upstream) = Some r
                /\ EnhanceApi.messages (EnhanceApi.request_body r)
                   = [ {| Vercel.msg_role := "system";
                          Vercel.msg_content := Vercel.Text EnhanceApi.systemPrompt |};
                       {| Vercel.msg_role := "user";
                          Vercel.msg_content :=
                            Vercel.Parts
                              [ Vercel.TextPart "Enhance this image editing prompt to be more effective for the provided image: ";
                                Vercel.ImagePart image ] |} ]).
Proof.
  intros Hm Hk Hne Hb Hp Hn Ht Hi Hs.
  destruct (padded_prompt 2000 n text Hn Ht) as [Hv Hz].
  assert (Hbody : body <> JNull) by (intros ->; discriminate).
  unfold EditApi.handler, EnhanceApi.handler, EditApi.tryBlock, EnhanceApi.tryBlock,
    EnhanceApi.userContent.
  rewrite Hm, Hk, Hb, Hp, Hv, Hz, Hi. cbn [Vercel.imageDataUri Vercel.asString].
  rewrite Hs. cbn [String.eqb Ascii.eqb Bool.eqb negb].
  destruct apiKey as [|k0 k]; [contradiction|].
  split; (destruct body; try contradiction; eexists; split; reflexivity).
Qed.

(** The word [brighter] behind 2000 spaces. *)
Lemma padded_prompt_witness :
  (Vercel.method PaddedExample.req = "POST"
   /\ prop PaddedExample.body "prompt" = Some (JStr (spaces 2000 ++ "brighter"))
   /\ trim "brighter" <> "")
  /\ exists r,
       EditApi.sent (EditApi.handler ProxyExamples.env PaddedExample.req
                       Vercel.UpstreamRejected) = Some r
       /\ EditApi.messages (EditApi.request_body r)
          = [ {| Vercel.msg_role := "user";
                 Vercel.msg_content :=
                   Vercel.Parts [ Vercel.TextPart "";
                                  Vercel.ImagePart "data:image/png;base64,AAAA" ] |} ].
Proof.
  split; [split; [reflexivity | split; [reflexivity | discriminate]]|].
  refine (proj1 (padded_prompt_is_forwarded_empty ProxyExamples.env PaddedExample.req
                   Vercel.UpstreamRejected "sk-test" PaddedExample.body 2000 "brighter"
                   "data:image/png;base64,AAAA" eq_refl eq_refl _ eq_refl eq_refl
                   (le_n _) _ eq_refl eq_refl)); discriminate.
Defined.

(** X8. A body with a valid prompt whose image is not a string that starts
    with [data:image/] is refused by the edit proxy with status 400 and
    nothing sent, while the enhance proxy sends its request without the
    image, with the text-only instruction. *)
Theorem invalid_image_rejected_by_edit_dropped_by_enhance
        {Num : JSNumber} (env : Vercel.Env) (req : Vercel.Req)
        (upstream : Vercel.Upstream) (apiKey : string) (body : JSValue)
        (prompt : string) :
  Vercel.method req = "POST" ->
  Vercel.OPENROUTER_API_KEY env = Some apiKey -> apiKey <> "" ->
  Vercel.body req = Some body ->
  Vercel.validPrompt (prop body "prompt") = Some prompt ->
  Vercel.imageDataUri (prop body "image") = None ->
  EditApi.handler env req upstream
  = {| EditApi.sent := None;
       EditApi.reply := Vercel.ErrorReply 400 (JStr "Invalid image provided") |}
  /\ exists r, EnhanceApi.sent (EnhanceApi.handler env req upstream) = Some r
               /\ EnhanceApi.messages (EnhanceApi.request_body r)
                  = [ {| Vercel.msg_role := "system";
                         Vercel.msg_content := Vercel.Text EnhanceApi.systemPrompt |};
                      {| Vercel.msg_role := "user";
                         Vercel.msg_content :=
                           Vercel.Text ("Enhance this image editing prompt to be more effective: "
                                        ++ Vercel.sanitize 2000 prompt) |} ].
Proof.
  intros Hm Hk Hne Hb Hp Hi.
  assert (Hbody : body <> JNull) by (intros ->; discriminate).
  unfold EditApi.handler, EnhanceApi.handler, EditApi.tryBlock, EnhanceApi.tryBlock,
    EnhanceApi.userContent.
  rewrite Hm, Hk, Hb, Hp, Hi. cbn [String.eqb Ascii.eqb Bool.eqb negb].
  destruct apiKey as [|k0 k]; [contradiction|].
  split; (destruct body; try contradiction; try eexists; try split; reflexivity).
Qed.

(** The example body whose image is a plain URL. *)
Lemma invalid_image_witness :
  (Vercel.validPrompt (prop ProxyExamples.urlBody "prompt") = Some "make it brighter"
   /\ Vercel.imageDataUri (prop ProxyExamples.urlBody "image") = None)
  /\ EditApi.handler ProxyExamples.env ProxyExamples.urlReq Vercel.UpstreamRejected
     = {| EditApi.sent := None;
          EditApi.reply := Vercel.ErrorReply 400 (JStr "Invalid image provided") |}.
Proof.
  split; [split; reflexivity|].
  refine (proj1 (invalid_image_rejected_by_edit_dropped_by_enhance ProxyExamples.env
                   ProxyExamples.urlReq Vercel.UpstreamRejected "sk-test"
                   ProxyExamples.urlBody "make it brighter"
                   eq_refl eq_refl _ eq_refl eq_refl eq_refl)); discriminate.
Defined.

(** ** More on the stream decoder *)

Section AccumulationFacts.
Context {Num : JSNumber} {E : Engine}.

Lemma accumulated_app fc calls1 calls2 :
  accumulated fc (calls1 ++ calls2)
  = match accumulated fc calls1 with
    | Some fc' => accumulated fc' calls2
    | None => None
    end.
Proof.
  revert fc; induction calls1 as [|[c f] rest IH]; intros fc; simpl; [reflexivity|].
  destruct (toString c); [|reflexivity].
  destruct (f =? fc ++ s); [apply IH | reflexivity].
Qed.

Lemma tryData_completed onChunk data fc fc' calls :
  tryData onChunk data fc = Completed fc' calls ->
  (fc' = fc /\ calls = [])
  \/ exists c s, toString c = Some s /\ fc' = fc ++ s
                 /\ calls = if onChunk then [(c, fc')] else [].
Proof.
  unfold tryData. destruct (JSON_parse data) as [parsed|]; [|discriminate].
  destruct parsed; try discriminate;
    (destruct (truthy_opt _); [destruct (toString _); discriminate|]);
    (destruct (optProp _ "content") as [chunk|];
       [|intros H; injection H as <- <-; now left]);
    (destruct (truthy chunk); [|intros H; injection H as <- <-; now left]);
    (destruct (toString chunk) as [str|] eqn:Hs; [|discriminate]);
    intros H; injection H as <- <-; right; eauto.
Qed.

Lemma processLine_accumulates onChunk line fc fc' calls :
  processLine onChunk line fc = Next fc' calls ->
  (onChunk = true -> accumulated fc calls = Some fc')
  /\ (onChunk = false -> calls = []).
Proof.
  assert (Hskip : Next fc [] = Next fc' calls ->
                  (onChunk = true -> accumulated fc calls = Some fc')
                  /\ (onChunk = false -> calls = [])).
  { intros H. injection H as <- <-. split; reflexivity. }
  unfold processLine.
  destruct ((line =? "") || startsWith ":" line); [exact Hskip|].
  destruct (startsWith "data: " line); [|exact Hskip].
  destruct (slice_from 6 line =? "[DONE]"); [exact Hskip|].
  destruct (tryData onChunk (slice_from 6 line) fc) as [fc1 calls1|[|msg]] eqn:Ht;
    [| exact Hskip | destruct (msg =? "Stream error"); [discriminate | exact Hskip]].
  intros H. injection H as <- <-.
  destruct (tryData_completed _ _ _ _ _ Ht) as [[-> ->]|(c & s & Hs & -> & ->)].
  - split; reflexivity.
  - split; intros ->; [|reflexivity].
    simpl. now rewrite Hs, String.eqb_refl.
Qed.

Lemma processBuffer_accumulates onChunk fuel : forall buffer fc calls exit,
  processBuffer onChunk fuel buffer fc = (calls, exit) ->
  (onChunk = false -> calls = [])
  /\ (onChunk = true ->
      exists fc', accumulated fc calls = Some fc'
                  /\ forall rest fc'', exit = Break rest fc'' -> fc'' = fc').
Proof.
  induction fuel as [|fuel IH]; intros buffer fc calls exit; cbn [processBuffer].
  - intros H. injection H as <- <-. split; [reflexivity|].
    intros _. exists fc. split; [reflexivity|]. intros rest fc'' H. now injection H.
  - destruct (indexOf LF buffer) as [i|].
    + destruct (processLine onChunk _ fc) as [fc1 calls1|e] eqn:Hl.
      * destruct (processBuffer onChunk fuel _ fc1) as [calls2 exit2] eqn:Hp.
        intros H. injection H as <- <-.
        destruct (processLine_accumulates _ _ _ _ _ Hl) as [Ht Hf].
        destruct (IH _ _ _ _ Hp) as [Hf2 Ht2]. split.
        -- intros Ho. now rewrite (Hf Ho), (Hf2 Ho).
        -- intros Ho. destruct (Ht2 Ho) as (fc' & Hacc & Hexit).
           exists fc'. split; [|exact Hexit].
           now rewrite accumulated_app, (Ht Ho).
      * intros H. injection H as <- <-. split; [reflexivity|].
        intros _. exists fc. split; [reflexivity | discriminate].
    + intros H. injection H as <- <-. split; [reflexivity|].
      intros _. exists fc. split; [reflexivity|]. intros rest fc'' H. now injection H.
Qed.

Context {D : TextDecoder}.

Lemma readLoop_accumulates onChunk ending values : forall d buffer fc calls r,
  readLoop onChunk values ending d buffer fc = (calls, r) ->
  (onChunk = false -> calls = [])
  /\ (onChunk = true ->
      exists fc', accumulated fc calls = Some fc'
                  /\ forall full, r = inr full -> full = fc').
Proof.
  induction values as [|value rest IH]; intros d buffer fc calls r; cbn [readLoop].
  - intros H. assert (calls = []) as -> by (destruct ending; now injection H).
    split; [reflexivity|]. intros _. exists fc. split; [reflexivity|].
    intros full ->. destruct ending; [now injection H | discriminate].
  - destruct (decode d value) as [text d'].
    destruct (drainBuffer onChunk (buffer ++ text) fc) as [calls1 [buffer' fc1|e]] eqn:Hd.
    + destruct (readLoop onChunk rest ending d' buffer' fc1) as [calls2 r2] eqn:Hr.
      intros H. injection H as <- <-.
      destruct (processBuffer_accumulates _ _ _ _ _ _ Hd) as [Hf Ht].
      destruct (IH _ _ _ _ _ Hr) as [Hf2 Ht2]. split.
      * intros Ho. now rewrite (Hf Ho), (Hf2 Ho).
      * intros Ho. destruct (Ht Ho) as (fc' & Hacc & Hexit).
        destruct (Ht2 Ho) as (fc2 & Hacc2 & Hfull).
        exists fc2. split; [|exact Hfull].
        rewrite accumulated_app, Hacc. now rewrite <- (Hexit _ _ eq_refl).
    + intros H. injection H as <- <-.
      destruct (processBuffer_accumulates _ _ _ _ _ _ Hd) as [Hf Ht]. split; [exact Hf|].
      intros Ho. destruct (Ht Ho) as (fc' & Hacc & _).
      exists fc'. split; [exact Hacc | discriminate].
Qed.

End AccumulationFacts.

(** X9. When the stream is read to its end, the second argument of every
    call of onChunk is the response accumulated so far, each call extends
    it by the string of its content, and the response returned is the one
    passed to the last call (the empty string when there was no call). *)
Theorem chunks_accumulate_to_the_response
        {Num : JSNumber} {E : Engine} {D : TextDecoder}
        (values : list (list Byte.byte)) (ending : StreamEnd)
        (calls : list Emission) (fullContent : string) :
  decodeStream true values ending = (calls, inr fullContent) ->
  accumulated "" calls = Some fullContent.
Proof.
  intros H. destruct (readLoop_accumulates _ _ _ _ _ _ _ _ H) as [_ Ht].
  destruct (Ht eq_refl) as (fc' & Hacc & Hfull).
  now rewrite (Hfull _ eq_refl).
Qed.

(** Two frames in one chunk. *)
Lemma chunks_accumulate_witness :
  decodeStream (E := Reference.engine) (D := Reference.decoder) true
    [Reference.bytes ("data: {'choices':[{'delta':{'content':'Hel'}}]}" ++ Reference.NL
                      ++ "data: {'choices':[{'delta':{'content':'lo'}}]}" ++ Reference.NL)]
    StreamDone
  = ([(JStr "Hel", "Hel"); (JStr "lo", "Hello")], inr "Hello")
  /\ accumulated "" [(JStr "Hel" : Reference.Value, "Hel"); (JStr "lo", "Hello")]
     = Some "Hello".
Proof.
  split; [reflexivity|].
  exact (chunks_accumulate_to_the_response (E := Reference.engine) (D := Reference.decoder)
           [Reference.bytes ("data: {'choices':[{'delta':{'content':'Hel'}}]}"
                             ++ Reference.NL
                             ++ "data: {'choices':[{'delta':{'content':'lo'}}]}"
                             ++ Reference.NL)]
           StreamDone [(JStr "Hel", "Hel"); (JStr "lo", "Hello")] "Hello" eq_refl).
Defined.

Section OnChunkFacts.
Context {Num : JSNumber} {E : Engine}.

Lemma tryData_without_onChunk data fc :
  tryData false data fc
  = match tryData true data fc with
    | Completed fc' _ => Completed fc' []
    | Raised e => Raised e
    end.
Proof.
  unfold tryData. destruct (JSON_parse data) as [parsed|]; [|reflexivity].
  destruct parsed; try reflexivity;
    (destruct (truthy_opt _); [now destruct (toString _)|]);
    (destruct (optProp _ "content") as [chunk|]; [|reflexivity]);
    (destruct (truthy chunk); [|reflexivity]);
    now destruct (toString chunk).
Qed.

Lemma processLine_without_onChunk line fc :
  processLine false line fc
  = match processLine true line fc with
    | Next fc' _ => Next fc' []
    | Rethrow e => Rethrow e
    end.
Proof.
  unfold processLine.
  destruct ((line =? "") || startsWith ":" line); [reflexivity|].
  destruct (startsWith "data: " line); [|reflexivity].
  destruct (slice_from 6 line =? "[DONE]"); [reflexivity|].
  rewrite tryData_without_onChunk.
  destruct (tryData true (slice_from 6 line) fc) as [fc1 calls1|[|msg]];
    try reflexivity.
  now destruct (msg =? "Stream error").
Qed.

Lemma processBuffer_without_onChunk fuel : forall buffer fc,
  processBuffer false fuel buffer fc
  = ([], snd (processBuffer true fuel buffer fc)).
Proof.
  induction fuel as [|fuel IH]; intros buffer fc; cbn [processBuffer]; [reflexivity|].
  destruct (indexOf LF buffer) as [i|]; [|reflexivity].
  rewrite processLine_without_onChunk.
  destruct (processLine true _ fc) as [fc1 calls1|e]; [|reflexivity].
  rewrite IH. now destruct (processBuffer true fuel _ fc1).
Qed.

Context {D : TextDecoder}.

Lemma readLoop_without_onChunk ending values : forall d buffer fc,
  readLoop false values ending d buffer fc
  = ([], snd (readLoop true values ending d buffer fc)).
Proof.
  induction values as [|value rest IH]; intros d buffer fc; cbn [readLoop].
  - now destruct ending.
  - destruct (decode d value) as [text d']. unfold drainBuffer.
    rewrite processBuffer_without_onChunk.
    destruct (processBuffer true _ (buffer ++ text) fc) as [calls1 [buffer' fc1|e]];
      cbn [snd]; [|reflexivity].
    rewrite IH. now destruct (readLoop true rest ending d' buffer' fc1).
Qed.

End OnChunkFacts.

(** X10. Whether a callback is passed or not changes nothing but the
    calls: without onChunk the decoder calls nothing, and sendChatMessage
    settles with the same result, sends the same request and leaves the
    same state as with one. *)
Theorem onChunk_only_observes
        {Num : JSNumber} {E : Engine} {D : TextDecoder} {U : Utils}
        (now : Z) (message : string) (model : option string)
        (net : FetchResult) (st : State)
        (values : list (list Byte.byte)) (ending : StreamEnd) :
  decodeStream false values ending = ([], snd (decodeStream true values ending))
  /\ result (sendChatMessage now message false model net st)
     = result (sendChatMessage now message true model net st)
  /\ final (sendChatMessage now message false model net st)
     = final (sendChatMessage now message true model net st)
  /\ hd_error (events (sendChatMessage now message false model net st))
     = hd_error (events (sendChatMessage now message true model net st)).
Proof.
  split; [apply readLoop_without_onChunk|].
  unfold sendChatMessage.
  destruct (checkRateLimit now (apiRateLimiter st)) as [[[]|e] l]; [|repeat split].
  destruct (sanitizePrompt message =? ""); [repeat split|].
  unfold exchange. destruct net as [e|status [e|errorData]|vs en];
    [repeat split; reflexivity .. |].
  unfold decodeStream. rewrite readLoop_without_onChunk.
  destruct (readLoop true vs en newTextDecoder "" "") as [calls [e|fc]]; cbn [snd].
  - repeat split.
  - destruct (fc =? ""); repeat split.
Qed.

(** ** Line endings and the tail of the stream *)

Lemma trimEnd_white_end c s :
  isWhiteSpace c = true -> trimEnd (s ++ String c "") = trimEnd s.
Proof.
  intros Hc. induction s as [|a s IH]; simpl; [now rewrite Hc | now rewrite IH].
Qed.

Lemma trim_white_end c s :
  isWhiteSpace c = true -> trim (s ++ String c "") = trim s.
Proof.
  intros Hc. unfold trim. induction s as [|a s IH]; simpl; [now rewrite Hc|].
  destruct (isWhiteSpace a); [exact IH|].
  apply (trimEnd_white_end c (String a s) Hc).
Qed.

Section LineEndFacts.
Context {Num : JSNumber} {E : Engine}.
Variable onChunk : bool.

(** After a text that ends in a newline the buffer is empty. *)
Lemma drainBuffer_complete n : forall a fc calls rest fc',
  String.length a < n ->
  drainBuffer onChunk (a ++ String LF "") fc = (calls, Break rest fc') ->
  rest = "".
Proof.
  induction n as [|n IH]; intros a fc calls rest fc' Hn; [lia|].
  rewrite drainBuffer_unfold.
  destruct (indexOf LF a) as [i|] eqn:Hi.
  - pose proof (indexOf_lt _ _ _ Hi) as Hlt.
    rewrite (indexOf_app_found _ _ _ _ Hi), slice_from_app by lia.
    destruct (processLine _ _ _) as [fc1 calls1|e]; [|discriminate].
    destruct (drainBuffer onChunk (slice_from (S i) a ++ String LF "") fc1)
      as [calls2 exit] eqn:Hd.
    intros H. injection H as _ ->.
    pose proof (length_slice_from (S i) a) as Hlen.
    eapply IH; [|exact Hd]. lia.
  - rewrite (indexOf_app_missing _ _ _ Hi). cbn [indexOf option_map].
    rewrite Ascii.eqb_refl. cbn [option_map].
    replace (S (String.length a + 0)) with (String.length a + 1) by lia.
    rewrite slice_from_past. cbn [slice_from].
    destruct (processLine _ _ _) as [fc1 calls1|e]; [|discriminate].
    rewrite (drainBuffer_unfold onChunk ""). cbn [indexOf].
    intros H. now injection H as _ <- _.
Qed.

End LineEndFacts.

(** X11. A line that ends in CR LF is processed like the line that ends
    in LF. *)
Theorem crlf_ends_a_line_like_lf
        {Num : JSNumber} {E : Engine} (onChunk : bool) (line rest fullContent : string) :
  indexOf LF line = None ->
  drainBuffer onChunk (line ++ String CR (String LF rest)) fullContent
  = drainBuffer onChunk (line ++ String LF rest) fullContent.
Proof.
  intros Hl.
  rewrite (drainBuffer_unfold onChunk (line ++ String CR (String LF rest))).
  rewrite (drainBuffer_unfold onChunk (line ++ String LF rest)).
  rewrite !(indexOf_app_missing _ _ _ Hl). cbn [indexOf option_map].
  change (Ascii.eqb CR LF) with false. rewrite Ascii.eqb_refl. cbn [option_map].
  replace (S (String.length line + 1)) with (String.length line + 2) by lia.
  replace (S (String.length line + 0)) with (String.length line + 1) by lia.
  rewrite !slice_to_past, !slice_from_past. cbn [slice_to slice_from].
  rewrite (trim_white_end CR line eq_refl), append_empty_r. reflexivity.
Qed.

(** A content frame that ends in CR LF. *)
Lemma crlf_witness :
  indexOf LF (Reference.quoted "data: {'choices':[{'delta':{'content':'Hi'}}]}") = None
  /\ drainBuffer (E := Reference.engine) true
       (Reference.quoted "data: {'choices':[{'delta':{'content':'Hi'}}]}"
        ++ String CR (String LF "")) ""
     = drainBuffer (E := Reference.engine) true
         (Reference.quoted "data: {'choices':[{'delta':{'content':'Hi'}}]}"
          ++ String LF "") "".
Proof.
  split; [reflexivity|].
  exact (crlf_ends_a_line_like_lf (E := Reference.engine) true
           (Reference.quoted "data: {'choices':[{'delta':{'content':'Hi'}}]}") "" ""
           eq_refl).
Defined.

(** X12. What follows the last newline of the stream is never processed:
    a stream whose text is complete lines followed by a tail without
    newline is decoded like the complete lines alone, even when the tail is
    a whole data frame. *)
Theorem unterminated_tail_is_dropped
        {Num : JSNumber} {E : Engine} {D : TextDecoder} {SD : StreamingDecoder D}
        (onChunk : bool) (values : list (list Byte.byte)) (ending : StreamEnd)
        (lines tail : string) :
  fst (decode newTextDecoder (concat values)) = lines ++ tail ->
  lines = "" \/ (exists a, lines = a ++ String LF "") ->
  indexOf LF tail = None ->
  decodeStream onChunk values ending = decodeWhole onChunk lines "" ending.
Proof.
  intros Htext Hlines Htail. rewrite decodeStream_whole, Htext.
  unfold decodeWhole.
  rewrite (drainBuffer_app onChunk (S (String.length lines))) by lia.
  destruct (drainBuffer onChunk lines "") as [calls [rest fc|e]] eqn:Hd; [|reflexivity].
  assert (rest = "") as ->.
  { destruct Hlines as [->|[a ->]].
    - rewrite drainBuffer_unfold in Hd. cbn in Hd. now injection Hd as _ <- _.
    - eapply drainBuffer_complete; [|exact Hd]. apply Nat.lt_succ_diag_r. }
  cbn [append]. rewrite drainBuffer_unfold, Htail. now rewrite app_nil_r.
Qed.

(** A complete frame without its newline: nothing is emitted. *)
Lemma unterminated_tail_witness :
  (fst (decode (TextDecoder := Reference.decoder) newTextDecoder
          (concat [Reference.bytes "data: {'choices':[{'delta':{'content':'Hi'}}]}"]))
   = "" ++ Reference.quoted "data: {'choices':[{'delta':{'content':'Hi'}}]}"
   /\ indexOf LF (Reference.quoted "data: {'choices':[{'delta':{'content':'Hi'}}]}") = None)
  /\ decodeStream (E := Reference.engine) (D := Reference.decoder) true
       [Reference.bytes "data: {'choices':[{'delta':{'content':'Hi'}}]}"] StreamDone
     = decodeWhole (E := Reference.engine) true "" "" StreamDone.
Proof.
  split; [split; reflexivity|].
  exact (unterminated_tail_is_dropped (E := Reference.engine)
           (SD := reference_decoder_streaming) true
           [Reference.bytes "data: {'choices':[{'delta':{'content':'Hi'}}]}"] StreamDone
           "" (Reference.quoted "data: {'choices':[{'delta':{'content':'Hi'}}]}")
           eq_refl (or_introl eq_refl) eq_refl).
Defined.

(** ** The history and the settings across the operations of api.js *)

Lemma rollbackLastUser_cases (history : list Turn) :
  rollbackLastUser history = history \/ rollbackLastUser history = removelast history.
Proof. unfold rollbackLastUser. destruct (_ && _); [now right | now left]. Qed.

(** X13. What a call of sendChatMessage can do to the conversation: a
    rejected call leaves it as it was or without its last turn; a resolved
    call has appended the user turn, followed by the assistant turn that
    holds the value returned unless the response was empty. *)
Theorem history_after_an_exchange
        {Num : JSNumber} {E : Engine} {D : TextDecoder} {U : Utils}
        (now : Z) (message : string) (onChunk : bool) (model : option string)
        (net : FetchResult) (st : State) :
  let run := sendChatMessage now message onChunk model net st in
  let asked := {| role := user; content := sanitizePrompt message |} in
  match result run with
  | Rejected _ =>
      chatHistory (final run) = chatHistory st
      \/ chatHistory (final run) = removelast (chatHistory st)
  | Resolved response =>
      (response = "No response received"
       /\ chatHistory (final run) = (chatHistory st ++ [asked])%list)
      \/ chatHistory (final run)
         = (chatHistory st ++ [asked; {| role := assistant; content := response |}])%list
  end.
Proof.
  cbv zeta. unfold sendChatMessage.
  destruct (checkRateLimit now (apiRateLimiter st)) as [[[]|e] l]; [|now left].
  destruct (sanitizePrompt message =? ""); [now left|].
  unfold exchange. destruct net as [e|status [e|errorData]|values ending];
    cbn [result final chatHistory withHistory withLimiter].
  - left. apply rollback_after_push.
  - left. apply rollback_after_push.
  - rewrite removelast_snoc. apply rollbackLastUser_cases.
  - destruct (decodeStream onChunk values ending) as [calls [e|fullContent]].
    + left. apply rollback_after_push.
    + destruct (fullContent =? "");
        cbn [result final chatHistory withHistory withLimiter].
      * left. split; reflexivity.
      * right. now rewrite <- app_assoc.
Qed.

(** X14. A conversation: after an exchange that returned a content, the
    request of the next admitted call carries the turns that were there,
    the two turns of that exchange and the new user turn, in this order. *)
Theorem next_request_carries_the_exchange
        {Num : JSNumber} {E : Engine} {D : TextDecoder} {U : Utils}
        (now now' : Z) (message message' : string) (onChunk onChunk' : bool)
        (model model' : option string)
        (values : list (list Byte.byte)) (ending : StreamEnd) (net' : FetchResult)
        (calls : list Emission) (fullContent : string) (st : State) :
  let run := sendChatMessage now message onChunk model (HttpOk values ending) st in
  fst (canMakeRequest now (apiRateLimiter st)) = true ->
  (sanitizePrompt message =? "") = false ->
  decodeStream onChunk values ending = (calls, inr fullContent) ->
  (fullContent =? "") = false ->
  fst (canMakeRequest now' (apiRateLimiter (final run))) = true ->
  (sanitizePrompt message' =? "") = false ->
  result run = Resolved fullContent
  /\ hd_error (events (sendChatMessage now' message' onChunk' model' net' (final run)))
     = Some (Fetch (PostChat
                      (chatHistory st
                       ++ [ {| role := user; content := sanitizePrompt message |};
                            {| role := assistant; content := fullContent |};
                            {| role := user; content := sanitizePrompt message' |} ])%list
                      (selectModel model' (currentChatModel st)) true
                      (webSearchEnabled st))).
Proof.
  cbv zeta. intros Hgate Hmsg Hstream Hfull.
  assert (Hrun : sendChatMessage now message onChunk model (HttpOk values ending) st
                 = {| result := Resolved fullContent;
                      events := Fetch (PostChat
                                  (chatHistory st
                                   ++ [ {| role := user; content := sanitizePrompt message |} ])
                                  (selectModel model (currentChatModel st)) true
                                  (webSearchEnabled st))
                                :: map (fun c => OnChunk (fst c) (snd c)) calls;
                      final := withHistory
                                 (withLimiter st (snd (canMakeRequest now (apiRateLimiter st))))
                                 ((chatHistory st
                                   ++ [ {| role := user; content := sanitizePrompt message |} ])
                                  ++ [ {| role := assistant; content := fullContent |} ]) |}).
  { unfold sendChatMessage. rewrite (checkRateLimit_admitted _ _ Hgate), Hmsg.
    unfold exchange. rewrite Hstream, Hfull. reflexivity. }
  rewrite Hrun. cbn [result final]. intros Hgate' Hmsg'. split; [reflexivity|].
  unfold sendChatMessage at 1. rewrite (checkRateLimit_admitted _ _ Hgate'), Hmsg'.
  cbn [chatHistory withHistory withLimiter currentChatModel webSearchEnabled].
  rewrite <- !app_assoc. cbn [app].
  now destruct (exchange onChunk' net' _) as [[[e|r] calls'] history].
Qed.

(** Two exchanges from the loaded state: the first is answered [Hi]. *)
Lemma next_request_witness :
  (fst (canMakeRequest (Utils := Reference.utils) 0 (apiRateLimiter Reference.loaded)) = true
   /\ (sanitizePrompt (Utils := Reference.utils) "hello" =? "") = false
   /\ decodeStream (E := Reference.engine) (D := Reference.decoder) true
        [Reference.bytes ("data: {'choices':[{'delta':{'content':'Hi'}}]}" ++ Reference.NL)]
        StreamDone
      = ([(JStr "Hi", "Hi")], inr "Hi")
   /\ ("Hi" =? "") = false
   /\ (sanitizePrompt (Utils := Reference.utils) " and now? " =? "") = false)
  /\ result (sendChatMessage (E := Reference.engine) (D := Reference.decoder)
               0 "hello" true None
               (HttpOk
                  [Reference.bytes
                     ("data: {'choices':[{'delta':{'content':'Hi'}}]}" ++ Reference.NL)]
                  StreamDone)
               Reference.loaded)
     = Resolved "Hi"
  /\ hd_error
       (events
          (sendChatMessage (E := Reference.engine) (D := Reference.decoder) 5 " and now? "
             false (Some "x-ai/grok-4.1-fast") (FetchRejected (mkError "offline"))
             (final
                (sendChatMessage (E := Reference.engine) (D := Reference.decoder)
                   0 "hello" true None
                   (HttpOk
                      [Reference.bytes
                         ("data: {'choices':[{'delta':{'content':'Hi'}}]}" ++ Reference.NL)]
                      StreamDone)
                   Reference.loaded))))
     = Some (Fetch (PostChat
                      [ {| role := user; content := "hello" |};
                        {| role := assistant; content := "Hi" |};
                        {| role := user; content := "and now?" |} ]
                      "x-ai/grok-4.1-fast" true false)).
Proof.
  split; [repeat split; reflexivity|].
  exact (next_request_carries_the_exchange
                  (E := Reference.engine) (D := Reference.decoder) (U := Reference.utils)
                  0 5 "hello" " and now? " true false None (Some "x-ai/grok-4.1-fast")
                  [Reference.bytes
                     ("data: {'choices':[{'delta':{'content':'Hi'}}]}" ++ Reference.NL)]
                  StreamDone (FetchRejected (mkError "offline"))
                  [(JStr "Hi", "Hi")] "Hi" Reference.loaded
                  eq_refl eq_refl eq_refl eq_refl eq_refl eq_refl).
Defined.

(** X15. No operation changes the selected models or the web search
    flag, and the operations on images leave the conversation alone:
    whatever the response is and however the operation settles. *)
Theorem operations_keep_the_settings
        {Num : JSNumber} {E : Engine} {R : ResponseEngine} {D : TextDecoder} {U : Utils}
        (now : Z) (prompt image : string) (optImage model : option string)
        (onChunk : bool) (net : FetchResult) (r : JsonFetch) (st : State) :
  settings (final (sendChatMessage now prompt onChunk model net st)) = settings st
  /\ (settings (snd (analyzeImage now image prompt r st)) = settings st
      /\ chatHistory (snd (analyzeImage now image prompt r st)) = chatHistory st)
  /\ (settings (snd (editImage now image prompt model r st)) = settings st
      /\ chatHistory (snd (editImage now image prompt model r st)) = chatHistory st)
  /\ (settings (snd (enhancePromptWithAI now prompt optImage r st)) = settings st
      /\ chatHistory (snd (enhancePromptWithAI now prompt optImage r st)) = chatHistory st)
  /\ (settings (snd (generateImage now prompt model r st)) = settings st
      /\ chatHistory (snd (generateImage now prompt model r st)) = chatHistory st).
Proof.
  unfold analyzeImage, editImage, enhancePromptWithAI, generateImage, settle,
    sendChatMessage, analyzeImage_request, editImage_request,
    enhancePromptWithAI_request, generateImage_request.
  destruct (checkRateLimit now (apiRateLimiter st)) as [[[]|e] l];
    [|repeat split; reflexivity].
  destruct (sanitizePrompt prompt =? ""); [repeat split; reflexivity|].
  split; [now destruct (exchange _ _ _) as [[[e|x] calls] history]|].
  split; [destruct (prepareImageForUpload image); [now split|];
          now destruct (responseJson r)|].
  split; [destruct (prepareImageForUpload image); [now split|];
          now destruct (bindTry _ _)|].
  split; [|now destruct (bindTry _ _)].
  destruct optImage as [[|c i]|]; try (now destruct (bindTry _ _)).
  destruct (prepareImageForUpload _); [now split|]. now destruct (bindTry _ _).
Qed.

Lemma httpError_with_message
      {Num : JSNumber} {E : Engine} (status : Z) (errorData : JSValue) (msg : string) :
  prop errorData "error" = Some (JStr msg) -> (msg =? "") = false ->
  httpError status errorData = mkError msg.
Proof.
  intros Hprop Hmsg. unfold httpError. rewrite Hprop. unfold orElse.
  cbn [truthy]. rewrite Hmsg. cbn [negb toString].
  destruct errorData; try reflexivity. discriminate Hprop.
Qed.

(** X16. The error of a non-2xx response whose body has a non-empty
    string under [error]: the operation is rejected with that very message
    when it mentions the rate limit in any letter case, and with the
    user-presentable form of it otherwise. *)
Theorem http_error_message_is_kept_for_rate_limits
        {Num : JSNumber} {E : Engine} {R : ResponseEngine} {D : TextDecoder} {U : Utils}
        (now : Z) (prompt : string) (onChunk : bool) (model : option string)
        (status : Z) (errorData : JSValue) (msg : string) (st : State) :
  fst (canMakeRequest now (apiRateLimiter st)) = true ->
  (sanitizePrompt prompt =? "") = false ->
  prop errorData "error" = Some (JStr msg) ->
  (msg =? "") = false ->
  let rejection :=
    if includes "rate limit" (toLowerCase msg) then mkError msg
    else mkError (getUserFriendlyError (mkError msg)) in
  result (sendChatMessage now prompt onChunk model (HttpError status (inr errorData)) st)
  = Rejected rejection
  /\ fst (generateImage now prompt model (JsonResponse false status (inr errorData)) st)
     = Rejected rejection.
Proof.
  intros Hgate Hprompt Hprop Hmsg. cbv zeta.
  unfold generateImage, settle, generateImage_request, sendChatMessage.
  rewrite (checkRateLimit_admitted _ _ Hgate), Hprompt.
  unfold exchange, bindTry, responseJson.
  rewrite (httpError_with_message status errorData msg Hprop Hmsg).
  unfold rethrowFriendly. cbn [message result fst].
  now destruct (includes "rate limit" (toLowerCase msg)).
Qed.

(** A 429 of the proxy on the loaded state. *)
Lemma http_error_message_witness :
  (fst (canMakeRequest (Utils := Reference.utils) 0 (apiRateLimiter Reference.loaded)) = true
   /\ (sanitizePrompt (Utils := Reference.utils) "a cat" =? "") = false
   /\ prop ResponseExamples.limited "error" = Some (JStr "Rate limit exceeded upstream")
   /\ ("Rate limit exceeded upstream" =? "") = false)
  /\ result (sendChatMessage (E := Reference.engine) (D := Reference.decoder) 0 "a cat" true
               None (HttpError 429 (inr ResponseExamples.limited)) Reference.loaded)
     = Rejected (mkError "Rate limit exceeded upstream")
  /\ fst (generateImage (E := Reference.engine) (R := ResponseExamples.engine) 0 "a cat"
            None (JsonResponse false 429 (inr ResponseExamples.limited)) Reference.loaded)
     = Rejected (mkError "Rate limit exceeded upstream").
Proof.
  split; [repeat split; reflexivity|].
  exact (http_error_message_is_kept_for_rate_limits
           (E := Reference.engine) (R := ResponseExamples.engine)
           (D := Reference.decoder) (U := Reference.utils)
           0 "a cat" true None 429 ResponseExamples.limited
           "Rate limit exceeded upstream" Reference.loaded
           eq_refl eq_refl eq_refl eq_refl).
Defined.

(** ** The responses of the image operations *)

Lemma prefix_split (p s : string) :
  String.prefix p s = true -> s = p ++ slice_from (String.length p) s.
Proof.
  revert s. induction p as [|a p IH]; intros s.
  - now destruct s.
  - destruct s as [|b s]; cbn [String.prefix String.length slice_from append];
      [intros H; discriminate H|].
    destruct (ascii_dec a b) as [->|]; [|intros H; discriminate H].
    intros H. now rewrite <- (IH s H).
Qed.

Lemma span_sound (p : ascii -> bool) (s : string) : forall a b,
  span p s = (a, b) ->
  s = a ++ b /\ allChars p a = true
  /\ (b = "" \/ exists c r, b = String c r /\ p c = false).
Proof.
  induction s as [|c s IH]; intros a b; simpl.
  - intros H. injection H as <- <-. repeat split. now left.
  - destruct (p c) eqn:Hc.
    + destruct (span p s) as [a' b'] eqn:Hs. intros H. injection H as <- <-.
      destruct (IH a' b' eq_refl) as (-> & Ha & Hb).
      simpl. rewrite Hc, Ha. repeat split. exact Hb.
    + intros H. injection H as <- <-. repeat split. right. now exists c, s.
Qed.

(** What a match at the head of [s] is. *)
Lemma matchDataUriHere_sound (kind payload : ascii -> bool) (s m : string) :
  matchDataUriHere kind payload s = Some m ->
  exists subtype data post,
    s = m ++ post
    /\ m = "data:image/" ++ subtype ++ ";base64," ++ data
    /\ (subtype =? "") = false /\ (data =? "") = false
    /\ allChars kind subtype = true /\ allChars payload data = true
    /\ (post = "" \/ exists c r, post = String c r /\ payload c = false).
Proof.
  unfold matchDataUriHere, startsWith.
  destruct (String.prefix "data:image/" s) eqn:Hp; [|discriminate].
  destruct (span kind (slice_from 11 s)) as [subtype r1] eqn:Hs1.
  destruct (subtype =? "") eqn:Hsub; [discriminate|].
  destruct (String.prefix ";base64," r1) eqn:Hb; [|discriminate].
  cbn [negb orb].
  destruct (span payload (slice_from 8 r1)) as [data post] eqn:Hs2.
  destruct (data =? "") eqn:Hdata; [discriminate|].
  intros H. injection H as <-.
  destruct (span_sound _ _ _ _ Hs1) as (H1 & Hk & _).
  destruct (span_sound _ _ _ _ Hs2) as (H2 & Hpl & Hpost).
  exists subtype, data, post. repeat split; try assumption.
  rewrite (prefix_split _ _ Hp). change (String.length "data:image/") with 11.
  rewrite H1, (prefix_split _ _ Hb). change (String.length ";base64,") with 8.
  rewrite H2. cbn [append]. rewrite append_assoc. reflexivity.
Qed.

Lemma matchDataUri_sound (kind payload : ascii -> bool) (s : string) : forall m,
  matchDataUri kind payload s = Some m ->
  exists pre rest, s = pre ++ rest /\ matchDataUriHere kind payload rest = Some m.
Proof.
  induction s as [|c s IH]; intros m; cbn [matchDataUri].
  - destruct (matchDataUriHere kind payload "") eqn:Hh; [|discriminate].
    intros H. injection H as ->. now exists "", "".
  - destruct (matchDataUriHere kind payload (String c s)) eqn:Hh.
    + intros H. injection H as ->. now exists "", (String c s).
    + intros H. destruct (IH m H) as (pre & rest & -> & Hm).
      now exists (String c pre), rest.
Qed.

(** X17. The text matched by the expressions of lines 262 and 393 is a
    piece of the content that reads [data:image/], a non-empty subtype in
    the first class, [;base64,] and a non-empty payload in the second
    class, and that ends where the content ends or where the payload class
    does. *)
Theorem matched_data_uri_is_a_piece_of_the_content
        (kind payload : ascii -> bool) (content m : string) :
  matchDataUri kind payload content = Some m ->
  exists pre subtype data post,
    content = pre ++ m ++ post
    /\ m = "data:image/" ++ subtype ++ ";base64," ++ data
    /\ (subtype =? "") = false /\ (data =? "") = false
    /\ allChars kind subtype = true /\ allChars payload data = true
    /\ (post = "" \/ exists c r, post = String c r /\ payload c = false).
Proof.
  intros H. destruct (matchDataUri_sound _ _ _ _ H) as (pre & rest & -> & Hm).
  destruct (matchDataUriHere_sound _ _ _ _ Hm) as (subtype & data & post & -> & Hrest).
  now exists pre, subtype, data, post.
Qed.

(** The data URI of the example answer, by the expression of line 262. *)
Lemma matched_data_uri_witness :
  matchEditedImage ResponseExamples.answer = Some "data:image/png;base64,iVBORw0KGgo="
  /\ exists pre subtype data post,
       ResponseExamples.answer = pre ++ "data:image/png;base64,iVBORw0KGgo=" ++ post
       /\ "data:image/png;base64,iVBORw0KGgo=" = "data:image/" ++ subtype ++ ";base64," ++ data
       /\ (subtype =? "") = false /\ (data =? "") = false
       /\ allChars isWordChar subtype = true
       /\ allChars (fun c => negb (isWhiteSpace c)) data = true
       /\ (post = "" \/ exists c r, post = String c r /\ negb (isWhiteSpace c) = false).
Proof.
  split; [reflexivity|].
  exact (matched_data_uri_is_a_piece_of_the_content
           isWordChar (fun c => negb (isWhiteSpace c))
           ResponseExamples.answer "data:image/png;base64,iVBORw0KGgo=" eq_refl).
Defined.

Section ResponseFacts.
Context {Num : JSNumber} {E : Engine} {R : ResponseEngine} {U : Utils}.

Lemma matchDataUri_truthy (kind payload : ascii -> bool) (s m : string) :
  matchDataUri kind payload s = Some m -> truthy (JStr m) = true.
Proof.
  intros H. destruct (matchDataUri_sound _ _ _ _ H) as (pre & rest & _ & Hm).
  destruct (matchDataUriHere_sound _ _ _ _ Hm) as (subtype & data & post & _ & -> & _).
  reflexivity.
Qed.

Lemma firstImagePart_truthy (parts : list JSValue) : forall v,
  firstImagePart parts = inr (Some v) -> truthy_opt v = true.
Proof.
  induction parts as [|part rest IH]; intros v; cbn [firstImagePart]; [discriminate|].
  destruct (read (Some part) "type") as [e|[[| | |type| |]|]]; try discriminate;
    try (apply IH).
  destruct ((type =? "image_url") && truthy_opt _) eqn:Hc; [|apply IH].
  apply andb_true_iff in Hc as [_ Hc]. intros H. now injection H as <-.
Qed.

Lemma extractFromImages_truthy (choices v : option JSValue) :
  extractFromImages choices = inr v -> truthy_opt v = true.
Proof.
  unfold extractFromImages.
  destruct (negb (truthy_opt choices)); [discriminate|].
  destruct (lengthPositive _) as [e|[|]]; try discriminate.
  destruct (read _ "image_url") as [e|image_url]; [discriminate|].
  destruct (truthy_opt (optProp image_url "url")) eqn:H1;
    [intros H; now injection H as <-|].
  destruct (truthy_opt (optProp (optProp _ "0") "url")) eqn:H2;
    [intros H; now injection H as <-|discriminate].
Qed.

Lemma extractGeneratedImage_truthy (result : JSValue) (v : option JSValue) :
  extractGeneratedImage result = inr v -> truthy_opt v = true.
Proof.
  unfold extractGeneratedImage.
  destruct (read (Some result) "choices") as [e|choices]; [discriminate|].
  destruct (if truthy_opt choices then _ else None) as [[| | |[|c text]|parts|]|];
    try apply extractFromImages_truthy.
  - destruct (matchGeneratedImage (String c text)) as [m|] eqn:Hm;
      [|apply extractFromImages_truthy].
    intros H. injection H as <-. exact (matchDataUri_truthy _ _ _ _ Hm).
  - destruct (firstImagePart parts) as [e|[w|]] eqn:Hp; [discriminate| |
      apply extractFromImages_truthy].
    intros H. injection H as <-. exact (firstImagePart_truthy _ _ Hp).
Qed.

End ResponseFacts.

(** X18. generateImage resolves with a truthy value only: each of its
    four return statements is guarded, or returns a match that is not
    empty. *)
Theorem generateImage_resolves_with_a_truthy_value
        {Num : JSNumber} {E : Engine} {R : ResponseEngine} {U : Utils}
        (now : Z) (prompt : string) (model : option string) (r : JsonFetch)
        (st : State) (v : option JSValue) :
  fst (generateImage now prompt model r st) = Resolved v ->
  truthy_opt v = true.
Proof.
  unfold generateImage, settle.
  destruct (generateImage_request now prompt model st) as [[e|request] st1];
    [discriminate|].
  unfold bindTry. destruct (responseJson r) as [e|result]; [discriminate|].
  destruct (extractGeneratedImage result) as [e|w] eqn:Hx; [discriminate|].
  cbn [fst]. intros H. injection H as <-. exact (extractGeneratedImage_truthy _ _ Hx).
Qed.

(** A completion whose text carries the data URI of the example. *)
Lemma generateImage_truthy_witness :
  fst (generateImage (E := Reference.engine) (R := ResponseExamples.engine)
         (U := Reference.utils) 0 "a cat" None
         (JsonResponse true 200
            (inr (completion (JObj [("content", JStr ResponseExamples.answer)]))))
         Reference.loaded)
  = Resolved (Some (JStr "data:image/png;base64,iVBORw0KGgo="))
  /\ truthy_opt (Num := Reference.ZNumber)
       (Some (JStr "data:image/png;base64,iVBORw0KGgo=")) = true.
Proof.
  split; [reflexivity|].
  exact (generateImage_resolves_with_a_truthy_value
           (E := Reference.engine) (R := ResponseExamples.engine) (U := Reference.utils)
           0 "a cat" None
           (JsonResponse true 200
              (inr (completion (JObj [("content", JStr ResponseExamples.answer)]))))
           Reference.loaded (Some (JStr "data:image/png;base64,iVBORw0KGgo=")) eq_refl).
Defined.

(** X19. A response that is not ok never resolves an operation, whatever
    its body holds: every operation of api.js is then rejected. *)
Theorem error_response_never_resolves
        {Num : JSNumber} {E : Engine} {R : ResponseEngine} {D : TextDecoder} {U : Utils}
        (now status : Z) (prompt image : string) (optImage model : option string)
        (onChunk : bool) (json : JSError + JSValue) (st : State) :
  let r := JsonResponse false status json in
  (exists e, fst (analyzeImage now image prompt r st) = Rejected e)
  /\ (exists e, fst (editImage now image prompt model r st) = Rejected e)
  /\ (exists e, fst (enhancePromptWithAI now prompt optImage r st) = Rejected e)
  /\ (exists e, fst (generateImage now prompt model r st) = Rejected e)
  /\ (exists e, result (sendChatMessage now prompt onChunk model (HttpError status json) st)
                = Rejected e).
Proof.
  cbv zeta.
  unfold analyzeImage, editImage, enhancePromptWithAI, generateImage, settle, bindTry,
    responseJson.
  repeat split.
  - destruct (analyzeImage_request _ _ _ _) as [[e|q] st1]; [now eexists|].
    destruct json; now eexists.
  - destruct (editImage_request _ _ _ _ _) as [[e|q] st1]; [now eexists|].
    destruct json; now eexists.
  - destruct (enhancePromptWithAI_request _ _ _ _) as [[e|q] st1]; [now eexists|].
    destruct json; now eexists.
  - destruct (generateImage_request _ _ _ _) as [[e|q] st1]; [now eexists|].
    destruct json; now eexists.
  - unfold sendChatMessage.
    destruct (checkRateLimit now (apiRateLimiter st)) as [[[]|e] l]; [|now eexists].
    destruct (sanitizePrompt prompt =? ""); [now eexists|].
    unfold exchange. destruct json; now eexists.
Qed.

Lemma endsWithChar_snoc (c q : ascii) (s : string) :
  endsWithChar c (s ++ String q "") = Ascii.eqb q c.
Proof.
  induction s as [|a s IH]; [reflexivity|].
  cbn [append endsWithChar]. destruct (s ++ String q "") eqn:Hs; [|exact IH].
  destruct s; discriminate.
Qed.

Lemma dropLast_snoc (q : ascii) (s : string) : dropLast (s ++ String q "") = s.
Proof.
  induction s as [|a s IH]; [reflexivity|].
  cbn [append dropLast]. destruct (s ++ String q "") eqn:Hs.
  - destruct s; discriminate.
  - now rewrite IH.
Qed.

Lemma prefix_char (c a : ascii) (r : string) :
  String.prefix (String c "") (String a r) = Ascii.eqb c a.
Proof.
  cbn [String.prefix]. destruct (ascii_dec c a) as [->|Hne].
  - rewrite Ascii.eqb_refl. now destruct r.
  - symmetry. now apply Ascii.eqb_neq.
Qed.

(** X20. Lines 322-326 remove one pair of surrounding quotes and no
    more: a text between two equal quotes is returned without them,
    whatever it holds, and a text between two different quotes is
    returned as it is. *)
Theorem one_pair_of_quotes_is_removed (open close : ascii) (s : string) :
  (open = "034"%char \/ open = "'"%char) ->
  (close = "034"%char \/ close = "'"%char) ->
  stripQuotes (String open (s ++ String close ""))
  = if Ascii.eqb open close then s else String open (s ++ String close "").
Proof.
  intros Ho Hc. unfold stripQuotes, startsWith.
  change (endsWithChar ?c (String open (s ++ String close "")))
    with (endsWithChar c ((String open s) ++ String close "")).
  rewrite !endsWithChar_snoc, !prefix_char. cbn [slice_from]. rewrite dropLast_snoc.
  destruct Ho as [->| ->], Hc as [->| ->]; reflexivity.
Qed.

(** A quoted text that holds quotes of its own. *)
Lemma one_pair_of_quotes_witness :
  stripQuotes (String "'" ("'a' cat" ++ String "'" "")) = "'a' cat".
Proof.
  exact (one_pair_of_quotes_is_removed "'" "'" "'a' cat"
           (or_intror eq_refl) (or_intror eq_refl)).
Defined.

(** X21. A message that holds both an entry of [images] and a data URI in
    its text: editImage returns the [url] of the entry as it is, whatever
    value it has, and generateImage returns the data URI of the text. *)
Theorem edit_prefers_images_and_generate_the_text
        {Num : JSNumber} {E : Engine} {R : ResponseEngine}
        (text m : string) (url : JSValue) :
  matchGeneratedImage text = Some m ->
  let result :=
    completion (JObj [ ("content", JStr text); ("images", imageEntry url) ]) in
  extractEditedImage result = inr (Some url)
  /\ extractGeneratedImage result = inr (Some (JStr m)).
Proof.
  intros Hm. cbv zeta. split; [reflexivity|].
  destruct text as [|c text]; [discriminate Hm|].
  unfold extractGeneratedImage, completion.
  cbn [read prop ownProp String.eqb Ascii.eqb Bool.eqb truthy_opt truthy firstMessage
       optProp nth_error].
  now rewrite Hm.
Qed.

(** The example answer beside an entry whose [url] is [null]. *)
Lemma edit_prefers_images_witness :
  matchGeneratedImage ResponseExamples.answer = Some "data:image/png;base64,iVBORw0KGgo="
  /\ extractEditedImage (E := Reference.engine) (R := ResponseExamples.engine)
       (completion (JObj [ ("content", JStr ResponseExamples.answer);
                           ("images", imageEntry JNull) ]))
     = inr (Some JNull)
  /\ extractGeneratedImage (E := Reference.engine) (R := ResponseExamples.engine)
       (completion (JObj [ ("content", JStr ResponseExamples.answer);
                           ("images", imageEntry JNull) ]))
     = inr (Some (JStr "data:image/png;base64,iVBORw0KGgo=")).
Proof.
  split; [reflexivity|].
  exact (edit_prefers_images_and_generate_the_text
           (E := Reference.engine) (R := ResponseExamples.engine)
           ResponseExamples.answer "data:image/png;base64,iVBORw0KGgo=" JNull eq_refl).
Defined.

(** X22. A content that is an array of parts is read by generateImage
    only: it returns the first image part with a truthy [url], where
    editImage, finding no [images], calls [match] on the array and
    throws. *)
Theorem array_content_is_read_by_generate_only
        {Num : JSNumber} {E : Engine} {R : ResponseEngine}
        (parts : list JSValue) (found : option JSValue) :
  firstImagePart parts = inr (Some found) ->
  let result := completion (JObj [ ("content", JArr parts) ]) in
  extractGeneratedImage result = inr found
  /\ extractEditedImage result = inl (TypeError_notFunction "match").
Proof.
  intros Hp. cbv zeta. split; [|reflexivity].
  unfold extractGeneratedImage, completion.
  cbn [read prop ownProp String.eqb Ascii.eqb Bool.eqb truthy_opt truthy firstMessage
       optProp nth_error].
  now rewrite Hp.
Qed.

(** A text part and an image part. *)
Lemma array_content_witness :
  firstImagePart (R := ResponseExamples.engine)
    [ JObj [("type", JStr "text"); ("text", JStr "done")];
      JObj [("type", JStr "image_url");
            ("image_url", JObj [("url", JStr "https://cdn.example/cat.png")])] ]
  = inr (Some (Some (JStr "https://cdn.example/cat.png")))
  /\ extractGeneratedImage (E := Reference.engine) (R := ResponseExamples.engine)
       (completion
          (JObj [ ("content",
                   JArr [ JObj [("type", JStr "text"); ("text", JStr "done")];
                          JObj [("type", JStr "image_url");
                                ("image_url",
                                 JObj [("url", JStr "https://cdn.example/cat.png")])] ]) ]))
     = inr (Some (JStr "https://cdn.example/cat.png"))
  /\ extractEditedImage (E := Reference.engine) (R := ResponseExamples.engine)
       (completion
          (JObj [ ("content",
                   JArr [ JObj [("type", JStr "text"); ("text", JStr "done")];
                          JObj [("type", JStr "image_url");
                                ("image_url",
                                 JObj [("url", JStr "https://cdn.example/cat.png")])] ]) ]))
     = inl (TypeError_notFunction (ResponseEngine := ResponseExamples.engine) "match").
Proof.
  split; [reflexivity|].
  exact (array_content_is_read_by_generate_only
           (E := Reference.engine) (R := ResponseExamples.engine)
           [ JObj [("type", JStr "text"); ("text", JStr "done")];
             JObj [("type", JStr "image_url");
                   ("image_url", JObj [("url", JStr "https://cdn.example/cat.png")])] ]
           (Some (JStr "https://cdn.example/cat.png")) eq_refl).
Defined.

(** ** From api.js to the chat proxy *)

Lemma mapMessages_of_turns {Num : JSNumber} (turns : list Turn) :
  ChatApi.mapMessages (map turnJson turns) = Some (map forwardedTurn turns).
Proof.
  induction turns as [|[[|] text] turns IH]; [reflexivity| |];
    cbn [map ChatApi.mapMessages]; rewrite IH; reflexivity.
Qed.

(** X23. The request that sendChatMessage posts, handled by the chat
    proxy: the upstream request carries the selected model as it is, the
    system message followed by the turns of the conversation in their
    order and with their roles, each content sanitized and the turns left
    empty by that dropped, the streaming flag, and the web plugin exactly
    when web search is enabled. *)
Theorem conversation_reaches_the_upstream_api
        {Num : JSNumber} {D : TextDecoder}
        (env : Vercel.Env) (apiKey : string) (upstream : Vercel.Upstream)
        (turns : list Turn) (model : string) (webSearch : bool) :
  Vercel.OPENROUTER_API_KEY env = Some apiKey -> apiKey <> "" ->
  model <> "" ->
  filter ChatApi.hasContent (map forwardedTurn turns) <> [] ->
  ChatApi.sent
    (ChatApi.handler env
       {| Vercel.method := "POST";
          Vercel.body := Some (wireBody turns model true webSearch) |}
       upstream)
  = Some {| ChatApi.url := Vercel.OPENROUTER_API_URL;
            ChatApi.request_headers := Vercel.headers env apiKey "AI Photo Editor - Chat";
            ChatApi.request_body :=
              {| ChatApi.model := model;
                 ChatApi.messages :=
                   ChatApi.systemMessage
                   :: filter ChatApi.hasContent (map forwardedTurn turns);
                 ChatApi.stream := JBool true;
                 ChatApi.max_tokens := 4096;
                 ChatApi.plugins :=
                   if webSearch then Some [ChatApi.webPlugin] else None |} |}.
Proof.
  intros Hkey Hk Hmodel.
  remember (filter ChatApi.hasContent (map forwardedTurn turns)) as forwarded eqn:Hf.
  intros Hturns.
  unfold ChatApi.handler. cbn [Vercel.method Vercel.body String.eqb Ascii.eqb Bool.eqb negb].
  rewrite Hkey. destruct apiKey as [|k apiKey]; [contradiction|].
  unfold wireBody, ChatApi.tryBlock.
  destruct turns as [|turn turns]; [subst forwarded; contradiction|].
  destruct model as [|m model]; [contradiction|].
  change (prop (JObj ?l) "messages") with (Some (JArr (map turnJson (turn :: turns)))).
  change (prop (JObj ?l) "model") with (Some (JStr (String m model))).
  change (prop (JObj ?l) "stream") with (Some (JBool true)).
  change (prop (JObj ?l) "webSearch") with (Some (JBool webSearch)).
  cbn [map Vercel.asString].
  change (turnJson turn :: map turnJson turns) with (map turnJson (turn :: turns)).
  rewrite mapMessages_of_turns, <- Hf.
  destruct forwarded as [|f fs]; [contradiction|].
  reflexivity.
Qed.

(** The conversation of two turns whose answer has a line break, with web
    search enabled. *)
Lemma conversation_reaches_witness :
  filter ChatApi.hasContent
         (map forwardedTurn
              [ {| role := user; content := "hello" |};
                {| role := assistant; content := "Hi" ++ Reference.NL ++ "there" |};
                {| role := user; content := String CR "" |} ])
  = [ {| Vercel.msg_role := "user"; Vercel.msg_content := Vercel.Text "hello" |};
      {| Vercel.msg_role := "assistant"; Vercel.msg_content := Vercel.Text "Hithere" |} ]
  /\ ChatApi.sent
       (ChatApi.handler (Num := Reference.ZNumber) (D := Reference.decoder)
          ProxyExamples.env
          {| Vercel.method := "POST";
             Vercel.body :=
               Some (wireBody
                       [ {| role := user; content := "hello" |};
                         {| role := assistant; content := "Hi" ++ Reference.NL ++ "there" |};
                         {| role := user; content := String CR "" |} ]
                       "x-ai/grok-4.1-fast" true true) |}
          Vercel.UpstreamRejected)
     = Some {| ChatApi.url := Vercel.OPENROUTER_API_URL;
               ChatApi.request_headers :=
                 Vercel.headers ProxyExamples.env "sk-test" "AI Photo Editor - Chat";
               ChatApi.request_body :=
                 {| ChatApi.model := "x-ai/grok-4.1-fast";
                    ChatApi.messages :=
                      ChatApi.systemMessage
                      :: filter ChatApi.hasContent
                           (map forwardedTurn
                                [ {| role := user; content := "hello" |};
                                  {| role := assistant;
                                     content := "Hi" ++ Reference.NL ++ "there" |};
                                  {| role := user; content := String CR "" |} ]);
                    ChatApi.stream := JBool true;
                    ChatApi.max_tokens := 4096;
                    ChatApi.plugins := Some [ChatApi.webPlugin] |} |}.
Proof.
  split; [reflexivity|].
  exact (conversation_reaches_the_upstream_api
           (Num := Reference.ZNumber) (D := Reference.decoder)
           ProxyExamples.env "sk-test" Vercel.UpstreamRejected
           [ {| role := user; content := "hello" |};
             {| role := assistant; content := "Hi" ++ Reference.NL ++ "there" |};
             {| role := user; content := String CR "" |} ]
           "x-ai/grok-4.1-fast" true eq_refl
           (fun H : "sk-test" = "" => eq_ind "sk-test"
              (fun s => match s with EmptyString => False | String _ _ => True end) I "" H)
           (fun H : "x-ai/grok-4.1-fast" = "" => eq_ind "x-ai/grok-4.1-fast"
              (fun s => match s with EmptyString => False | String _ _ => True end) I "" H)
           (fun H => eq_ind
              (filter ChatApi.hasContent
                 (map forwardedTurn
                    [ {| role := user; content := "hello" |};
                      {| role := assistant; content := "Hi" ++ Reference.NL ++ "there" |};
                      {| role := user; content := String CR "" |} ]))
              (fun l => match l with [] => False | _ :: _ => True end) I [] H)).
Defined.

(** ** The module state and the next request *)

(** X24. What the setters leave is what the next chat request carries:
    after setChatModel with a name the registry answers for,
    clearChatHistory and toggleWebSearch, an admitted call without a model
    of its own posts the new user turn alone, for that model, with the
    flag toggleWebSearch returned. *)
Theorem next_request_reflects_the_module_state
        {Num : JSNumber} {E : Engine} {D : TextDecoder} {U : Utils}
        (now : Z) (message modelId : string) (onChunk : bool) (net : FetchResult)
        (st : State) :
  let toggled := toggleWebSearch (clearChatHistory (setChatModel modelId st)) in
  registryRead_truthy CHAT_MODELS modelId = true ->
  fst (canMakeRequest now (apiRateLimiter st)) = true ->
  (sanitizePrompt message =? "") = false ->
  hd_error (events (sendChatMessage now message onChunk None net (snd toggled)))
  = Some (Fetch (PostChat [ {| role := user; content := sanitizePrompt message |} ]
                          modelId true (fst toggled)))
  /\ fst toggled = negb (webSearchEnabled st).
Proof.
  cbv zeta. intros Hreg Hgate Hmsg.
  unfold setChatModel. rewrite Hreg.
  unfold toggleWebSearch, clearChatHistory, withWebSearch, withHistory.
  cbn [fst snd apiRateLimiter currentGenerationModel currentEditModel currentChatModel
       chatHistory webSearchEnabled].
  split; [|reflexivity].
  unfold sendChatMessage. cbn [apiRateLimiter].
  rewrite (checkRateLimit_admitted _ _ Hgate), Hmsg.
  cbn [chatHistory withLimiter currentChatModel webSearchEnabled selectModel app].
  now destruct (exchange onChunk net _) as [[[e|r] calls] history].
Qed.

(** From the loaded state, with a model of the registry. *)
Lemma next_request_reflects_witness :
  (registryRead_truthy CHAT_MODELS "openai/gpt-5.1" = true
   /\ fst (canMakeRequest (Utils := Reference.utils) 0 (apiRateLimiter Reference.loaded)) = true
   /\ (sanitizePrompt (Utils := Reference.utils) "hello" =? "") = false)
  /\ hd_error
       (events
          (sendChatMessage (E := Reference.engine) (D := Reference.decoder) 0 "hello" true
             None (FetchRejected (mkError "offline"))
             (snd (toggleWebSearch
                     (clearChatHistory (setChatModel "openai/gpt-5.1" Reference.loaded))))))
     = Some (Fetch (PostChat [ {| role := user; content := "hello" |} ]
                             "openai/gpt-5.1" true
                             (fst (toggleWebSearch
                                     (clearChatHistory
                                        (setChatModel "openai/gpt-5.1" Reference.loaded))))))
  /\ fst (toggleWebSearch (clearChatHistory (setChatModel "openai/gpt-5.1" Reference.loaded)))
     = negb (webSearchEnabled Reference.loaded).
Proof.
  split; [repeat split; reflexivity|].
  exact (next_request_reflects_the_module_state
           (E := Reference.engine) (D := Reference.decoder) (U := Reference.utils)
           0 "hello" "openai/gpt-5.1" true (FetchRejected (mkError "offline"))
           Reference.loaded eq_refl eq_refl eq_refl).
Defined.

(** X25. toggleWebSearch is an involution on the module state, it
    returns the flag it has set, and setWebSearchEnabled with that flag
    gives the same state. *)
Theorem toggling_twice_restores_the_state {U : Utils} (st : State) :
  snd (toggleWebSearch (snd (toggleWebSearch st))) = st
  /\ fst (toggleWebSearch (snd (toggleWebSearch st))) = webSearchEnabled st
  /\ webSearchEnabled (snd (toggleWebSearch st)) = fst (toggleWebSearch st)
  /\ setWebSearchEnabled (fst (toggleWebSearch st)) st = snd (toggleWebSearch st).
Proof.
  destruct st as [l g e c h w]. unfold toggleWebSearch, setWebSearchEnabled, withWebSearch.
  cbn. rewrite Bool.negb_involutive. repeat split.
Qed.

(** X26. The error of checkRateLimit: it is thrown exactly when the
    limiter refuses; its message names the least number of whole seconds
    that covers the time the limiter asks to wait, and it mentions the
    rate limit, so that the catch blocks of the operations would throw it
    again as it is. *)
Theorem rate_limit_error_names_the_wait {U : Utils} (now : Z) (l : RateLimiter) :
  let ms := fst (getTimeUntilNextRequest now (snd (canMakeRequest now l))) in
  ((exists e, fst (checkRateLimit now l) = inr e) <-> fst (canMakeRequest now l) = false)
  /\ (fst (checkRateLimit now l) = inl tt <-> fst (canMakeRequest now l) = true)
  /\ forall e, fst (checkRateLimit now l) = inr e ->
       (exists seconds,
          message e = "Rate limit exceeded. Please wait " ++ ofZ seconds
                      ++ " seconds before making another request."
          /\ (1000 * (seconds - 1) < ms <= 1000 * seconds)%Z)
       /\ rethrowFriendly e = e.
Proof.
  cbv zeta. unfold checkRateLimit.
  destruct (canMakeRequest now l) as [[|] l1]; cbn [snd fst].
  - split; [split; [intros [e He]; discriminate He | discriminate]|].
    split; [split; reflexivity|]. intros e He. discriminate He.
  - destruct (getTimeUntilNextRequest now l1) as [ms l2]. cbn [fst].
    split; [split; [reflexivity | intros _; eexists; reflexivity]|].
    split; [split; discriminate|].
    intros e He. injection He as <-. split; [|reflexivity].
    exists (ceilDiv ms 1000). split; [reflexivity|]. unfold ceilDiv.
    pose proof (Z.div_mod (- ms) 1000 ltac:(lia)) as Hdm.
    pose proof (Z.mod_pos_bound (- ms) 1000 ltac:(lia)) as Hb. lia.
Qed.

(** The full window of the example at time 60000: the limiter refuses,
    so checkRateLimit throws; the oldest admission, made at 1000, is
    outside the window after 1001 milliseconds, which the message rounds
    up to two seconds. *)
Lemma rate_limit_error_witness :
  fst (canMakeRequest (Utils := Reference.utils) 60000 Reference.fullWindow) = false
  /\ fst (checkRateLimit (U := Reference.utils) 60000 Reference.fullWindow)
     = inr (mkError "Rate limit exceeded. Please wait 2 seconds before making another request.")
  /\ exists e, fst (checkRateLimit (U := Reference.utils) 60000 Reference.fullWindow)
               = inr e.
Proof.
  split; [reflexivity|]. split; [reflexivity|].
  exact (proj2 (proj1 (rate_limit_error_names_the_wait (U := Reference.utils)
                         60000 Reference.fullWindow)) eq_refl).
Defined.
